(** * lcdb_test_data.build: a shallow embedding of [build.py]

    The program provisions a conda environment keyed by the MD5 digest of a
    bundled manifest and then runs snakemake inside it.  Everything it does
    is an effect on the file system or an external process, so the embedding
    is a state-and-exception monad over a small model of the operating
    system: a tree of directories and files, path resolution as the kernel
    does it, the [os] and [os.path] functions the program calls (translated
    from CPython's [posixpath.py] and [os.py]), [hashlib.md5], and an
    external-process oracle standing for [subprocess.Popen]. *)

From Stdlib Require Import ZArith Ascii String List Lia.
From Stdlib.Strings Require Import Byte.
From stdpp Require Import base option list strings gmap.

(** ** hashlib.md5 (RFC 1321) on 32-bit words held in [Z] *)

Module MD5.

Local Open Scope Z_scope.

Definition w32 (x : Z) : Z := x mod 2 ^ 32.
Definition not32 (x : Z) : Z := Z.lxor x 4294967295.
Definition rotl32 (x s : Z) : Z :=
  Z.lor (w32 (Z.shiftl x s)) (Z.shiftr x (32 - s)).

(** K[i] = floor(2^32 * |sin (i + 1)|) *)
Definition K : list Z :=
  [ 3614090360; 3905402710; 606105819; 3250441966;
    4118548399; 1200080426; 2821735955; 4249261313;
    1770035416; 2336552879; 4294925233; 2304563134;
    1804603682; 4254626195; 2792965006; 1236535329;
    4129170786; 3225465664; 643717713; 3921069994;
    3593408605; 38016083; 3634488961; 3889429448;
    568446438; 3275163606; 4107603335; 1163531501;
    2850285829; 4243563512; 1735328473; 2368359562;
    4294588738; 2272392833; 1839030562; 4259657740;
    2763975236; 1272893353; 4139469664; 3200236656;
    681279174; 3936430074; 3572445317; 76029189;
    3654602809; 3873151461; 530742520; 3299628645;
    4096336452; 1126891415; 2878612391; 4237533241;
    1700485571; 2399980690; 4293915773; 2240044497;
    1873313359; 4264355552; 2734768916; 1309151649;
    4149444226; 3174756917; 718787259; 3951481745 ].

Definition shifts : list Z :=
  [ 7; 12; 17; 22; 7; 12; 17; 22; 7; 12; 17; 22; 7; 12; 17; 22;
    5; 9; 14; 20; 5; 9; 14; 20; 5; 9; 14; 20; 5; 9; 14; 20;
    4; 11; 16; 23; 4; 11; 16; 23; 4; 11; 16; 23; 4; 11; 16; 23;
    6; 10; 15; 21; 6; 10; 15; 21; 6; 10; 15; 21; 6; 10; 15; 21 ].

Definition state : Type := Z * Z * Z * Z.

Definition init : state := (1732584193, 4023233417, 2562383102, 271733878).

Definition step (M : list Z) (st : state) (i : nat) : state :=
  let '(a, b, c, d) := st in
  let '(f, g) :=
    if (i <? 16)%nat then
      (Z.lor (Z.land b c) (Z.land (not32 b) d), i)
    else if (i <? 32)%nat then
      (Z.lor (Z.land d b) (Z.land (not32 d) c), (5 * i + 1) mod 16)%nat
    else if (i <? 48)%nat then
      (Z.lxor b (Z.lxor c d), (3 * i + 5) mod 16)%nat
    else
      (Z.lxor c (Z.lor b (not32 d)), (7 * i) mod 16)%nat in
  let x := w32 (f + a + nth i K 0 + nth g M 0) in
  (d, w32 (b + rotl32 x (nth i shifts 0)), b, c).

(** Little-endian decoding of four bytes and encoding of a word. *)
Definition word_of_bytes (bs : list Z) : Z :=
  nth 0 bs 0 + 256 * nth 1 bs 0 + 65536 * nth 2 bs 0 + 16777216 * nth 3 bs 0.

Definition bytes_of_word (x : Z) : list Z :=
  [ x mod 256; (x / 256) mod 256; (x / 65536) mod 256; (x / 16777216) mod 256 ].

Fixpoint words (n : nat) (bs : list Z) : list Z :=
  match n with
  | O => []
  | S n' => word_of_bytes (firstn 4 bs) :: words n' (skipn 4 bs)
  end.

Definition compress (st : state) (block : list Z) : state :=
  let M := words 16 block in
  let '(a, b, c, d) := st in
  let '(a', b', c', d') := fold_left (step M) (seq 0 64) st in
  (w32 (a + a'), w32 (b + b'), w32 (c + c'), w32 (d + d')).

Fixpoint blocks (n : nat) (st : state) (bs : list Z) : state :=
  match n with
  | O => st
  | S n' => blocks n' (compress st (firstn 64 bs)) (skipn 64 bs)
  end.

(** The message, one [0x80] byte, zeros up to 56 modulo 64, and the bit
    length on 8 little-endian bytes. *)
Definition pad (bs : list Z) : list Z :=
  let len := Z.of_nat (length bs) in
  let bits := (8 * len) mod 2 ^ 64 in
  bs ++ [128] ++ repeat 0 (Z.to_nat ((55 - len) mod 64))
     ++ bytes_of_word (bits mod 2 ^ 32) ++ bytes_of_word (bits / 2 ^ 32).

Definition digest (msg : list byte) : list Z :=
  let bs := pad (map (fun b => Z.of_N (Byte.to_N b)) msg) in
  let '(a, b, c, d) := blocks (length bs / 64) init bs in
  bytes_of_word a ++ bytes_of_word b ++ bytes_of_word c ++ bytes_of_word d.

Definition hex_digit (n : Z) : ascii :=
  match n with
  | 0 => "0" | 1 => "1" | 2 => "2" | 3 => "3" | 4 => "4" | 5 => "5"
  | 6 => "6" | 7 => "7" | 8 => "8" | 9 => "9" | 10 => "a" | 11 => "b"
  | 12 => "c" | 13 => "d" | 14 => "e" | _ => "f"
  end%char.

Fixpoint hex (bs : list Z) : string :=
  match bs with
  | [] => EmptyString
  | b :: bs' => String (hex_digit (b / 16)) (String (hex_digit (b mod 16)) (hex bs'))
  end.

Definition hexdigest (msg : list byte) : string := hex (digest msg).

End MD5.

(** The [hashlib.md5] object: [update] accumulates, [hexdigest] hashes what
    was accumulated. *)
Record md5_object := { md5_fed : list byte }.

Definition md5 : md5_object := {| md5_fed := [] |}.
Definition md5_update (h : md5_object) (data : list byte) : md5_object :=
  {| md5_fed := md5_fed h ++ data |}.
Definition md5_hexdigest (h : md5_object) : string := MD5.hexdigest (md5_fed h).

Local Open Scope string_scope.
Local Open Scope list_scope.

(** ** Python [str] operations the program relies on *)

Definition sep : ascii := "/"%char.

(** [s.startswith('/')] and [s.endswith('/')] *)
Definition startswith_sep (s : string) : bool :=
  match s with
  | String c _ => Ascii.eqb c sep
  | EmptyString => false
  end.

Fixpoint endswith_sep (s : string) : bool :=
  match s with
  | EmptyString => false
  | String c EmptyString => Ascii.eqb c sep
  | String _ s' => endswith_sep s'
  end.

(** [s.split('/')]: never empty, [''.split('/') == ['']] *)
Fixpoint split_sep (s : string) : list string :=
  match s with
  | EmptyString => [EmptyString]
  | String c s' =>
      if Ascii.eqb c sep then EmptyString :: split_sep s'
      else match split_sep s' with
           | x :: xs => String c x :: xs
           | [] => [String c EmptyString]
           end
  end.

(** [s.rfind('/') + 1]: the position just after the last separator, 0 when
    there is none.  [pos] is the index of the head of [s], [found] the best
    answer so far. *)
Fixpoint rfind_sep_succ (s : string) (pos found : nat) : nat :=
  match s with
  | EmptyString => found
  | String c s' => rfind_sep_succ s' (S pos) (if Ascii.eqb c sep then S pos else found)
  end.

(** Slices [s[:n]] and [s[n:]] *)
Fixpoint str_take (n : nat) (s : string) : string :=
  match n, s with
  | S n', String c s' => String c (str_take n' s')
  | _, _ => EmptyString
  end.

Fixpoint str_drop (n : nat) (s : string) : string :=
  match n, s with
  | S n', String _ s' => str_drop n' s'
  | _, _ => s
  end.

(** [s.rstrip('/')] *)
Fixpoint rstrip_sep (s : string) : string :=
  match s with
  | EmptyString => EmptyString
  | String c s' =>
      match rstrip_sep s' with
      | EmptyString => if Ascii.eqb c sep then EmptyString else String c EmptyString
      | r => String c r
      end
  end.

(** [s == '/' * len(s)] *)
Fixpoint all_sep (s : string) : bool :=
  match s with
  | EmptyString => true
  | String c s' => Ascii.eqb c sep && all_sep s'
  end.

Definition nonempty (s : string) : bool := negb (s =? "").

(** What [' '.join(x)] iterates over: the items of a list, or the
    one-character strings of a [str]. *)
Inductive pyargs :=
| PyList (items : list string)
| PyStr (s : string).

Fixpoint chars (s : string) : list string :=
  match s with
  | EmptyString => []
  | String c s' => String c EmptyString :: chars s'
  end.

Definition iterate (x : pyargs) : list string :=
  match x with
  | PyList items => items
  | PyStr s => chars s
  end.

Definition space_join (x : pyargs) : string := String.concat " " (iterate x).

(** ** os.path (posixpath.py) *)

(** [posixpath.join(a, b)]: an absolute [b] discards [a]; a separator is
    inserted unless [a] is empty or already ends with one. *)
Definition join2 (a b : string) : string :=
  if startswith_sep b then b
  else if (a =? "") || endswith_sep a then a +:+ b
  else a +:+ "/" +:+ b.

Definition os_path_join (a : string) (p : list string) : string :=
  fold_left join2 p a.

(** [posixpath.split(p)] *)
Definition os_path_split (p : string) : string * string :=
  let i := rfind_sep_succ p 0 0 in
  let head := str_take i p in
  let tail := str_drop i p in
  (if nonempty head && negb (all_sep head) then rstrip_sep head else head, tail).

(** [posixpath.normpath(path)] *)
Definition initial_slashes (path : string) : nat :=
  match path with
  | String c1 (String c2 (String c3 _)) =>
      if Ascii.eqb c1 sep then
        if Ascii.eqb c2 sep then (if Ascii.eqb c3 sep then 1 else 2) else 1
      else 0
  | String c1 (String c2 EmptyString) =>
      if Ascii.eqb c1 sep then (if Ascii.eqb c2 sep then 2 else 1) else 0
  | String c1 EmptyString => if Ascii.eqb c1 sep then 1 else 0
  | EmptyString => 0
  end%nat.

(** One iteration of the loop over [comps]; [new_comps] is kept reversed,
    so that [append] and [pop] work on its head. *)
Definition norm_step (slashes : nat) (new_comps : list string) (comp : string)
  : list string :=
  if (comp =? "") || (comp =? ".") then new_comps
  else if negb (comp =? "..")
          || (Nat.eqb slashes 0 && match new_comps with [] => true | _ => false end)
          || match new_comps with last :: _ => last =? ".." | [] => false end
       then comp :: new_comps
       else match new_comps with _ :: rest => rest | [] => [] end.

Definition norm_comps (path : string) : list string :=
  rev (fold_left (norm_step (initial_slashes path)) (split_sep path) []).

Fixpoint repeat_sep (n : nat) : string :=
  match n with
  | O => EmptyString
  | S n' => String sep (repeat_sep n')
  end.

Definition os_path_normpath (path : string) : string :=
  if path =? "" then "."
  else
    let r := repeat_sep (initial_slashes path) +:+ String.concat "/" (norm_comps path) in
    if r =? "" then "." else r.

(** [genericpath.commonprefix([a, b])] on two lists of components: the
    scan of [min] against [max] stops at the first index where the two
    differ, which is the length of their longest common prefix. *)
Fixpoint commonprefix (a b : list string) : list string :=
  match a, b with
  | x :: a', y :: b' => if x =? y then x :: commonprefix a' b' else []
  | _, _ => []
  end.

(** ** The operating system: files, processes, the log *)

Inductive node :=
| Dir
| File (data : list byte).

(** A location names a node by its components, innermost first: the root
    is [[]], the parent of a location is its tail. *)
Abbreviation loc := (list string).

Inductive errno := ENOENT | ENOTDIR | EEXIST | EISDIR.

(** A command as [subprocess.Popen] takes it: an argument vector, or a
    line for [/bin/bash] ([shell=True]). *)
Inductive command :=
| Argv (args : list string)
| ShellLine (line : string).

(** [OSError ENOENT] is Python's [FileNotFoundError], [OSError EEXIST] its
    [FileExistsError], [OSError ENOTDIR] its [NotADirectoryError] and
    [OSError EISDIR] its [IsADirectoryError]. *)
Inductive exn :=
| OSError (e : errno)
| ValueError (msg : string)
| TypeError (msg : string)
| UnicodeDecodeError
| RecursionError
| CalledProcessError (returncode : Z) (cmd : command).

Abbreviation FileExistsError := (OSError EEXIST).

Inductive level := INFO | ERROR.

Inductive logarg :=
| ArgStr (s : string)
| ArgCmd (c : command).

Inductive event :=
| EvLog (lvl : level) (fmt : string) (arg : logarg)
| EvPrint (line : string)
| EvSpawn (cmd : command) (cwd : string).

Record world := {
  fs : gmap loc node;
  cwd : loc;
  events : list event
}.

(** What a child process did by the time it was waited for. *)
Record process := {
  stdout : list (list byte);
  returncode : Z;
  fs_after : gmap loc node
}.

(** *** The state-and-exception monad of the program *)

Inductive res (A : Type) :=
| Ok (a : A)
| Raise (e : exn).
Arguments Ok {A} a.
Arguments Raise {A} e.

Definition M (A : Type) : Type := world -> res A * world.

Definition ret {A} (a : A) : M A := fun w => (Ok a, w).
Definition raise {A} (e : exn) : M A := fun w => (Raise e, w).
Definition bind {A B} (m : M A) (k : A -> M B) : M B :=
  fun w => match m w with
           | (Ok a, w') => k a w'
           | (Raise e, w') => (Raise e, w')
           end.

(** [try: m except FileExistsError: pass] *)
Definition except_FileExistsError (m : M unit) : M unit :=
  fun w => match m w with
           | (Raise FileExistsError, w') => (Ok tt, w')
           | r => r
           end.

Declare Scope py_scope.
Delimit Scope py_scope with py.
Notation "'let*' x ':=' m 'in' k" := (bind m (fun x => k))
  (at level 10, x name, m at level 100, k at level 200) : py_scope.
Notation "m ';;' k" := (bind m (fun _ => k))
  (at level 100, k at level 200, right associativity) : py_scope.

Definition emit (e : event) : M unit :=
  fun w => (Ok tt, {| fs := fs w; cwd := cwd w; events := events w ++ [e] |}).

Definition logger_info (fmt : string) (arg : string) : M unit :=
  emit (EvLog INFO fmt (ArgStr arg)).
Definition logger_error (fmt : string) (arg : command) : M unit :=
  emit (EvLog ERROR fmt (ArgCmd arg)).
Definition print (line : string) : M unit := emit (EvPrint line).

(** *** Path resolution *)

(** One component of a path, looked up in the directory [cur]. *)
Definition lookup_step (m : gmap loc node) (cur : loc) (c : string) : errno + loc :=
  match m !! cur with
  | None => inl ENOENT
  | Some (File _) => inl ENOTDIR
  | Some Dir =>
      if (c =? "") || (c =? ".") then inr cur
      else if c =? ".." then inr (tail cur)
      else match m !! (c :: cur) with
           | Some _ => inr (c :: cur)
           | None => inl ENOENT
           end
  end.

Fixpoint walk (m : gmap loc node) (cur : loc) (cs : list string) : errno + loc :=
  match cs with
  | [] => inr cur
  | c :: cs' =>
      match lookup_step m cur c with
      | inl e => inl e
      | inr next => walk m next cs'
      end
  end.

Definition start_of (w : world) (p : string) : loc :=
  if startswith_sep p then [] else cwd w.

(** [os.stat(p)] *)
Definition os_stat (w : world) (p : string) : errno + loc * node :=
  if p =? "" then inl ENOENT
  else match walk (fs w) (start_of w p) (split_sep p) with
       | inl e => inl e
       | inr l => match fs w !! l with
                  | Some n => inr (l, n)
                  | None => inl ENOENT
                  end
       end.

(** [os.path.exists(p)]: [os.stat] did not fail. *)
Definition os_path_exists (w : world) (p : string) : bool :=
  match os_stat w p with
  | inr _ => true
  | inl _ => false
  end.

Definition set_fs (m : gmap loc node) : M unit :=
  fun w => (Ok tt, {| fs := m; cwd := cwd w; events := events w |}).

(** Trailing separators do not count for the name a directory is made
    under. *)
Fixpoint strip_trailing_empty (cs : list string) : list string :=
  match cs with
  | [] => []
  | c :: cs' =>
      match strip_trailing_empty cs' with
      | [] => if c =? "" then [] else [c]
      | r => c :: r
      end
  end.

(** [os.mkdir(p)] *)
Definition os_mkdir (p : string) : M unit :=
  fun w =>
    if p =? "" then raise (OSError ENOENT) w
    else
      let cs := strip_trailing_empty (split_sep p) in
      match walk (fs w) (start_of w p) (removelast cs) with
      | inl e => raise (OSError e) w
      | inr cur =>
          match fs w !! cur with
          | None => raise (OSError ENOENT) w
          | Some (File _) => raise (OSError ENOTDIR) w
          | Some Dir =>
              let name := List.last cs "" in
              if (name =? "") || (name =? ".") || (name =? "..") then
                raise FileExistsError w
              else match fs w !! (name :: cur) with
                   | Some _ => raise FileExistsError w
                   | None => set_fs (<[name :: cur := Dir]> (fs w)) w
                   end
          end
      end.

(** [with open(p, 'wb') as fout: fout.write(data)], and with [data] empty
    [with open(p, 'w') as fout: pass].  A path that ends with a separator,
    or with [.] or [..], names a directory and cannot be opened for
    writing. *)
Definition write_file (p : string) (data : list byte) : M unit :=
  fun w =>
    if p =? "" then raise (OSError ENOENT) w
    else
      let cs := strip_trailing_empty (split_sep p) in
      match walk (fs w) (start_of w p) (removelast cs) with
      | inl e => raise (OSError e) w
      | inr cur =>
          match fs w !! cur with
          | None => raise (OSError ENOENT) w
          | Some (File _) => raise (OSError ENOTDIR) w
          | Some Dir =>
              let name := List.last cs "" in
              if (name =? "") || (name =? ".") || (name =? "..") || endswith_sep p then
                raise (OSError EISDIR) w
              else match fs w !! (name :: cur) with
                   | Some Dir => raise (OSError EISDIR) w
                   | _ => set_fs (<[name :: cur := File data]> (fs w)) w
                   end
          end
      end.

(** [os.makedirs(name)] with [exist_ok=False]; the recursion is on the
    head of the path, which is shorter than the path. *)
Fixpoint makedirs_rec (fuel : nat) (name : string) : M unit :=
  match fuel with
  | O => raise RecursionError
  | S fuel' =>
      let '(head, tail) := os_path_split name in
      let '(head, tail) := if tail =? "" then os_path_split head else (head, tail) in
      fun w =>
        if nonempty head && nonempty tail && negb (os_path_exists w head) then
          (except_FileExistsError (makedirs_rec fuel' head) ;;
           if tail =? "." then ret tt else os_mkdir name)%py w
        else os_mkdir name w
  end.

Definition os_makedirs (name : string) : M unit :=
  makedirs_rec (S (String.length name)) name.

(** [os.getcwd()] *)
Definition os_getcwd (w : world) : string :=
  "/" +:+ String.concat "/" (rev (cwd w)).

(** [os.path.abspath(path)] *)
Definition os_path_abspath (w : world) (path : string) : string :=
  os_path_normpath (if startswith_sep path then path else join2 (os_getcwd w) path).

(** [os.path.relpath(path, start)].  [path] is [None] when the attribute it
    is read from was never set; the test [if not path] comes before
    anything else in the function and rejects [None] and the empty string
    alike. *)
Definition os_path_relpath (path : option string) (start : string) : M string :=
  match path with
  | None => raise (ValueError "no path specified")
  | Some path =>
      if path =? "" then raise (ValueError "no path specified")
      else fun w =>
        let start_list := List.filter nonempty (split_sep (os_path_abspath w start)) in
        let path_list := List.filter nonempty (split_sep (os_path_abspath w path)) in
        let i := length (commonprefix start_list path_list) in
        let rel_list := repeat ".." (length start_list - i) ++ drop i path_list in
        match rel_list with
        | [] => ret "." w
        | a :: p => ret (os_path_join a p) w
        end
  end.

(** ** lcdb_test_data/build.py *)

Module Builder.

Section Program.

(** [pkg_resources.resource_string(package, name)]: the files bundled
    with the package. *)
Variable resource_string : string -> string -> list byte.

(** What running a command in a directory does: [None] when it cannot
    be started, otherwise its output, its exit status and the file
    system it leaves behind. *)
Variable exec : command -> loc -> gmap loc node -> option process.

(** [bytes.decode()], which fails on input that is not UTF-8. *)
Variable decode : list byte -> option string.

Local Open Scope py_scope.

(** [sp.Popen(cmd, ..., cwd=cwd)], the child run to completion. *)
Definition Popen (cmd : command) (cwd : string) : M process :=
  fun w =>
    match os_stat w cwd with
    | inl e => raise (OSError e) w
    | inr (_, File _) => raise (OSError ENOTDIR) w
    | inr (dir, Dir) =>
        match exec cmd dir (fs w) with
        | None => raise (OSError ENOENT) w
        | Some p => (emit (EvSpawn cmd cwd) ;; set_fs (fs_after p) ;; ret p) w
        end
    end.

(** [for i in p.stdout: print(i[:-1].decode())] *)
Fixpoint print_stdout (lines : list (list byte)) : M unit :=
  match lines with
  | [] => ret tt
  | i :: rest =>
      match decode (removelast i) with
      | None => raise UnicodeDecodeError
      | Some s => print s ;; print_stdout rest
      end
  end.

(** The attributes of a [Builder] object. *)
Record t := {
  data_dir : string;
  env_path : option string
}.

Definition __init__ (data_dir : string) : M t :=
  let self := {| data_dir := data_dir; env_path := None |} in
  fun w =>
    if negb (os_path_exists w data_dir) then
      (logger_info "Creating %s" data_dir ;;
       os_makedirs data_dir ;;
       ret self) w
    else ret self w.

Definition conda_create (rel_env : string) : command :=
  Argv ["conda"; "create"; "-y"; "--file"; "requirements.txt";
        "--prefix"; rel_env; "python=3"].

Definition build_environment (self : t) : M t :=
  let md5hash := md5 in
  let contents := resource_string "lcdb_test_data" "requirements.txt" in
  let md5hash := md5_update md5hash contents in
  write_file (os_path_join (data_dir self) ["requirements.txt"]) contents ;;
  let env_path :=
    os_path_join (data_dir self) [".conda-env"; str_take 6 (md5_hexdigest md5hash)] in
  let* rel_env := os_path_relpath (Some env_path) (data_dir self) in
  fun w =>
    if negb (os_path_exists w (os_path_join env_path [".success"])) then
      (logger_info "Building environment in %s" (os_path_abspath w env_path) ;;
       os_makedirs env_path ;;
       let cmd := conda_create rel_env in
       let* p := Popen cmd (data_dir self) in
       print_stdout (stdout p) ;;
       let retcode := returncode p in
       (if negb (retcode =? 0)%Z then
          logger_error "CMDS: %s" cmd ;;
          raise (CalledProcessError retcode cmd)
        else ret tt) ;;
       logger_info "Built environment %s" env_path ;;
       write_file (os_path_join env_path [".success"]) [] ;;
       ret {| data_dir := data_dir self; env_path := Some env_path |}) w
    else
      (logger_info "Using existing environment %s" (os_path_abspath w env_path) ;;
       ret {| data_dir := data_dir self; env_path := Some env_path |}) w.

Definition write_snakefile (self : t) : M string :=
  let name := os_path_join (data_dir self) ["Snakefile"] in
  write_file name (resource_string "lcdb_test_data" "Snakefile") ;;
  ret name.

Definition run_snakefile (self : t) (additional_args : pyargs) : M unit :=
  logger_info "Running snakemake in %s" (data_dir self) ;;
  let additional_args := space_join additional_args in
  let* rel := os_path_relpath (env_path self) (data_dir self) in
  let cmd := "source activate " +:+ rel +:+ "; snakemake " +:+ additional_args in
  let* p := Popen (ShellLine cmd) (data_dir self) in
  print_stdout (stdout p) ;;
  let retcode := returncode p in
  if negb (retcode =? 0)%Z then
    logger_error "CMDS: %s" (ShellLine cmd) ;;
    raise (CalledProcessError retcode (ShellLine cmd))
  else ret tt.

(** [main()], after [argparse] has split the command line into the
    target directory and the arguments it does not know. *)
Definition main (data_dir : string) (extra : list string) : M unit :=
  let* b := __init__ data_dir in
  let* b := build_environment b in
  write_snakefile b ;;
  run_snakefile b (PyList extra).

End Program.

End Builder.

(** ** Vocabulary of the specification *)

(** ['/' in s] *)
Fixpoint has_sep (s : string) : bool :=
  match s with
  | EmptyString => false
  | String c s' => Ascii.eqb c sep || has_sep s'
  end.

(** An ordinary file name: not empty, no separator, neither [.] nor [..]. *)
Definition is_name (c : string) : bool :=
  nonempty c && negb (has_sep c) && negb (c =? ".") && negb (c =? "..").

Definition is_hex_char (c : ascii) : bool :=
  match c with
  | "0" | "1" | "2" | "3" | "4" | "5" | "6" | "7" | "8" | "9"
  | "a" | "b" | "c" | "d" | "e" | "f" => true
  | _ => false
  end%char.

Fixpoint all_hex (s : string) : bool :=
  match s with
  | EmptyString => true
  | String c s' => is_hex_char c && all_hex s'
  end.

(** A location reached by a walk, required to be a directory. *)
Definition check_dir (m : gmap loc node) (r : errno + loc) : errno + loc :=
  match r with
  | inl e => inl e
  | inr l => match m !! l with
             | Some Dir => inr l
             | Some (File _) => inl ENOTDIR
             | None => inl ENOENT
             end
  end.

(** The directory a path names: where files joined to it are looked up.
    The empty path stands for the current directory in [posixpath.join]. *)
Definition dirloc (w : world) (a : string) : errno + loc :=
  check_dir (fs w)
    (if a =? "" then inr (cwd w) else walk (fs w) (start_of w a) (split_sep a)).

(** Directories stay directories and files stay files. *)
Definition same_kind (n n' : node) : Prop :=
  match n, n' with
  | Dir, Dir => True
  | File _, File _ => True
  | _, _ => False
  end.

Definition shape_le (m m' : gmap loc node) : Prop :=
  forall l n, m !! l = Some n -> exists n', m' !! l = Some n' /\ same_kind n n'.

(** How many processes a trace started. *)
Fixpoint spawn_count (evs : list event) : nat :=
  match evs with
  | [] => O
  | EvSpawn _ _ :: rest => S (spawn_count rest)
  | _ :: rest => spawn_count rest
  end.

(** The head [posixpath.split] finds in [join(a, name)]. *)
Definition head_of (a : string) : string :=
  if a =? "" then "" else if all_sep a then a else rstrip_sep a.

(** The argument of [normpath] in [abspath]. *)
Definition absolute (w : world) (path : string) : string :=
  if startswith_sep path then path else join2 (os_getcwd w) path.

(** What [normpath] keeps of a path: components that are neither empty nor
    cut by a separator. *)
Definition comp_ok (c : string) : Prop := c <> "" /\ has_sep c = false.

(** The two ways the program changes the world. *)
Definition add_event (w : world) (e : event) : world :=
  {| fs := fs w; cwd := cwd w; events := events w ++ [e] |}.

Definition with_fs (w : world) (m : gmap loc node) : world :=
  {| fs := m; cwd := cwd w; events := events w |}.

(** ** The runs of [build_environment]

    Each constructor of [build_outcome] is one path through the method,
    from the world it starts in to the result and the world it leaves. *)

Section Outcomes.

Variable resource_string : string -> string -> list byte.
Variable exec : command -> loc -> gmap loc node -> option process.
Variable decode : list byte -> option string.

(** The bundled manifest and the name its fingerprint gives the
    environment. *)
Definition manifest : list byte := resource_string "lcdb_test_data" "requirements.txt".
Definition fingerprint : string := str_take 6 (MD5.hexdigest manifest).

Definition requirements_path (d : string) : string := os_path_join d ["requirements.txt"].
Definition env_dir (d : string) : string := os_path_join d [".conda-env"; fingerprint].
Definition marker_path (d : string) : string := os_path_join (env_dir d) [".success"].
Definition rel_env : string := ".conda-env" +:+ "/" +:+ fingerprint.
Definition create_cmd : command := Builder.conda_create rel_env.

Definition built (d : string) : Builder.t :=
  {| Builder.data_dir := d; Builder.env_path := Some (env_dir d) |}.

Definition log_building (w : world) (d : string) : event :=
  EvLog INFO "Building environment in %s" (ArgStr (os_path_abspath w (env_dir d))).
Definition log_built (d : string) : event :=
  EvLog INFO "Built environment %s" (ArgStr (env_dir d)).
Definition log_reuse (w : world) (d : string) : event :=
  EvLog INFO "Using existing environment %s" (ArgStr (os_path_abspath w (env_dir d))).
Definition log_failed : event := EvLog ERROR "CMDS: %s" (ArgCmd create_cmd).

Inductive build_outcome (d : string) (w : world) : res Builder.t -> world -> Prop :=
| copy_failed e w1 :
    write_file (requirements_path d) manifest w = (Raise e, w1) ->
    build_outcome d w (Raise e) w1
| reused w1 :
    write_file (requirements_path d) manifest w = (Ok tt, w1) ->
    os_path_exists w1 (marker_path d) = true ->
    build_outcome d w (Ok (built d)) (add_event w1 (log_reuse w1 d))
| makedirs_failed w1 e w2 :
    write_file (requirements_path d) manifest w = (Ok tt, w1) ->
    os_path_exists w1 (marker_path d) = false ->
    os_makedirs (env_dir d) (add_event w1 (log_building w1 d)) = (Raise e, w2) ->
    build_outcome d w (Raise e) w2
| spawn_failed w1 w2 e w3 :
    write_file (requirements_path d) manifest w = (Ok tt, w1) ->
    os_path_exists w1 (marker_path d) = false ->
    os_makedirs (env_dir d) (add_event w1 (log_building w1 d)) = (Ok tt, w2) ->
    Builder.Popen exec create_cmd d w2 = (Raise e, w3) ->
    build_outcome d w (Raise e) w3
| output_failed w1 w2 p w3 e w4 :
    write_file (requirements_path d) manifest w = (Ok tt, w1) ->
    os_path_exists w1 (marker_path d) = false ->
    os_makedirs (env_dir d) (add_event w1 (log_building w1 d)) = (Ok tt, w2) ->
    Builder.Popen exec create_cmd d w2 = (Ok p, w3) ->
    Builder.print_stdout decode (stdout p) w3 = (Raise e, w4) ->
    build_outcome d w (Raise e) w4
| command_failed w1 w2 p w3 w4 :
    write_file (requirements_path d) manifest w = (Ok tt, w1) ->
    os_path_exists w1 (marker_path d) = false ->
    os_makedirs (env_dir d) (add_event w1 (log_building w1 d)) = (Ok tt, w2) ->
    Builder.Popen exec create_cmd d w2 = (Ok p, w3) ->
    Builder.print_stdout decode (stdout p) w3 = (Ok tt, w4) ->
    returncode p <> 0%Z ->
    build_outcome d w (Raise (CalledProcessError (returncode p) create_cmd))
      (add_event w4 log_failed)
| marker_failed w1 w2 p w3 w4 e w5 :
    write_file (requirements_path d) manifest w = (Ok tt, w1) ->
    os_path_exists w1 (marker_path d) = false ->
    os_makedirs (env_dir d) (add_event w1 (log_building w1 d)) = (Ok tt, w2) ->
    Builder.Popen exec create_cmd d w2 = (Ok p, w3) ->
    Builder.print_stdout decode (stdout p) w3 = (Ok tt, w4) ->
    returncode p = 0%Z ->
    write_file (marker_path d) [] (add_event w4 (log_built d)) = (Raise e, w5) ->
    build_outcome d w (Raise e) w5
| environment_built w1 w2 p w3 w4 w5 :
    write_file (requirements_path d) manifest w = (Ok tt, w1) ->
    os_path_exists w1 (marker_path d) = false ->
    os_makedirs (env_dir d) (add_event w1 (log_building w1 d)) = (Ok tt, w2) ->
    Builder.Popen exec create_cmd d w2 = (Ok p, w3) ->
    Builder.print_stdout decode (stdout p) w3 = (Ok tt, w4) ->
    returncode p = 0%Z ->
    write_file (marker_path d) [] (add_event w4 (log_built d)) = (Ok tt, w5) ->
    build_outcome d w (Ok (built d)) w5.

(** The package manager only adds to the file system: whatever was there
    when it started is still there, unchanged, when it exits. *)
Definition exec_preserves : Prop :=
  forall rel dir m p,
    exec (Builder.conda_create rel) dir m = Some p -> m ⊆ fs_after p.

(** Every line the command prints is text. *)
Definition decodable (p : process) : Prop :=
  Forall (fun line => is_Some (decode (removelast line))) (stdout p).

End Outcomes.

(** The world [w'] has everything [w] had, as it was or rewritten, and
    the same current directory. *)
Definition grows (w w' : world) : Prop :=
  cwd w' = cwd w /\ shape_le (fs w) (fs w').

(** The target directory [d] holds a copy of the file [name] with exactly
    the bytes [data]. *)
Definition has_copy (w : world) (d name : string) (data : list byte) : Prop :=
  exists cur, dirloc w d = inr cur /\ fs w !! (name :: cur) = Some (File data).

(** ** A scenario to run the program on

    The target directory [./data] under [/home], the manifest
    [packageA\npackageB\n], and a package manager that creates
    [conda-meta] inside the prefix it is given and exits with the status
    [rc]. *)

Module Scenario.

Definition nl : string := String "010" EmptyString.

Definition bundled (package name : string) : list byte :=
  if name =? "requirements.txt" then
    list_byte_of_string ("packageA" +:+ nl +:+ "packageB" +:+ nl)
  else list_byte_of_string ("rule all:" +:+ nl).

Fixpoint prefix_arg (args : list string) : option string :=
  match args with
  | [] => None
  | a :: rest => if a =? "--prefix" then List.head rest else prefix_arg rest
  end.

Definition conda (rc : Z) (cmd : command) (dir : loc) (m : gmap loc node)
  : option process :=
  match cmd with
  | Argv args =>
      match prefix_arg args with
      | None => None
      | Some prefix =>
          match walk m dir (split_sep prefix) with
          | inl _ => None
          | inr l =>
              Some {| stdout := [list_byte_of_string ("Solving environment: done" +:+ nl)];
                      returncode := rc;
                      fs_after := match m !! ("conda-meta" :: l) with
                                  | None => <["conda-meta" :: l := Dir]> m
                                  | Some _ => m
                                  end |}
          end
      end
  | ShellLine _ => Some {| stdout := []; returncode := 0; fs_after := m |}
  end.

(** Two manifests that differ in one version number, and whose MD5
    digests, [04c18dc9...] and [04c18dc0...], start with the same 6
    characters. *)
Definition bundled_a (package name : string) : list byte :=
  if name =? "requirements.txt" then
    list_byte_of_string ("packageA" +:+ nl +:+ "packageB=2583" +:+ nl)
  else list_byte_of_string ("rule all:" +:+ nl).

Definition bundled_b (package name : string) : list byte :=
  if name =? "requirements.txt" then
    list_byte_of_string ("packageA" +:+ nl +:+ "packageB=5331" +:+ nl)
  else list_byte_of_string ("rule all:" +:+ nl).

Definition text (line : list byte) : option string :=
  Some (string_of_list_byte line).

Definition home : world :=
  {| fs := {[ [] := Dir; ["home"] := Dir ]}; cwd := ["home"]; events := [] |}.

(** The [Builder] for [./data], and the world once it is constructed. *)
Definition builder : Builder.t :=
  {| Builder.data_dir := "./data"; Builder.env_path := None |}.

Definition fresh : world := snd (Builder.__init__ "./data" home).

End Scenario.

(** A string with one space between every two of its characters. *)
Fixpoint spaced (s : string) : string :=
  match s with
  | EmptyString => EmptyString
  | String c EmptyString => s
  | String c s' => String c (String " " (spaced s'))
  end.

(** The first thing [run_snakefile] logs. *)
Definition log_running (d : string) : event :=
  EvLog INFO "Running snakemake in %s" (ArgStr d).

(** ** Well-formed worlds and ordinary paths *)

(** The file system is a tree: the root and the current directory are
    directories, and whatever exists lies in a directory. *)
Record well_formed (w : world) : Prop := {
  wf_root : fs w !! [] = Some Dir;
  wf_cwd : fs w !! cwd w = Some Dir;
  wf_parent : forall c l n, fs w !! (c :: l) = Some n -> fs w !! l = Some Dir
}.

(** No component of the path is [..]. *)
Definition no_dotdot (p : string) : bool :=
  forallb (fun c => negb (c =? "..")) (split_sep p).

(** What [os.makedirs(p)] has done when it returns: [p] is a directory
    that was not there before, and nothing else changed but for the
    missing directories above it. *)
Definition made (w w' : world) (p : string) : Prop :=
  exists l,
    dirloc w' p = inr l /\ fs w !! l = None /\
    cwd w' = cwd w /\ events w' = events w /\ fs w ⊆ fs w' /\
    well_formed w' /\
    forall q n, fs w' !! q = Some n -> fs w !! q = None -> n = Dir /\ q `suffix_of` l.

(** ** Vocabulary for the other methods and for [main] *)

(** The commands a trace started, in order, each with the working
    directory it was started in. *)
Fixpoint spawned (evs : list event) : list (command * string) :=
  match evs with
  | [] => []
  | EvSpawn c d :: rest => (c, d) :: spawned rest
  | _ :: rest => spawned rest
  end.

(** The lines of output decode to [strs], each after its last byte is
    dropped ([i[:-1].decode()]). *)
Definition decoded (decode : list byte -> option string)
  (lines : list (list byte)) (strs : list string) : Prop :=
  Forall2 (fun i s => decode (removelast i) = Some s) lines strs.

(** The bundled workflow file and where [write_snakefile] puts it. *)
Definition snakefile (resource_string : string -> string -> list byte) : list byte :=
  resource_string "lcdb_test_data" "Snakefile".

Definition snakefile_path (d : string) : string := os_path_join d ["Snakefile"].

(** The line [run_snakefile] hands to the shell once the environment is
    built, and what it logs when that line fails. *)
Definition run_cmd (resource_string : string -> string -> list byte) (args : pyargs)
  : command :=
  ShellLine ("source activate " +:+ rel_env resource_string +:+ "; snakemake "
               +:+ space_join args).

Definition log_run_failed (resource_string : string -> string -> list byte)
  (args : pyargs) : event :=
  EvLog ERROR "CMDS: %s" (ArgCmd (run_cmd resource_string args)).

(** What [Builder.__init__] logs before it creates the directory. *)
Definition log_creating (d : string) : event := EvLog INFO "Creating %s" (ArgStr d).

(** Stand-ins for the outside world: a decoder that accepts ASCII only, a
    tool that prints the given lines and exits with the given status
    without touching the file system, and output whose second line is not
    ASCII. *)
Module Tools.

Definition ascii (line : list byte) : option string :=
  if forallb (fun b => (Byte.to_N b <? 128)%N) line
  then Some (string_of_list_byte line) else None.

Definition says (lines : list (list byte)) (rc : Z)
  (cmd : command) (dir : loc) (m : gmap loc node) : option process :=
  Some {| stdout := lines; returncode := rc; fs_after := m |}.

Definition garbled : list (list byte) :=
  [list_byte_of_string ("ok" +:+ Scenario.nl);
   [xff; x0a];
   list_byte_of_string ("more" +:+ Scenario.nl)].

Definition progress : list (list byte) :=
  [list_byte_of_string ("Building DAG of jobs..." +:+ Scenario.nl);
   list_byte_of_string "Nothing to be done."].

End Tools.

(** * Properties *)

(** ** Strings *)

Lemma append_nil_l (s : string) : "" +:+ s = s.
Proof. reflexivity. Qed.

Lemma append_cons (c : ascii) (a b : string) : String c a +:+ b = String c (a +:+ b).
Proof. reflexivity. Qed.

Create Rewrite HintDb str.
#[local] Hint Rewrite append_nil_l append_cons : str.

Ltac str_simpl := autorewrite with str; simpl.

Lemma append_assoc (a b c : string) : (a +:+ b) +:+ c = a +:+ (b +:+ c).
Proof. induction a as [|x a IH]; str_simpl; [reflexivity | now rewrite IH]. Qed.

Lemma append_nil_r (a : string) : a +:+ "" = a.
Proof. induction a as [|x a IH]; str_simpl; [reflexivity | now rewrite IH]. Qed.

Lemma append_eq_nil (a b : string) : a +:+ b = "" -> a = "" /\ b = "".
Proof. destruct a; str_simpl; [tauto | discriminate]. Qed.

Lemma eqb_empty_append_r (a b : string) : b <> "" -> (a +:+ b =? "") = false.
Proof.
  intros Hb. apply String.eqb_neq. intros H. now apply append_eq_nil in H.
Qed.

Lemma eqb_empty_append_l (a b : string) : a <> "" -> (a +:+ b =? "") = false.
Proof.
  intros Ha. apply String.eqb_neq. intros H. now apply append_eq_nil in H.
Qed.

Lemma split_sep_nonnil (s : string) : split_sep s <> [].
Proof.
  induction s as [|c s IH]; simpl; [discriminate |].
  destruct (Ascii.eqb c sep); [discriminate |].
  destruct (split_sep s); [contradiction | discriminate].
Qed.

Lemma split_sep_no_sep (s : string) : has_sep s = false -> split_sep s = [s].
Proof.
  induction s as [|c s IH]; simpl; [reflexivity |].
  intros H. apply orb_false_iff in H as [Hc Hs]. rewrite Hc, (IH Hs). reflexivity.
Qed.

(** Splitting [a + '/' + b] splits [a] and [b] apart. *)
Lemma split_sep_app_sep (a b : string) :
  split_sep (a +:+ String sep b) = split_sep a ++ split_sep b.
Proof.
  induction a as [|c a IH]; str_simpl.
  - reflexivity.
  - rewrite IH. destruct (Ascii.eqb c sep); [reflexivity |].
    pose proof (split_sep_nonnil a) as Hn. destruct (split_sep a); [contradiction | reflexivity].
Qed.

Lemma endswith_sep_inv (a : string) :
  endswith_sep a = true -> exists a', a = a' +:+ "/".
Proof.
  induction a as [|c a IH]; simpl; [discriminate |].
  destruct a as [|c' a].
  - intros H. apply Ascii.eqb_eq in H. subst c. exists "". reflexivity.
  - intros H. destruct (IH H) as [a' Ha']. exists (String c a'). str_simpl. now rewrite <- Ha'.
Qed.

Lemma endswith_sep_append (a b : string) :
  b <> "" -> endswith_sep (a +:+ b) = endswith_sep b.
Proof.
  intros Hb. induction a as [|c a IH]; str_simpl; [reflexivity |].
  rewrite IH. destruct (a +:+ b) eqn:E; [| reflexivity].
  now apply append_eq_nil in E.
Qed.

Lemma is_name_inv (c : string) :
  is_name c = true -> c <> "" /\ has_sep c = false /\ c <> "." /\ c <> "..".
Proof.
  unfold is_name, nonempty. intros H.
  repeat (apply andb_true_iff in H as [H ?]).
  repeat match goal with
         | H : negb _ = true |- _ => apply negb_true_iff in H
         end.
  repeat split; try assumption; now apply String.eqb_neq.
Qed.

Lemma has_sep_head (c : string) : has_sep c = false -> startswith_sep c = false.
Proof. destruct c; simpl; [reflexivity |]. intros H. now apply orb_false_iff in H. Qed.

Lemma has_sep_last (c : string) : has_sep c = false -> endswith_sep c = false.
Proof.
  induction c as [|x c IH]; simpl; [reflexivity |].
  intros H. apply orb_false_iff in H as [Hx Hc]. destruct c; [assumption | now apply IH].
Qed.

Lemma startswith_sep_append (a b : string) :
  a <> "" -> startswith_sep (a +:+ b) = startswith_sep a.
Proof. destruct a; [contradiction | reflexivity]. Qed.

(** ** Path resolution *)

Lemma walk_app m cur xs ys :
  walk m cur (xs ++ ys) =
  match walk m cur xs with
  | inl e => inl e
  | inr l => walk m l ys
  end.
Proof.
  revert cur. induction xs as [|x xs IH]; intros cur; simpl; [reflexivity |].
  destruct (lookup_step m cur x); [reflexivity | apply IH].
Qed.

Lemma lookup_step_empty m cur : lookup_step m cur "" = check_dir m (inr cur).
Proof. unfold lookup_step, check_dir. destruct (m !! cur) as [[]|]; reflexivity. Qed.

Lemma lookup_step_name m cur b :
  is_name b = true ->
  lookup_step m cur b =
  match check_dir m (inr cur) with
  | inl e => inl e
  | inr l => match m !! (b :: l) with
             | Some _ => inr (b :: l)
             | None => inl ENOENT
             end
  end.
Proof.
  intros Hb. apply is_name_inv in Hb as (H0 & _ & H1 & H2).
  unfold lookup_step, check_dir.
  apply String.eqb_neq in H0, H1, H2. rewrite H0, H1, H2. simpl.
  destruct (m !! cur) as [[]|]; reflexivity.
Qed.

Lemma check_dir_idem m r : check_dir m (check_dir m r) = check_dir m r.
Proof.
  destruct r as [e|l]; simpl; [reflexivity |].
  destruct (m !! l) as [[]|] eqn:E; simpl; rewrite ?E; reflexivity.
Qed.

Lemma check_dir_inr m r l : check_dir m r = inr l -> r = inr l /\ m !! l = Some Dir.
Proof.
  destruct r as [e|l']; simpl; [discriminate |].
  destruct (m !! l') as [[]|] eqn:E; intros H; inversion H; subst; auto.
Qed.

(** Walking through a trailing empty component only checks that a
    directory was reached. *)
Lemma walk_snoc_empty m cur pre :
  walk m cur (pre ++ [""]) = check_dir m (walk m cur pre).
Proof.
  rewrite walk_app. destruct (walk m cur pre) as [e|l]; [reflexivity |].
  simpl. rewrite lookup_step_empty. simpl. destruct (m !! l) as [[]|]; reflexivity.
Qed.

(** ** posixpath.join with a file name *)

Lemma join2_name a b :
  is_name b = true ->
  join2 a b = if (a =? "") || endswith_sep a then a +:+ b else a +:+ "/" +:+ b.
Proof.
  intros Hb. apply is_name_inv in Hb as (_ & Hs & _). unfold join2.
  now rewrite (has_sep_head _ Hs).
Qed.

Lemma join2_nonempty a b : is_name b = true -> join2 a b <> "".
Proof.
  intros Hb. rewrite (join2_name _ _ Hb). apply is_name_inv in Hb as (H0 & _).
  destruct ((a =? "") || endswith_sep a); intros H; apply append_eq_nil in H as [_ H];
    [contradiction | discriminate].
Qed.

Lemma join2_eqb_empty a b : is_name b = true -> (join2 a b =? "") = false.
Proof. intros Hb. apply String.eqb_neq. now apply join2_nonempty. Qed.

Lemma startswith_join2 a b :
  is_name b = true ->
  startswith_sep (join2 a b) = if a =? "" then false else startswith_sep a.
Proof.
  intros Hb. rewrite (join2_name _ _ Hb). apply is_name_inv in Hb as (_ & Hs & _).
  destruct (String.eqb_spec a "") as [->|Ha]; simpl.
  - now apply has_sep_head.
  - destruct (endswith_sep a); now apply startswith_sep_append.
Qed.

Lemma start_of_join2 w a b :
  is_name b = true ->
  start_of w (join2 a b) = if a =? "" then cwd w else start_of w a.
Proof.
  intros Hb. unfold start_of. rewrite (startswith_join2 _ _ Hb).
  destruct (a =? ""); reflexivity.
Qed.

Lemma endswith_join2 a b : is_name b = true -> endswith_sep (join2 a b) = false.
Proof.
  intros Hb. rewrite (join2_name _ _ Hb). apply is_name_inv in Hb as (H0 & Hs & _).
  destruct ((a =? "") || endswith_sep a).
  - rewrite endswith_sep_append by assumption. now apply has_sep_last.
  - rewrite endswith_sep_append by discriminate.
    change ("/" +:+ b) with (String sep b). simpl.
    destruct b; [contradiction |]. now apply (has_sep_last (String a0 b)).
Qed.

(** The components of [join(a, b)]: those that lead to the directory [a]
    names, then [b]. *)
Lemma split_join2 w a b :
  is_name b = true ->
  exists pre,
    split_sep (join2 a b) = pre ++ [b] /\
    check_dir (fs w) (walk (fs w) (start_of w (join2 a b)) pre) = dirloc w a.
Proof.
  intros Hb. rewrite (start_of_join2 _ _ _ Hb), (join2_name _ _ Hb).
  pose proof (is_name_inv _ Hb) as (H0 & Hs & _).
  unfold dirloc. destruct (String.eqb_spec a "") as [->|Ha]; simpl.
  - exists []. split; [now apply split_sep_no_sep | reflexivity].
  - destruct (endswith_sep a) eqn:E.
    + apply endswith_sep_inv in E as [a' ->].
      exists (split_sep a'). split.
      * rewrite append_assoc. change ("/" +:+ b) with (String sep b).
        rewrite split_sep_app_sep. now rewrite (split_sep_no_sep _ Hs).
      * change (a' +:+ "/") with (a' +:+ String sep "").
        rewrite split_sep_app_sep. simpl.
        rewrite walk_snoc_empty. now rewrite check_dir_idem.
    + exists (split_sep a). split; [| reflexivity].
      change ("/" +:+ b) with (String sep b).
      rewrite split_sep_app_sep. now rewrite (split_sep_no_sep _ Hs).
Qed.

Lemma name_tests b :
  is_name b = true -> (b =? "") || (b =? ".") || (b =? "..") = false.
Proof.
  intros Hb. apply is_name_inv in Hb as (H0 & _ & H1 & H2).
  apply String.eqb_neq in H0, H1, H2. now rewrite H0, H1, H2.
Qed.

Lemma os_stat_join2 w a b :
  is_name b = true ->
  os_stat w (join2 a b) =
  match dirloc w a with
  | inl e => inl e
  | inr cur => match fs w !! (b :: cur) with
               | Some n => inr (b :: cur, n)
               | None => inl ENOENT
               end
  end.
Proof.
  intros Hb. unfold os_stat. rewrite (join2_eqb_empty _ _ Hb).
  destruct (split_join2 w a b Hb) as (pre & -> & <-).
  rewrite walk_app.
  destruct (walk (fs w) (start_of w (join2 a b)) pre) as [e|l]; [reflexivity |].
  simpl. rewrite (lookup_step_name _ _ _ Hb). simpl.
  destruct (fs w !! l) as [[]|]; try reflexivity.
  destruct (fs w !! (b :: l)) as [n|] eqn:E; [| reflexivity].
  now rewrite E.
Qed.

Lemma dirloc_os_stat w p :
  p <> "" ->
  dirloc w p =
  match os_stat w p with
  | inl e => inl e
  | inr (l, Dir) => inr l
  | inr (_, File _) => inl ENOTDIR
  end.
Proof.
  intros Hp. apply String.eqb_neq in Hp. unfold dirloc, os_stat. rewrite Hp.
  destruct (walk (fs w) (start_of w p) (split_sep p)) as [e|l]; simpl; [reflexivity |].
  destruct (fs w !! l) as [[]|]; reflexivity.
Qed.

Lemma dirloc_join2 w a b :
  is_name b = true ->
  dirloc w (join2 a b) =
  match dirloc w a with
  | inl e => inl e
  | inr cur => match fs w !! (b :: cur) with
               | Some Dir => inr (b :: cur)
               | Some (File _) => inl ENOTDIR
               | None => inl ENOENT
               end
  end.
Proof.
  intros Hb. rewrite (dirloc_os_stat _ _ (join2_nonempty a b Hb)), (os_stat_join2 _ _ _ Hb).
  destruct (dirloc w a) as [e|cur]; [reflexivity |].
  destruct (fs w !! (b :: cur)) as [[]|]; reflexivity.
Qed.

Lemma strip_trailing_empty_snoc pre b :
  b <> "" -> strip_trailing_empty (pre ++ [b]) = pre ++ [b].
Proof.
  intros Hb. apply String.eqb_neq in Hb.
  induction pre as [|x pre IH]; simpl; [now rewrite Hb |].
  rewrite IH. destruct (pre ++ [b]) eqn:E; [| reflexivity].
  now destruct pre.
Qed.

Lemma write_file_join2 w a b data :
  is_name b = true ->
  write_file (join2 a b) data w =
  match dirloc w a with
  | inl e => raise (OSError e) w
  | inr cur => match fs w !! (b :: cur) with
               | Some Dir => raise (OSError EISDIR) w
               | _ => set_fs (<[b :: cur := File data]> (fs w)) w
               end
  end.
Proof.
  intros Hb. unfold write_file.
  rewrite (join2_eqb_empty _ _ Hb), (endswith_join2 _ _ Hb), orb_false_r.
  destruct (split_join2 w a b Hb) as (pre & -> & <-).
  pose proof (is_name_inv _ Hb) as (H0 & _).
  rewrite (strip_trailing_empty_snoc _ _ H0).
  rewrite removelast_last, last_last, (name_tests _ Hb).
  destruct (walk (fs w) (start_of w (join2 a b)) pre) as [e|l]; [reflexivity |].
  simpl. destruct (fs w !! l) as [[]|]; reflexivity.
Qed.

Lemma os_mkdir_join2 w a b :
  is_name b = true ->
  os_mkdir (join2 a b) w =
  match dirloc w a with
  | inl e => raise (OSError e) w
  | inr cur => match fs w !! (b :: cur) with
               | Some _ => raise FileExistsError w
               | None => set_fs (<[b :: cur := Dir]> (fs w)) w
               end
  end.
Proof.
  intros Hb. unfold os_mkdir. rewrite (join2_eqb_empty _ _ Hb).
  destruct (split_join2 w a b Hb) as (pre & -> & <-).
  pose proof (is_name_inv _ Hb) as (H0 & _).
  rewrite (strip_trailing_empty_snoc _ _ H0).
  rewrite removelast_last, last_last, (name_tests _ Hb).
  destruct (walk (fs w) (start_of w (join2 a b)) pre) as [e|l]; [reflexivity |].
  simpl. destruct (fs w !! l) as [[]|]; reflexivity.
Qed.

(** ** posixpath.split of a joined path *)

Lemma rfind_no_sep b pos found :
  has_sep b = false -> rfind_sep_succ b pos found = found.
Proof.
  revert pos. induction b as [|c b IH]; intros pos H; simpl in *; [reflexivity |].
  apply orb_false_iff in H as [Hc Hb]. rewrite Hc. now apply IH.
Qed.

Lemma rfind_after_sep x b pos found :
  has_sep b = false -> endswith_sep x = true ->
  rfind_sep_succ (x +:+ b) pos found = (pos + String.length x)%nat.
Proof.
  intros Hb. revert pos found. induction x as [|c x IH]; intros pos found Hx; [discriminate |].
  rewrite append_cons. simpl. destruct x as [|c' x].
  - simpl in Hx. rewrite append_nil_l, Hx, (rfind_no_sep _ _ _ Hb). simpl. lia.
  - rewrite IH by exact Hx. simpl. lia.
Qed.

Lemma str_take_append x b : str_take (String.length x) (x +:+ b) = x.
Proof. induction x as [|c x IH]; [now destruct b | rewrite append_cons; simpl; now rewrite IH]. Qed.

Lemma str_drop_append x b : str_drop (String.length x) (x +:+ b) = b.
Proof. induction x as [|c x IH]; [reflexivity | rewrite append_cons; simpl; apply IH]. Qed.

Lemma rstrip_sep_snoc a : rstrip_sep (a +:+ "/") = rstrip_sep a.
Proof. induction a as [|c a IH]; [reflexivity | rewrite append_cons; simpl; now rewrite IH]. Qed.

Lemma all_sep_append a b : all_sep (a +:+ b) = all_sep a && all_sep b.
Proof.
  induction a as [|c a IH]; [reflexivity |].
  rewrite append_cons. simpl. rewrite IH. now rewrite andb_assoc.
Qed.

Lemma all_sep_endswith a : a <> "" -> all_sep a = true -> endswith_sep a = true.
Proof.
  induction a as [|c a IH]; [contradiction |]. intros _ H. simpl in *.
  apply andb_true_iff in H as [Hc Ha]. destruct a; [assumption |]. now apply IH.
Qed.

Lemma rstrip_sep_empty a : rstrip_sep a = "" -> all_sep a = true.
Proof.
  induction a as [|c a IH]; [reflexivity |]. simpl.
  destruct (rstrip_sep a); [| discriminate].
  destruct (Ascii.eqb c sep); [intros _; now rewrite IH | discriminate].
Qed.

Lemma head_of_nonempty a : a <> "" -> head_of a <> "".
Proof.
  intros Ha. unfold head_of. apply String.eqb_neq in Ha. rewrite Ha.
  destruct (all_sep a) eqn:E; [now apply String.eqb_neq |].
  intros H. apply rstrip_sep_empty in H. congruence.
Qed.

Lemma os_path_split_raw x b :
  has_sep b = false -> x = "" \/ endswith_sep x = true ->
  rfind_sep_succ (x +:+ b) 0 0 = String.length x.
Proof.
  intros Hb [-> | Hx]; [now apply rfind_no_sep | now rewrite rfind_after_sep].
Qed.

Lemma os_path_split_join2 a b :
  is_name b = true -> os_path_split (join2 a b) = (head_of a, b).
Proof.
  intros Hb. rewrite (join2_name _ _ Hb). apply is_name_inv in Hb as (_ & Hs & _).
  unfold os_path_split, head_of.
  destruct (String.eqb_spec a "") as [->|Ha]; simpl.
  - rewrite append_nil_l, (rfind_no_sep _ _ _ Hs). now destruct b.
  - destruct (endswith_sep a) eqn:E.
    + rewrite (os_path_split_raw a b Hs (or_intror E)), str_take_append, str_drop_append.
      unfold nonempty. apply String.eqb_neq in Ha. rewrite Ha. simpl.
      destruct (all_sep a); reflexivity.
    + rewrite <- append_assoc.
      assert (Hx : endswith_sep (a +:+ "/") = true) by now rewrite endswith_sep_append.
      rewrite (os_path_split_raw (a +:+ "/") b Hs (or_intror Hx)), str_take_append, str_drop_append.
      unfold nonempty. rewrite eqb_empty_append_r by discriminate. simpl.
      rewrite all_sep_append, rstrip_sep_snoc.
      destruct (all_sep a) eqn:Ea; [| reflexivity].
      rewrite (all_sep_endswith _ Ha Ea) in E. discriminate.
Qed.

Lemma split_sep_repeat_sep k : split_sep (repeat_sep k) = repeat "" (S k).
Proof. induction k as [|k IH]; [reflexivity | simpl; now rewrite IH]. Qed.

Lemma rstrip_sep_decomp a : exists k, a = rstrip_sep a +:+ repeat_sep k.
Proof.
  induction a as [|c a [k IH]]; [now exists O |]. simpl.
  destruct (rstrip_sep a) eqn:E.
  - destruct (Ascii.eqb_spec c sep) as [->|Hc].
    + exists (S k). rewrite append_nil_l in *. simpl. now rewrite <- IH.
    + exists k. rewrite append_nil_l in IH. now rewrite append_cons, append_nil_l, <- IH.
  - exists k. rewrite append_cons. now rewrite <- IH.
Qed.

Lemma walk_trailing_empties m cur cs k :
  check_dir m (walk m cur (cs ++ repeat "" k)) = check_dir m (walk m cur cs).
Proof.
  induction k as [|k IH]; [now rewrite app_nil_r |].
  replace (repeat "" (S k)) with (repeat "" k ++ [""]).
  - rewrite app_assoc, walk_snoc_empty, check_dir_idem. exact IH.
  - clear. induction k as [|k IH]; [reflexivity | simpl; now rewrite IH].
Qed.

(** The head of [join(a, name)] names the same directory as [a]. *)
Lemma dirloc_head_of w a : dirloc w (head_of a) = dirloc w a.
Proof.
  unfold head_of. destruct (String.eqb_spec a "") as [->|Ha]; [reflexivity |].
  destruct (all_sep a) eqn:E; [reflexivity |].
  destruct (rstrip_sep_decomp a) as [k Hk].
  assert (Hr : rstrip_sep a <> "").
  { intros H. apply rstrip_sep_empty in H. congruence. }
  remember (rstrip_sep a) as r eqn:Er. clear Er E.
  destruct k as [|k]; [rewrite append_nil_r in Hk; now subst a |].
  subst a. unfold dirloc, start_of.
  rewrite (startswith_sep_append _ _ Hr).
  apply String.eqb_neq in Hr, Ha. rewrite Hr, Ha.
  simpl repeat_sep. rewrite split_sep_app_sep, split_sep_repeat_sep.
  now rewrite walk_trailing_empties.
Qed.

Lemma exists_head_of w a l :
  a <> "" -> dirloc w a = inr l -> os_path_exists w (head_of a) = true.
Proof.
  intros Ha H. rewrite <- dirloc_head_of in H.
  rewrite (dirloc_os_stat _ _ (head_of_nonempty _ Ha)) in H.
  unfold os_path_exists. destruct (os_stat w (head_of a)); [discriminate | reflexivity].
Qed.

(** ** What survives when the file system grows *)

Lemma shape_le_refl m : shape_le m m.
Proof. intros l n H. exists n. split; [assumption | now destruct n]. Qed.

Lemma shape_le_trans m1 m2 m3 : shape_le m1 m2 -> shape_le m2 m3 -> shape_le m1 m3.
Proof.
  intros H12 H23 l n H. destruct (H12 l n H) as (n2 & H2 & K2).
  destruct (H23 l n2 H2) as (n3 & H3 & K3). exists n3. split; [assumption |].
  destruct n, n2, n3; simpl in *; tauto.
Qed.

Lemma subseteq_shape_le (m m' : gmap loc node) : m ⊆ m' -> shape_le m m'.
Proof.
  intros Hsub l n H. exists n. split; [now apply (lookup_weaken m m') | now destruct n].
Qed.

Lemma shape_le_dir m m' l : shape_le m m' -> m !! l = Some Dir -> m' !! l = Some Dir.
Proof. intros Hle H. destruct (Hle l Dir H) as ([] & H' & K); [assumption | contradiction]. Qed.

Lemma shape_le_insert_file (m : gmap loc node) l data :
  m !! l <> Some Dir -> shape_le m (<[l := File data]> m).
Proof.
  intros Hl q n H. destruct (decide (l = q)) as [->|Hne].
  - rewrite lookup_insert_eq. exists (File data). split; [reflexivity |].
    destruct n; [congruence | exact I].
  - rewrite lookup_insert_ne by assumption. exists n. split; [assumption | now destruct n].
Qed.

Lemma lookup_step_shape_le m m' cur c next :
  shape_le m m' -> lookup_step m cur c = inr next -> lookup_step m' cur c = inr next.
Proof.
  intros Hle. unfold lookup_step.
  destruct (m !! cur) as [[]|] eqn:E; try discriminate.
  rewrite (shape_le_dir _ _ _ Hle E).
  destruct ((c =? "") || (c =? ".")); [tauto |].
  destruct (c =? ".."); [tauto |].
  destruct (m !! (c :: cur)) as [n|] eqn:E'; [| discriminate].
  destruct (Hle _ _ E') as (n' & -> & _). tauto.
Qed.

Lemma walk_shape_le m m' cur cs l :
  shape_le m m' -> walk m cur cs = inr l -> walk m' cur cs = inr l.
Proof.
  intros Hle. revert cur. induction cs as [|c cs IH]; intros cur; simpl; [tauto |].
  destruct (lookup_step m cur c) as [e|next] eqn:E; [discriminate |].
  rewrite (lookup_step_shape_le _ _ _ _ _ Hle E). apply IH.
Qed.

Lemma dirloc_shape_le w w' a l :
  cwd w' = cwd w -> shape_le (fs w) (fs w') ->
  dirloc w a = inr l -> dirloc w' a = inr l.
Proof.
  intros Hc Hle H. unfold dirloc in *. apply check_dir_inr in H as [H Hl].
  unfold start_of in *. rewrite Hc.
  destruct (a =? "").
  - rewrite H. simpl. now rewrite (shape_le_dir _ _ _ Hle Hl).
  - rewrite (walk_shape_le _ _ _ _ _ Hle H). simpl. now rewrite (shape_le_dir _ _ _ Hle Hl).
Qed.

Lemma os_stat_weaken w w' p l n :
  cwd w' = cwd w -> fs w ⊆ fs w' ->
  os_stat w p = inr (l, n) -> os_stat w' p = inr (l, n).
Proof.
  intros Hc Hsub. unfold os_stat, start_of. rewrite Hc.
  destruct (p =? ""); [tauto |].
  destruct (walk (fs w) _ (split_sep p)) as [e|l'] eqn:E; [discriminate |].
  rewrite (walk_shape_le _ _ _ _ _ (subseteq_shape_le _ _ Hsub) E).
  destruct (fs w !! l') as [n'|] eqn:E'; [| discriminate].
  rewrite (lookup_weaken _ _ _ _ E' Hsub). tauto.
Qed.

(** ** os.mkdir and os.makedirs *)

Arguments os_path_split : simpl never.
Arguments os_mkdir : simpl never.

Lemma os_mkdir_frame p w r w' :
  os_mkdir p w = (r, w') ->
  cwd w' = cwd w /\ events w' = events w /\ fs w ⊆ fs w'.
Proof.
  unfold os_mkdir, raise, set_fs. intros H.
  repeat case_match; inversion H; subst; simpl; repeat split; try reflexivity.
  now apply insert_subseteq.
Qed.

Lemma makedirs_rec_S fuel name :
  makedirs_rec (S fuel) name =
  let '(head, tail) := os_path_split name in
  let '(head, tail) := if tail =? "" then os_path_split head else (head, tail) in
  fun w =>
    if nonempty head && nonempty tail && negb (os_path_exists w head) then
      bind (except_FileExistsError (makedirs_rec fuel head))
           (fun _ => if tail =? "." then ret tt else os_mkdir name) w
    else os_mkdir name w.
Proof. reflexivity. Qed.

Lemma makedirs_rec_frame fuel p w r w' :
  makedirs_rec fuel p w = (r, w') ->
  cwd w' = cwd w /\ events w' = events w /\ fs w ⊆ fs w'.
Proof.
  revert p w r w'. induction fuel as [|fuel IH]; intros p w r w'.
  - simpl. unfold raise. intros H. inversion H; subst. repeat split; reflexivity.
  - rewrite makedirs_rec_S. destruct (os_path_split p) as [h t].
    destruct (if t =? "" then os_path_split h else (h, t)) as [h' t'].
    destruct (nonempty h' && nonempty t' && negb (os_path_exists w h')); [| apply os_mkdir_frame].
    unfold bind, except_FileExistsError.
    destruct (makedirs_rec fuel h' w) as [r1 w1] eqn:E1.
    apply IH in E1 as (Hc1 & He1 & Hs1).
    assert (Hmk : forall r w', os_mkdir p w1 = (r, w') ->
                    cwd w' = cwd w /\ events w' = events w /\ fs w ⊆ fs w').
    { intros r0 w0 H0. apply os_mkdir_frame in H0 as (Hc & He & Hs).
      repeat split; [congruence | congruence | now transitivity (fs w1)]. }
    destruct r1 as [[]|e].
    + destruct (t' =? "."); [unfold ret; intros H; inversion H; subst; auto | apply Hmk].
    + destruct e as [[]| | | | |]; try (intros H; inversion H; subst; now auto).
      destruct (t' =? "."); [unfold ret; intros H; inversion H; subst; auto | apply Hmk].
Qed.

Lemma makedirs_rec_join2 fuel a b w :
  is_name b = true ->
  makedirs_rec (S fuel) (join2 a b) w =
  if nonempty (head_of a) && negb (os_path_exists w (head_of a)) then
    bind (except_FileExistsError (makedirs_rec fuel (head_of a)))
         (fun _ => os_mkdir (join2 a b)) w
  else os_mkdir (join2 a b) w.
Proof.
  intros Hb. rewrite makedirs_rec_S, (os_path_split_join2 _ _ Hb).
  pose proof (is_name_inv _ Hb) as (H0 & _ & H1 & _).
  apply String.eqb_neq in H0, H1. rewrite H0, H1.
  unfold nonempty at 2. rewrite H0. simpl. now rewrite andb_true_r.
Qed.

(** Making an existing path fails, and touches nothing. *)
Lemma makedirs_rec_exists fuel a b w :
  is_name b = true -> os_path_exists w (join2 a b) = true ->
  makedirs_rec (S fuel) (join2 a b) w = (Raise FileExistsError, w).
Proof.
  intros Hb Hex. rewrite (makedirs_rec_join2 _ _ _ _ Hb).
  unfold os_path_exists in Hex. rewrite (os_stat_join2 _ _ _ Hb) in Hex.
  destruct (dirloc w a) as [e|cur] eqn:Ed; [discriminate |].
  destruct (fs w !! (b :: cur)) as [n|] eqn:En; [| discriminate].
  assert (Hmk : os_mkdir (join2 a b) w = (Raise FileExistsError, w)).
  { rewrite (os_mkdir_join2 _ _ _ Hb), Ed, En. reflexivity. }
  destruct (String.eqb_spec a "") as [->|Ha].
  - exact Hmk.
  - rewrite (exists_head_of _ _ _ Ha Ed). simpl. rewrite andb_false_r. exact Hmk.
Qed.

(** When making [join(a, b)] succeeds, [b] is a directory in [a]. *)
Lemma makedirs_rec_ok fuel a b w w' :
  is_name b = true ->
  makedirs_rec (S fuel) (join2 a b) w = (Ok tt, w') ->
  exists cur, dirloc w' a = inr cur /\ fs w' !! (b :: cur) = Some Dir.
Proof.
  intros Hb. rewrite (makedirs_rec_join2 _ _ _ _ Hb).
  assert (Hmk : forall w1, os_mkdir (join2 a b) w1 = (Ok tt, w') ->
                  exists cur, dirloc w' a = inr cur /\ fs w' !! (b :: cur) = Some Dir).
  { intros w1. rewrite (os_mkdir_join2 _ _ _ Hb).
    destruct (dirloc w1 a) as [e|cur] eqn:Ed; [discriminate |].
    destruct (fs w1 !! (b :: cur)) eqn:En; [discriminate |].
    unfold set_fs. intros H. inversion H; subst. exists cur. simpl. split.
    - apply (dirloc_shape_le w1); [reflexivity | | assumption].
      apply subseteq_shape_le. now apply insert_subseteq.
    - apply lookup_insert_eq. }
  destruct (nonempty (head_of a) && negb (os_path_exists w (head_of a))); [| apply Hmk].
  unfold bind, except_FileExistsError.
  destruct (makedirs_rec fuel (head_of a) w) as [[[]|e] w1]; [apply Hmk | ].
  destruct e as [[]| | | | |]; try discriminate. apply Hmk.
Qed.

(** ** os.path.relpath of the environment directory *)

Lemma join2_relative c x :
  startswith_sep x = false ->
  join2 c x = (if (c =? "") || endswith_sep c then c else c +:+ "/") +:+ x.
Proof.
  intros Hx. unfold join2. rewrite Hx.
  destruct ((c =? "") || endswith_sep c); [reflexivity | now rewrite append_assoc].
Qed.

Lemma join2_assoc c a b :
  a <> "" -> startswith_sep a = false -> is_name b = true ->
  join2 c (join2 a b) = join2 (join2 c a) b.
Proof.
  intros Ha Hs Hb.
  assert (Hab : startswith_sep (join2 a b) = false).
  { rewrite (startswith_join2 _ _ Hb). apply String.eqb_neq in Ha. now rewrite Ha. }
  rewrite (join2_relative c _ Hab), (join2_relative c _ Hs).
  set (p := if (c =? "") || endswith_sep c then c else c +:+ "/").
  rewrite !(join2_name _ _ Hb).
  rewrite (eqb_empty_append_r p a Ha), (endswith_sep_append p a Ha).
  apply String.eqb_neq in Ha. rewrite Ha. simpl.
  destruct (endswith_sep a); now rewrite !append_assoc.
Qed.

Lemma startswith_absolute w x : startswith_sep (absolute w x) = true.
Proof.
  unfold absolute. destruct (startswith_sep x) eqn:E; [assumption |].
  unfold join2. rewrite E. destruct ((os_getcwd w =? "") || endswith_sep (os_getcwd w)); reflexivity.
Qed.

Lemma startswith_nonempty x : startswith_sep x = true -> x <> "".
Proof. now destruct x. Qed.

Lemma absolute_join2 w a b :
  is_name b = true -> absolute w (join2 a b) = join2 (absolute w a) b.
Proof.
  intros Hb. unfold absolute. rewrite (startswith_join2 _ _ Hb).
  pose proof (is_name_inv _ Hb) as (_ & Hs & _).
  destruct (String.eqb_spec a "") as [->|Ha].
  - simpl. generalize (os_getcwd w). intros c.
    rewrite (join2_relative "" b (has_sep_head _ Hs)). simpl. rewrite append_nil_l.
    rewrite (join2_relative c "" eq_refl), append_nil_r.
    rewrite !(join2_relative _ b (has_sep_head _ Hs)).
    destruct (String.eqb_spec c "") as [->|Hc]; [reflexivity |]. simpl.
    destruct (endswith_sep c) eqn:E.
    + apply String.eqb_neq in Hc. now rewrite Hc, E.
    + rewrite (eqb_empty_append_r c "/") by discriminate.
      rewrite (endswith_sep_append c "/") by discriminate. reflexivity.
  - destruct (startswith_sep a) eqn:E; [reflexivity |]. now apply join2_assoc.
Qed.

Lemma initial_slashes_pos x : startswith_sep x = true -> initial_slashes x <> O.
Proof.
  destruct x as [|c1 [|c2 [|c3 x]]]; simpl; try discriminate;
    intros ->; repeat (destruct (Ascii.eqb _ sep)); discriminate.
Qed.

Lemma norm_step_pos k acc c : k <> O -> norm_step k acc c = norm_step 1 acc c.
Proof. intros Hk. unfold norm_step. destruct k; [contradiction | reflexivity]. Qed.

Lemma fold_norm_step_pos k cs acc :
  k <> O -> fold_left (norm_step k) cs acc = fold_left (norm_step 1) cs acc.
Proof.
  intros Hk. revert acc. induction cs as [|c cs IH]; intros acc; simpl; [reflexivity |].
  now rewrite IH, norm_step_pos.
Qed.

Lemma split_join2_struct a b :
  is_name b = true -> a <> "" ->
  exists pre, split_sep (join2 a b) = pre ++ [b] /\
              (split_sep a = pre \/ split_sep a = pre ++ [""]).
Proof.
  intros Hb Ha. rewrite (join2_name _ _ Hb).
  pose proof (is_name_inv _ Hb) as (_ & Hs & _).
  apply String.eqb_neq in Ha. rewrite Ha. simpl.
  destruct (endswith_sep a) eqn:E.
  - apply endswith_sep_inv in E as [a' ->]. exists (split_sep a'). split.
    + rewrite append_assoc. change ("/" +:+ b) with (String sep b).
      now rewrite split_sep_app_sep, (split_sep_no_sep _ Hs).
    + right. change (a' +:+ "/") with (a' +:+ String sep "").
      now rewrite split_sep_app_sep.
  - exists (split_sep a). split; [| now left].
    change ("/" +:+ b) with (String sep b).
    now rewrite split_sep_app_sep, (split_sep_no_sep _ Hs).
Qed.

Lemma norm_step_name k acc b : is_name b = true -> norm_step k acc b = b :: acc.
Proof.
  intros Hb. apply is_name_inv in Hb as (H0 & _ & H1 & H2).
  apply String.eqb_neq in H0, H1, H2. unfold norm_step. now rewrite H0, H1, H2.
Qed.

Lemma norm_comps_join2 a b :
  is_name b = true -> startswith_sep a = true ->
  norm_comps (join2 a b) = norm_comps a ++ [b].
Proof.
  intros Hb Ha. unfold norm_comps.
  assert (Hab : startswith_sep (join2 a b) = true).
  { rewrite (startswith_join2 _ _ Hb).
    pose proof (startswith_nonempty _ Ha) as Hn. apply String.eqb_neq in Hn. now rewrite Hn. }
  rewrite (fold_norm_step_pos _ _ _ (initial_slashes_pos _ Hab)).
  rewrite (fold_norm_step_pos _ _ _ (initial_slashes_pos _ Ha)).
  destruct (split_join2_struct a b Hb (startswith_nonempty _ Ha)) as (pre & -> & [-> | ->]);
    rewrite !fold_left_app; simpl; rewrite (norm_step_name _ _ _ Hb); reflexivity.
Qed.

Lemma split_sep_elems s : Forall (fun c => has_sep c = false) (split_sep s).
Proof.
  induction s as [|c s IH]; simpl; [repeat constructor |].
  destruct (Ascii.eqb c sep) eqn:E; [now constructor |].
  destruct (split_sep s) as [|x xs]; [repeat constructor; simpl; now rewrite E |].
  inversion IH; subst. constructor; [simpl; now rewrite E | assumption].
Qed.

Lemma norm_step_ok k acc c :
  has_sep c = false -> Forall comp_ok acc -> Forall comp_ok (norm_step k acc c).
Proof.
  intros Hc Hacc. unfold norm_step.
  destruct (String.eqb_spec c "") as [->|H0]; [assumption |]. simpl.
  destruct (c =? "."); [assumption |].
  match goal with |- Forall _ (if ?b then _ else _) => destruct b end.
  - constructor; [split; assumption | assumption].
  - destruct acc; [constructor | now inversion Hacc].
Qed.

Lemma fold_norm_step_ok k cs acc :
  Forall (fun c => has_sep c = false) cs -> Forall comp_ok acc ->
  Forall comp_ok (fold_left (norm_step k) cs acc).
Proof.
  intros Hcs. revert acc. induction Hcs as [|c cs Hc Hcs IH]; intros acc Hacc; simpl;
    [assumption |].
  apply IH. now apply norm_step_ok.
Qed.

Lemma norm_comps_ok x : Forall comp_ok (norm_comps x).
Proof.
  unfold norm_comps. apply Forall_rev.
  apply fold_norm_step_ok; [apply split_sep_elems | constructor].
Qed.

Lemma concat_cons2 s x y l :
  String.concat s (x :: y :: l) = x +:+ s +:+ String.concat s (y :: l).
Proof. reflexivity. Qed.

Lemma split_sep_concat cs :
  Forall comp_ok cs -> cs <> [] -> split_sep (String.concat "/" cs) = cs.
Proof.
  induction 1 as [|c cs [_ Hc] Hcs IH]; [contradiction |]. intros _.
  destruct cs as [|c' cs]; [now apply split_sep_no_sep |].
  rewrite concat_cons2.
  change ("/" +:+ String.concat "/" (c' :: cs)) with (String sep (String.concat "/" (c' :: cs))).
  rewrite split_sep_app_sep, (split_sep_no_sep _ Hc), IH by discriminate. reflexivity.
Qed.

Lemma split_sep_leading k s : split_sep (repeat_sep k +:+ s) = repeat "" k ++ split_sep s.
Proof.
  induction k as [|k IH]; [reflexivity |].
  change (repeat_sep (S k) +:+ s) with (String sep (repeat_sep k +:+ s)).
  simpl. now rewrite IH.
Qed.

Lemma filter_nonempty_ok cs : Forall comp_ok cs -> List.filter nonempty cs = cs.
Proof.
  induction 1 as [|c cs [H0 _] _ IH]; [reflexivity |]. simpl.
  unfold nonempty at 1. apply String.eqb_neq in H0. rewrite H0. simpl. now rewrite IH.
Qed.

Lemma filter_nonempty_repeat k cs :
  List.filter nonempty (repeat "" k ++ cs) = List.filter nonempty cs.
Proof. induction k as [|k IH]; [reflexivity | exact IH]. Qed.

(** The components [relpath] compares are those [normpath] kept. *)
Lemma abspath_components w x :
  List.filter nonempty (split_sep (os_path_abspath w x)) = norm_comps (absolute w x).
Proof.
  unfold os_path_abspath. fold (absolute w x).
  pose proof (startswith_absolute w x) as Habs.
  set (y := absolute w x) in *. clearbody y. unfold os_path_normpath.
  pose proof (startswith_nonempty _ Habs) as Hy. apply String.eqb_neq in Hy. rewrite Hy.
  pose proof (initial_slashes_pos _ Habs) as Hk.
  destruct (initial_slashes y) as [|k] eqn:Ek; [contradiction |].
  assert (Hr : (repeat_sep (S k) +:+ String.concat "/" (norm_comps y) =? "") = false).
  { apply eqb_empty_append_l. discriminate. }
  rewrite Hr, split_sep_leading, filter_nonempty_repeat.
  pose proof (norm_comps_ok y) as Hok. fold (norm_comps y).
  destruct (norm_comps y) as [|c cs] eqn:E; [reflexivity |].
  rewrite split_sep_concat by (assumption || discriminate).
  now apply filter_nonempty_ok.
Qed.

Lemma commonprefix_app l r : commonprefix l (l ++ r) = l.
Proof.
  induction l as [|x l IH]; simpl; [now destruct r |].
  now rewrite String.eqb_refl, IH.
Qed.

Lemma os_path_join_1 a b : os_path_join a [b] = join2 a b.
Proof. reflexivity. Qed.

Lemma os_path_join_2 a b c : os_path_join a [b; c] = join2 (join2 a b) c.
Proof. reflexivity. Qed.

Lemma os_path_relpath_env w d c1 h :
  is_name c1 = true -> is_name h = true ->
  os_path_relpath (Some (os_path_join d [c1; h])) d w = (Ok (c1 +:+ "/" +:+ h), w).
Proof.
  intros H1 Hh. rewrite os_path_join_2. unfold os_path_relpath.
  rewrite (join2_eqb_empty _ _ Hh).
  rewrite !abspath_components, !(absolute_join2 _ _ _ Hh), !(absolute_join2 _ _ _ H1).
  pose proof (startswith_absolute w d) as Hd.
  assert (Hd1 : startswith_sep (join2 (absolute w d) c1) = true).
  { rewrite (startswith_join2 _ _ H1).
    pose proof (startswith_nonempty _ Hd) as Hn. apply String.eqb_neq in Hn. now rewrite Hn. }
  rewrite (norm_comps_join2 _ _ Hh Hd1), (norm_comps_join2 _ _ H1 Hd).
  rewrite <- app_assoc. simpl app.
  rewrite commonprefix_app, Nat.sub_diag, drop_app_length. simpl.
  rewrite ?os_path_join_1. unfold os_path_join, ret. simpl. rewrite (join2_name _ _ Hh).
  pose proof (is_name_inv _ H1) as (H0 & Hs & _).
  apply String.eqb_neq in H0. rewrite H0, (has_sep_last _ Hs). reflexivity.
Qed.

(** ** The fingerprint *)

Lemma hex_digit_is_hex x : is_hex_char (MD5.hex_digit x) = true.
Proof.
  unfold MD5.hex_digit.
  repeat match goal with
         | |- context [match ?p with _ => _ end] => destruct p
         end; reflexivity.
Qed.

Lemma hex_all_hex bs : all_hex (MD5.hex bs) = true.
Proof.
  induction bs as [|b bs IH]; simpl; [reflexivity |].
  now rewrite !hex_digit_is_hex, IH.
Qed.

Lemma hex_length bs : String.length (MD5.hex bs) = (2 * length bs)%nat.
Proof. induction bs as [|b bs IH]; simpl; [reflexivity | rewrite IH; lia]. Qed.

Lemma digest_length msg : length (MD5.digest msg) = 16%nat.
Proof.
  unfold MD5.digest.
  destruct (MD5.blocks _ MD5.init _) as [[[a b] c] d]. reflexivity.
Qed.

Lemma hexdigest_length msg : String.length (MD5.hexdigest msg) = 32%nat.
Proof. unfold MD5.hexdigest. now rewrite hex_length, digest_length. Qed.

Lemma str_take_length n s :
  (n <= String.length s)%nat -> String.length (str_take n s) = n.
Proof.
  revert s. induction n as [|n IH]; intros s H; [reflexivity |].
  destruct s as [|c s]; simpl in *; [lia |]. rewrite IH; [reflexivity | lia].
Qed.

Lemma all_hex_take n s : all_hex s = true -> all_hex (str_take n s) = true.
Proof.
  revert s. induction n as [|n IH]; intros s H; [reflexivity |].
  destruct s as [|c s]; simpl in *; [reflexivity |].
  apply andb_true_iff in H as [Hc Hs]. now rewrite Hc, IH.
Qed.

Lemma is_hex_char_not_sep c : is_hex_char c = true -> Ascii.eqb c sep = false.
Proof.
  destruct c as [[] [] [] [] [] [] [] []]; simpl; intros H;
    try discriminate H; reflexivity.
Qed.

Lemma is_hex_char_not_dot c : is_hex_char c = true -> c <> "."%char.
Proof. intros H ->. discriminate H. Qed.

Lemma all_hex_no_sep s : all_hex s = true -> has_sep s = false.
Proof.
  induction s as [|c s IH]; simpl; [reflexivity |]. intros H.
  apply andb_true_iff in H as [Hc Hs]. now rewrite (is_hex_char_not_sep _ Hc), IH.
Qed.

Lemma all_hex_name s : all_hex s = true -> s <> "" -> is_name s = true.
Proof.
  intros Hh Hs. unfold is_name, nonempty.
  rewrite (all_hex_no_sep _ Hh). apply String.eqb_neq in Hs. rewrite Hs. simpl.
  destruct s as [|c s]; [discriminate |]. simpl in Hh.
  apply andb_true_iff in Hh as [Hc _]. apply is_hex_char_not_dot in Hc.
  assert (H1 : (String c s =? ".") = false).
  { apply String.eqb_neq. intros H. inversion H. contradiction. }
  assert (H2 : (String c s =? "..") = false).
  { apply String.eqb_neq. intros H. inversion H. contradiction. }
  now rewrite H1, H2.
Qed.

Lemma md5_hexdigest_update contents :
  md5_hexdigest (md5_update md5 contents) = MD5.hexdigest contents.
Proof. reflexivity. Qed.

Lemma fingerprint_length contents :
  String.length (str_take 6 (MD5.hexdigest contents)) = 6%nat.
Proof. apply str_take_length. rewrite hexdigest_length. lia. Qed.

Lemma fingerprint_hex contents : all_hex (str_take 6 (MD5.hexdigest contents)) = true.
Proof. apply all_hex_take. apply hex_all_hex. Qed.

Lemma fingerprint_name contents : is_name (str_take 6 (MD5.hexdigest contents)) = true.
Proof.
  apply all_hex_name; [apply fingerprint_hex |].
  intros H. pose proof (fingerprint_length contents) as L. rewrite H in L. discriminate L.
Qed.

(** ** The primitives, one at a time *)

Lemma with_fs_same w : with_fs w (fs w) = w.
Proof. now destruct w. Qed.

Lemma emit_spec e w : emit e w = (Ok tt, add_event w e).
Proof. reflexivity. Qed.

Lemma set_fs_spec m w : set_fs m w = (Ok tt, with_fs w m).
Proof. reflexivity. Qed.

(** What a successful write into the directory [a] amounts to. *)
Lemma write_file_ok w a b data w1 :
  is_name b = true ->
  write_file (join2 a b) data w = (Ok tt, w1) ->
  exists cur,
    dirloc w a = inr cur /\ fs w !! (b :: cur) <> Some Dir /\
    w1 = with_fs w (<[b :: cur := File data]> (fs w)).
Proof.
  intros Hb. rewrite (write_file_join2 _ _ _ _ Hb).
  destruct (dirloc w a) as [e|cur]; [discriminate |].
  destruct (fs w !! (b :: cur)) as [[]|] eqn:E; try discriminate;
    rewrite set_fs_spec; intros H; inversion H; subst; exists cur;
    repeat split; congruence.
Qed.

Lemma write_file_raise w a b data e w1 :
  is_name b = true ->
  write_file (join2 a b) data w = (Raise e, w1) -> w1 = w.
Proof.
  intros Hb. rewrite (write_file_join2 _ _ _ _ Hb). unfold raise.
  destruct (dirloc w a) as [e'|cur]; [intros H; now inversion H |].
  destruct (fs w !! (b :: cur)) as [[]|]; intros H; now inversion H.
Qed.

(** Writing again what is already there changes nothing. *)
Lemma write_file_again w a b data cur :
  is_name b = true ->
  dirloc w a = inr cur -> fs w !! (b :: cur) = Some (File data) ->
  write_file (join2 a b) data w = (Ok tt, w).
Proof.
  intros Hb Hd Hf. rewrite (write_file_join2 _ _ _ _ Hb), Hd, Hf, set_fs_spec.
  rewrite (insert_id _ _ _ Hf). now rewrite with_fs_same.
Qed.

Lemma os_path_exists_join2 w a b cur n :
  is_name b = true ->
  dirloc w a = inr cur -> fs w !! (b :: cur) = Some n ->
  os_path_exists w (join2 a b) = true.
Proof.
  intros Hb Hd Hn. unfold os_path_exists. now rewrite (os_stat_join2 _ _ _ Hb), Hd, Hn.
Qed.

Lemma os_path_exists_inv w a b :
  is_name b = true -> os_path_exists w (join2 a b) = true ->
  exists cur n, dirloc w a = inr cur /\ fs w !! (b :: cur) = Some n.
Proof.
  intros Hb. unfold os_path_exists. rewrite (os_stat_join2 _ _ _ Hb).
  destruct (dirloc w a) as [e|cur]; [discriminate |].
  destruct (fs w !! (b :: cur)) as [n|] eqn:E; [| discriminate].
  intros _. now exists cur, n.
Qed.

Lemma os_path_exists_shape_le w w' a b :
  is_name b = true -> cwd w' = cwd w -> shape_le (fs w) (fs w') ->
  os_path_exists w (join2 a b) = true -> os_path_exists w' (join2 a b) = true.
Proof.
  intros Hb Hc Hle Hex.
  destruct (os_path_exists_inv _ _ _ Hb Hex) as (cur & n & Hd & Hn).
  destruct (Hle _ _ Hn) as (n' & Hn' & _).
  apply (os_path_exists_join2 _ _ _ cur n' Hb); [| assumption].
  now apply (dirloc_shape_le w).
Qed.

Section Primitives.

Variable exec : command -> loc -> gmap loc node -> option process.
Variable decode : list byte -> option string.

Lemma print_stdout_frame lines w r w' :
  Builder.print_stdout decode lines w = (r, w') ->
  fs w' = fs w /\ cwd w' = cwd w /\
  spawn_count (events w') = spawn_count (events w).
Proof.
  revert w. induction lines as [|i rest IH]; intros w; simpl.
  - unfold ret. intros H. now inversion H.
  - destruct (decode (removelast i)) as [s|]; [| unfold raise; intros H; now inversion H].
    unfold bind, print. rewrite emit_spec. intros H. apply IH in H as (Hf & Hc & Hs).
    repeat split; [assumption | assumption |]. rewrite Hs. simpl.
    clear. induction (events w) as [|[] evs IH']; simpl; congruence.
Qed.

Lemma Popen_ok cmd d w p w' :
  Builder.Popen exec cmd d w = (Ok p, w') ->
  exists dir,
    os_stat w d = inr (dir, Dir) /\ exec cmd dir (fs w) = Some p /\
    w' = with_fs (add_event w (EvSpawn cmd d)) (fs_after p).
Proof.
  unfold Builder.Popen, raise.
  destruct (os_stat w d) as [e|[dir []]]; try discriminate.
  destruct (exec cmd dir (fs w)) as [p'|] eqn:E; [| discriminate].
  unfold bind. rewrite emit_spec, set_fs_spec. unfold ret.
  intros H. inversion H; subst. now exists dir.
Qed.

Lemma Popen_raise cmd d w e w' :
  Builder.Popen exec cmd d w = (Raise e, w') -> w' = w.
Proof.
  unfold Builder.Popen, raise.
  destruct (os_stat w d) as [e'|[dir []]]; try (intros H; now inversion H).
  destruct (exec cmd dir (fs w)) as [p'|]; [| intros H; now inversion H].
  unfold bind. rewrite emit_spec, set_fs_spec. discriminate.
Qed.

End Primitives.

Lemma spawn_count_app evs evs' :
  spawn_count (evs ++ evs') = (spawn_count evs + spawn_count evs')%nat.
Proof. induction evs as [|[] evs IH]; simpl; congruence. Qed.

(** ** build_environment, path by path *)

Section BuildEnvironment.

Variable resource_string : string -> string -> list byte.
Variable exec : command -> loc -> gmap loc node -> option process.
Variable decode : list byte -> option string.

Local Abbreviation build := (Builder.build_environment resource_string exec decode).
Local Abbreviation outcome := (build_outcome resource_string exec decode).
Local Abbreviation manifest := (manifest resource_string).
Local Abbreviation fingerprint := (fingerprint resource_string).
Local Abbreviation env_dir := (env_dir resource_string).
Local Abbreviation marker_path := (marker_path resource_string).
Local Abbreviation create_cmd := (create_cmd resource_string).
Local Abbreviation built := (built resource_string).

Lemma fingerprint_is_name : is_name fingerprint = true.
Proof. apply fingerprint_name. Qed.

Lemma build_environment_unfold self w :
  let d := Builder.data_dir self in
  build self w =
  match write_file (requirements_path d) manifest w with
  | (Raise e, w1) => (Raise e, w1)
  | (Ok _, w1) =>
      if os_path_exists w1 (marker_path d) then
        (Ok (built d), add_event w1 (log_reuse resource_string w1 d))
      else
        match os_makedirs (env_dir d) (add_event w1 (log_building resource_string w1 d)) with
        | (Raise e, w2) => (Raise e, w2)
        | (Ok _, w2) =>
            match Builder.Popen exec create_cmd d w2 with
            | (Raise e, w3) => (Raise e, w3)
            | (Ok p, w3) =>
                match Builder.print_stdout decode (stdout p) w3 with
                | (Raise e, w4) => (Raise e, w4)
                | (Ok _, w4) =>
                    if (returncode p =? 0)%Z then
                      match write_file (marker_path d) []
                              (add_event w4 (log_built resource_string d)) with
                      | (Raise e, w5) => (Raise e, w5)
                      | (Ok _, w5) => (Ok (built d), w5)
                      end
                    else
                      (Raise (CalledProcessError (returncode p) create_cmd),
                       add_event w4 (log_failed resource_string))
                end
            end
        end
  end.
Proof.
  intros d. unfold Builder.build_environment, bind.
  fold d. change (md5_hexdigest _) with (MD5.hexdigest manifest).
  change (str_take 6 (MD5.hexdigest manifest)) with fingerprint.
  change (os_path_join d [".conda-env"; fingerprint]) with (env_dir d).
  change (os_path_join (env_dir d) [".success"]) with (marker_path d).
  change (os_path_join d ["requirements.txt"]) with (requirements_path d).
  change (resource_string "lcdb_test_data" "requirements.txt") with manifest.
  destruct (write_file (requirements_path d) manifest w) as [[[]|e] w1]; [| reflexivity].
  unfold env_dir at 1.
  rewrite (os_path_relpath_env w1 d ".conda-env" fingerprint eq_refl fingerprint_is_name).
  fold (env_dir d).
  destruct (os_path_exists w1 (marker_path d)); cbv beta iota delta [negb].
  - reflexivity.
  - unfold logger_info, logger_error. rewrite emit_spec.
    change (add_event w1 _) with (add_event w1 (log_building resource_string w1 d)).
    destruct (os_makedirs (env_dir d) _) as [[[]|e] w2]; [| reflexivity].
    change (Builder.conda_create _) with create_cmd.
    destruct (Builder.Popen exec create_cmd d w2) as [[p|e] w3]; [| reflexivity].
    destruct (Builder.print_stdout decode (stdout p) w3) as [[[]|e] w4]; [| reflexivity].
    destruct (returncode p =? 0)%Z; cbv beta iota delta [negb].
    + unfold ret. cbv beta iota. rewrite emit_spec.
      change (add_event w4 _) with (add_event w4 (log_built resource_string d)).
      destruct (write_file (marker_path d) [] _) as [[[]|e] w5]; reflexivity.
    + rewrite emit_spec. reflexivity.
Qed.

Lemma build_environment_outcome self w r w' :
  build self w = (r, w') <-> outcome (Builder.data_dir self) w r w'.
Proof.
  rewrite build_environment_unfold. cbv zeta.
  set (d := Builder.data_dir self). split.
  - destruct (write_file (requirements_path d) manifest w) as [[[]|e] w1] eqn:E1;
      [| intros H; inversion H; subst; now apply copy_failed].
    destruct (os_path_exists w1 (marker_path d)) eqn:E2;
      [intros H; inversion H; subst; now apply reused |].
    destruct (os_makedirs (env_dir d) _) as [[[]|e] w2] eqn:E3;
      [| intros H; inversion H; subst; now apply (makedirs_failed _ _ _ _ _ w1)].
    destruct (Builder.Popen exec create_cmd d w2) as [[p|e] w3] eqn:E4;
      [| intros H; inversion H; subst; now apply (spawn_failed _ _ _ _ _ w1 w2)].
    destruct (Builder.print_stdout decode (stdout p) w3) as [[[]|e] w4] eqn:E5;
      [| intros H; inversion H; subst; now apply (output_failed _ _ _ _ _ w1 w2 p w3)].
    destruct (returncode p =? 0)%Z eqn:E6.
    + apply Z.eqb_eq in E6.
      destruct (write_file (marker_path d) [] _) as [[[]|e] w5] eqn:E7;
        intros H; inversion H; subst.
      * now apply (environment_built _ _ _ _ _ w1 w2 p w3 w4).
      * now apply (marker_failed _ _ _ _ _ w1 w2 p w3 w4).
    + apply Z.eqb_neq in E6. intros H; inversion H; subst.
      now apply (command_failed _ _ _ _ _ w1 w2 p w3).
  - intros H. destruct H;
      repeat match goal with
             | H : _ = (_, _) |- _ => rewrite H; clear H
             | H : os_path_exists _ _ = _ |- _ => rewrite H; clear H
             end; try reflexivity.
    + apply Z.eqb_neq in H4. now rewrite H4.
    + now rewrite H4.
    + now rewrite H4.
Qed.

End BuildEnvironment.

(** ** Worlds that only grow *)

Lemma grows_refl w : grows w w.
Proof. split; [reflexivity | apply shape_le_refl]. Qed.

Lemma grows_trans w1 w2 w3 : grows w1 w2 -> grows w2 w3 -> grows w1 w3.
Proof.
  intros [Hc1 Hs1] [Hc2 Hs2]. split; [congruence | now apply (shape_le_trans _ (fs w2))].
Qed.

Lemma grows_add_event w e : grows w (add_event w e).
Proof. split; [reflexivity | apply shape_le_refl]. Qed.

Lemma grows_subseteq w w' : cwd w' = cwd w -> fs w ⊆ fs w' -> grows w w'.
Proof. intros Hc Hs. split; [assumption | now apply subseteq_shape_le]. Qed.

Lemma os_path_exists_grows w w' p :
  grows w w' -> os_path_exists w p = true -> os_path_exists w' p = true.
Proof.
  intros [Hc Hle]. unfold os_path_exists, os_stat, start_of. rewrite Hc.
  destruct (p =? ""); [tauto |].
  destruct (walk (fs w) _ (split_sep p)) as [e|l] eqn:E; [discriminate |].
  rewrite (walk_shape_le _ _ _ _ _ Hle E).
  destruct (fs w !! l) as [n|] eqn:E'; [| discriminate].
  destruct (Hle _ _ E') as (n' & -> & _). reflexivity.
Qed.

Lemma dirloc_grows w w' a l : grows w w' -> dirloc w a = inr l -> dirloc w' a = inr l.
Proof. intros [Hc Hle]. now apply dirloc_shape_le. Qed.

Lemma write_file_frame p data w r w1 :
  write_file p data w = (r, w1) -> events w1 = events w /\ grows w w1.
Proof.
  unfold write_file, raise. rewrite ?set_fs_spec. intros H.
  repeat case_match; inversion H; subst; try (split; [reflexivity | apply grows_refl]).
  all: split; [reflexivity |]; split; [reflexivity |]; simpl;
    apply shape_le_insert_file; congruence.
Qed.

Lemma os_makedirs_frame p w r w' :
  os_makedirs p w = (r, w') -> events w' = events w /\ grows w w' /\ fs w ⊆ fs w'.
Proof.
  intros H. apply makedirs_rec_frame in H as (Hc & He & Hs).
  repeat split; try assumption. now apply subseteq_shape_le.
Qed.

Lemma has_copy_written w d name data w1 :
  is_name name = true ->
  write_file (join2 d name) data w = (Ok tt, w1) -> has_copy w1 d name data.
Proof.
  intros Hn H. pose proof (write_file_frame _ _ _ _ _ H) as [_ Hg].
  apply (write_file_ok _ _ _ _ _ Hn) in H as (cur & Hd & _ & ->).
  exists cur. split; [now apply (dirloc_grows w) | apply lookup_insert_eq].
Qed.

Lemma has_copy_subseteq w w' d name data :
  cwd w' = cwd w -> fs w ⊆ fs w' -> has_copy w d name data -> has_copy w' d name data.
Proof.
  intros Hc Hs (cur & Hd & Hf). exists cur. split.
  - apply (dirloc_grows w); [now apply grows_subseteq | assumption].
  - now apply (lookup_weaken (fs w)).
Qed.

(** A copy survives the writing of a file with another name. *)
Lemma has_copy_other_write w d name data a b data' w1 :
  is_name b = true -> b <> name ->
  write_file (join2 a b) data' w = (Ok tt, w1) ->
  has_copy w d name data -> has_copy w1 d name data.
Proof.
  intros Hb Hne H (cur & Hd & Hf).
  pose proof (write_file_frame _ _ _ _ _ H) as [_ Hg].
  apply (write_file_ok _ _ _ _ _ Hb) in H as (cur' & _ & _ & ->).
  exists cur. split; [now apply (dirloc_grows w) |].
  simpl. rewrite lookup_insert_ne; [assumption | congruence].
Qed.

Lemma has_copy_again w d name data :
  is_name name = true -> has_copy w d name data ->
  write_file (join2 d name) data w = (Ok tt, w).
Proof. intros Hn (cur & Hd & Hf). now apply (write_file_again _ _ _ _ cur). Qed.

(** ** Making the environment directory *)

Lemma rstrip_sep_id x : endswith_sep x = false -> rstrip_sep x = x.
Proof.
  induction x as [|c x IH]; [reflexivity |]. simpl. destruct x as [|c' x].
  - simpl. now intros ->.
  - intros H. rewrite (IH H). reflexivity.
Qed.

Lemma head_of_join2 a b : is_name b = true -> head_of (join2 a b) = join2 a b.
Proof.
  intros Hb. unfold head_of. rewrite (join2_eqb_empty _ _ Hb).
  pose proof (endswith_join2 a b Hb) as He.
  destruct (all_sep (join2 a b)) eqn:E.
  - rewrite (all_sep_endswith _ (join2_nonempty a b Hb) E) in He. discriminate.
  - now apply rstrip_sep_id.
Qed.

Lemma dirloc_exists w p l :
  p <> "" -> dirloc w p = inr l -> os_stat w p = inr (l, Dir).
Proof.
  intros Hp. rewrite (dirloc_os_stat _ _ Hp).
  destruct (os_stat w p) as [e|[l' []]]; intros H; inversion H; reflexivity.
Qed.

Lemma os_stat_dirloc w p l : os_stat w p = inr (l, Dir) -> dirloc w p = inr l.
Proof.
  intros H. assert (Hp : p <> "").
  { intros ->. discriminate H. }
  now rewrite (dirloc_os_stat _ _ Hp), H.
Qed.

Lemma length_join2_pos a b : is_name b = true -> String.length (join2 a b) <> O.
Proof.
  intros Hb H. pose proof (join2_nonempty a b Hb) as Hn.
  destruct (join2 a b); [contradiction | discriminate].
Qed.

(** Under an existing directory [d], with no environment yet:
    [.conda-env] is made unless it is there, then the environment
    directory. *)
Lemma os_makedirs_fresh w d c1 c2 cur :
  is_name c1 = true -> is_name c2 = true ->
  os_stat w d = inr (cur, Dir) ->
  fs w !! (c1 :: cur) = None \/ fs w !! (c1 :: cur) = Some Dir ->
  fs w !! (c2 :: c1 :: cur) = None ->
  os_makedirs (join2 (join2 d c1) c2) w =
  (Ok tt, with_fs w (<[c2 :: c1 :: cur := Dir]> (<[c1 :: cur := Dir]> (fs w)))).
Proof.
  intros H1 H2 Hd Hc1 Hc2. pose proof (os_stat_dirloc _ _ _ Hd) as Hdl.
  assert (Hdn : d <> "") by (intros ->; discriminate Hd).
  unfold os_makedirs. rewrite (makedirs_rec_join2 _ _ _ _ H2), (head_of_join2 _ _ H1).
  unfold nonempty. rewrite (join2_eqb_empty _ _ H1). simpl.
  unfold os_path_exists at 1. rewrite (os_stat_join2 _ _ _ H1), Hdl.
  destruct Hc1 as [Hc1 | Hc1]; rewrite Hc1; simpl.
  - destruct (String.length (join2 (join2 d c1) c2)) as [|n] eqn:En;
      [now apply length_join2_pos in En |].
    unfold bind, except_FileExistsError.
    rewrite (makedirs_rec_join2 _ _ _ _ H1), (exists_head_of _ _ _ Hdn Hdl), andb_false_r.
    rewrite (os_mkdir_join2 _ _ _ H1), Hdl, Hc1, set_fs_spec.
    set (w1 := with_fs w (<[c1 :: cur := Dir]> (fs w))).
    assert (Hg : grows w w1).
    { apply grows_subseteq; [reflexivity | now apply insert_subseteq]. }
    rewrite (os_mkdir_join2 _ _ _ H2), (dirloc_join2 _ _ _ H1), (dirloc_grows _ _ _ _ Hg Hdl).
    simpl. rewrite lookup_insert_eq.
    rewrite lookup_insert_ne by (intros H; apply (f_equal length) in H; simpl in H; lia).
    now rewrite Hc2, set_fs_spec.
  - rewrite (os_mkdir_join2 _ _ _ H2), (dirloc_join2 _ _ _ H1), Hdl, Hc1, Hc2, set_fs_spec.
    now rewrite (insert_id _ _ _ Hc1).
Qed.

(** ** os.makedirs on a path that does not exist *)

Lemma length_append a b : String.length (a +:+ b) = (String.length a + String.length b)%nat.
Proof. induction a as [|c a IH]; [reflexivity |]. rewrite append_cons. simpl. now rewrite IH. Qed.

(** Every path is a head that is empty or ends with a separator, followed
    by a last component. *)
Lemma split_decomp p :
  exists x t, p = x +:+ t /\ has_sep t = false /\ (x = "" \/ endswith_sep x = true).
Proof.
  induction p as [|c p (x & t & -> & Ht & Hx)].
  - exists "", "". auto.
  - destruct (String.eqb_spec x "") as [->|Hne].
    + rewrite append_nil_l. destruct (Ascii.eqb c sep) eqn:E.
      * exists (String c ""), t. repeat split; [assumption |]. right. exact E.
      * exists "", (String c t). repeat split; [| now left]. simpl. now rewrite E.
    + exists (String c x), t. repeat split; [assumption |]. right.
      destruct Hx as [-> | Hx]; [contradiction |].
      simpl. destruct x; [contradiction | exact Hx].
Qed.

Lemma os_path_split_decomp x t :
  has_sep t = false -> x = "" \/ endswith_sep x = true ->
  os_path_split (x +:+ t) = (head_of x, t).
Proof.
  intros Ht Hx. unfold os_path_split.
  rewrite (os_path_split_raw x t Ht Hx), str_take_append, str_drop_append.
  unfold head_of, nonempty.
  destruct (String.eqb_spec x "") as [->|_]; [reflexivity |]. simpl.
  destruct (all_sep x); reflexivity.
Qed.

Lemma append_is_join2 x t :
  has_sep t = false -> x = "" \/ endswith_sep x = true -> x +:+ t = join2 x t.
Proof.
  intros Ht Hx. rewrite (join2_relative x t (has_sep_head _ Ht)).
  destruct Hx as [-> | ->]; [reflexivity | now rewrite orb_true_r].
Qed.

Lemma is_name_intro t :
  has_sep t = false -> t <> "" -> t <> "." -> t <> ".." -> is_name t = true.
Proof.
  intros Hs H0 H1 H2. unfold is_name, nonempty. rewrite Hs.
  apply String.eqb_neq in H0, H1, H2. now rewrite H0, H1, H2.
Qed.

(** A last component [.] stays in the directory the head names. *)
Lemma os_stat_dot w x :
  x = "" \/ endswith_sep x = true ->
  os_stat w (x +:+ ".") =
  match dirloc w x with
  | inl e => inl e
  | inr l => inr (l, Dir)
  end.
Proof.
  intros Hx. unfold os_stat, dirloc, start_of.
  rewrite (eqb_empty_append_r x ".") by discriminate.
  destruct Hx as [-> | Hx].
  - simpl. unfold lookup_step. simpl.
    destruct (fs w !! cwd w) as [[]|] eqn:E; simpl; rewrite ?E; reflexivity.
  - pose proof Hx as Hx'. apply endswith_sep_inv in Hx' as [a ->].
    assert (Ha : a +:+ "/" <> "") by (intros H; now apply append_eq_nil in H).
    rewrite (startswith_sep_append _ "." Ha).
    apply String.eqb_neq in Ha. rewrite Ha.
    rewrite append_assoc. change ("/" +:+ ".") with (String sep ".").
    change (a +:+ "/") with (a +:+ String sep "").
    rewrite !split_sep_app_sep. simpl split_sep. rewrite !walk_app.
    destruct (walk (fs w) _ (split_sep a)) as [e|l]; [reflexivity |].
    simpl. unfold lookup_step. simpl.
    destruct (fs w !! l) as [[]|] eqn:E; simpl; rewrite ?E; reflexivity.
Qed.

Lemma dirloc_enoent w p :
  p <> "" -> dirloc w p = inl ENOENT <-> os_stat w p = inl ENOENT.
Proof.
  intros Hp. rewrite (dirloc_os_stat _ _ Hp).
  destruct (os_stat w p) as [e|[l []]]; split; intros H; inversion H; reflexivity.
Qed.

Lemma rstrip_sep_endswith x : endswith_sep (rstrip_sep x) = false.
Proof.
  induction x as [|c x IH]; [reflexivity |]. simpl.
  destruct (rstrip_sep x) as [|c' r] eqn:E.
  - destruct (Ascii.eqb c sep) eqn:Ec; [reflexivity | simpl; exact Ec].
  - exact IH.
Qed.

Lemma rstrip_sep_append_seps q k :
  endswith_sep q = false -> rstrip_sep (q +:+ repeat_sep k) = q.
Proof.
  intros Hq. induction k as [|k IH].
  - rewrite append_nil_r. now apply rstrip_sep_id.
  - replace (q +:+ repeat_sep (S k)) with ((q +:+ repeat_sep k) +:+ "/").
    + now rewrite rstrip_sep_snoc.
    + rewrite append_assoc. f_equal. clear. induction k as [|k IH]; [reflexivity |].
      simpl. rewrite append_cons. now rewrite IH.
Qed.

Lemma all_sep_false q k : q <> "" -> endswith_sep q = false -> all_sep (q +:+ repeat_sep k) = false.
Proof.
  intros Hq He. rewrite all_sep_append.
  destruct (all_sep q) eqn:E; [| reflexivity].
  rewrite (all_sep_endswith _ Hq E) in He. discriminate.
Qed.

Lemma head_of_trailing q k :
  q <> "" -> endswith_sep q = false -> head_of (q +:+ repeat_sep k) = q.
Proof.
  intros Hq He. unfold head_of.
  rewrite (eqb_empty_append_l q _ Hq), (all_sep_false _ _ Hq He).
  now apply rstrip_sep_append_seps.
Qed.

Lemma strip_trailing_empty_repeat cs k :
  strip_trailing_empty (cs ++ repeat "" k) = strip_trailing_empty cs.
Proof.
  induction cs as [|c cs IH]; simpl.
  - induction k as [|k IHk]; [reflexivity |]. simpl. now rewrite IHk.
  - now rewrite IH.
Qed.

Lemma split_sep_trailing q k :
  split_sep (q +:+ repeat_sep (S k)) = split_sep q ++ repeat "" (S k).
Proof. simpl repeat_sep. now rewrite split_sep_app_sep, split_sep_repeat_sep. Qed.

(** Trailing separators do not change what [os.mkdir] makes. *)
Lemma os_mkdir_trailing q k w :
  q <> "" -> os_mkdir (q +:+ repeat_sep (S k)) w = os_mkdir q w.
Proof.
  intros Hq. unfold os_mkdir, start_of.
  rewrite (eqb_empty_append_l q _ Hq), (startswith_sep_append _ _ Hq).
  apply String.eqb_neq in Hq. rewrite Hq.
  now rewrite split_sep_trailing, strip_trailing_empty_repeat.
Qed.

Lemma dirloc_trailing q k w :
  q <> "" -> endswith_sep q = false -> dirloc w (q +:+ repeat_sep k) = dirloc w q.
Proof.
  intros Hq He. rewrite <- (dirloc_head_of w (q +:+ repeat_sep k)).
  now rewrite head_of_trailing.
Qed.

Lemma no_dotdot_app_sep a b :
  no_dotdot (a +:+ String sep b) = no_dotdot a && no_dotdot b.
Proof. unfold no_dotdot. now rewrite split_sep_app_sep, forallb_app. Qed.

Lemma no_dotdot_repeat_sep k : no_dotdot (repeat_sep k) = true.
Proof.
  unfold no_dotdot. rewrite split_sep_repeat_sep.
  induction k as [|k IH]; [reflexivity | exact IH].
Qed.

Lemma no_dotdot_trailing q k : no_dotdot (q +:+ repeat_sep k) = no_dotdot q.
Proof.
  destruct k as [|k]; [now rewrite append_nil_r |].
  simpl repeat_sep. now rewrite no_dotdot_app_sep, no_dotdot_repeat_sep, andb_true_r.
Qed.

Lemma no_dotdot_rstrip x : no_dotdot (rstrip_sep x) = no_dotdot x.
Proof.
  destruct (rstrip_sep_decomp x) as [k Hk]. rewrite Hk at 2. now rewrite no_dotdot_trailing.
Qed.

Lemma no_dotdot_head x t :
  has_sep t = false -> x = "" \/ endswith_sep x = true ->
  no_dotdot (x +:+ t) = true ->
  no_dotdot (head_of x) = true /\ t <> "..".
Proof.
  intros Ht [-> | Hx] H.
  - split; [reflexivity |]. rewrite append_nil_l in H. unfold no_dotdot in H.
    rewrite (split_sep_no_sep _ Ht) in H. simpl in H.
    intros ->. discriminate H.
  - apply endswith_sep_inv in Hx as [a ->].
    rewrite append_assoc in H. change ("/" +:+ t) with (String sep t) in H.
    rewrite no_dotdot_app_sep in H. apply andb_true_iff in H as [Ha Hnt].
    split.
    + assert (Hx : no_dotdot (a +:+ "/") = true).
      { change (a +:+ "/") with (a +:+ String sep ""). now rewrite no_dotdot_app_sep, Ha. }
      unfold head_of. destruct (a +:+ "/" =? ""); [reflexivity |].
      destruct (all_sep (a +:+ "/")); [exact Hx | now rewrite no_dotdot_rstrip].
    + unfold no_dotdot in Hnt. rewrite (split_sep_no_sep _ Ht) in Hnt. simpl in Hnt.
      intros ->. discriminate Hnt.
Qed.

Lemma length_head_of x : (String.length (head_of x) <= String.length x)%nat.
Proof.
  unfold head_of. destruct (x =? ""); [simpl; lia |].
  destruct (all_sep x); [lia |].
  destruct (rstrip_sep_decomp x) as [k Hk]. rewrite Hk at 2. rewrite length_append. lia.
Qed.

Lemma well_formed_insert w cur t :
  well_formed w -> fs w !! cur = Some Dir -> fs w !! (t :: cur) = None ->
  well_formed (with_fs w (<[t :: cur := Dir]> (fs w))).
Proof.
  intros [Hr Hc Hp] Hcur Hnew. split; simpl.
  - rewrite lookup_insert_ne by discriminate. exact Hr.
  - destruct (decide (t :: cur = cwd w)) as [E|Hne].
    + rewrite <- E. apply lookup_insert_eq.
    + rewrite lookup_insert_ne by assumption. exact Hc.
  - intros c l n H.
    assert (Hl : fs w !! l = Some Dir).
    { destruct (decide (t :: cur = c :: l)) as [E|Hne].
      - inversion E; subst. exact Hcur.
      - rewrite lookup_insert_ne in H by assumption. exact (Hp _ _ _ H). }
    rewrite lookup_insert_ne; [exact Hl | congruence].
Qed.

Lemma well_formed_dirloc_empty w : well_formed w -> dirloc w "" = inr (cwd w).
Proof. intros [_ Hc _]. unfold dirloc. simpl. now rewrite Hc. Qed.

Lemma all_sep_repeat x : all_sep x = true -> x = repeat_sep (String.length x).
Proof.
  induction x as [|c x IH]; [reflexivity |]. simpl. intros H.
  apply andb_true_iff in H as [Hc Hx]. apply Ascii.eqb_eq in Hc. subst c.
  now rewrite <- (IH Hx).
Qed.

Lemma walk_empties m cur k : m !! cur = Some Dir -> walk m cur (repeat "" k) = inr cur.
Proof.
  intros H. induction k as [|k IH]; [reflexivity |]. simpl.
  unfold lookup_step. rewrite H. simpl. exact IH.
Qed.

Lemma well_formed_all_sep w x :
  well_formed w -> x <> "" -> all_sep x = true -> os_stat w x = inr ([], Dir).
Proof.
  intros [Hr _ _] Hx Ha. destruct x as [|c x]; [contradiction |].
  simpl in Ha. apply andb_true_iff in Ha as [Hc Ha].
  unfold os_stat, start_of. simpl. rewrite Hc.
  rewrite (all_sep_repeat _ Ha), split_sep_repeat_sep.
  change ("" :: repeat "" (S (String.length x))) with (repeat "" (S (S (String.length x)))).
  rewrite (walk_empties _ _ _ Hr). now rewrite Hr.
Qed.

(** The last step of [os.makedirs]: the directory itself. *)
Lemma os_mkdir_made w x t cur :
  is_name t = true -> well_formed w ->
  dirloc w x = inr cur -> fs w !! (t :: cur) = None ->
  os_mkdir (join2 x t) w = (Ok tt, with_fs w (<[t :: cur := Dir]> (fs w))) /\
  made w (with_fs w (<[t :: cur := Dir]> (fs w))) (join2 x t).
Proof.
  intros Ht Hwf Hd Hnew.
  pose proof (check_dir_inr _ _ _ Hd) as [_ Hcur].
  assert (Hsub : fs w ⊆ <[t :: cur := Dir]> (fs w)) by now apply insert_subseteq.
  split; [now rewrite (os_mkdir_join2 _ _ _ Ht), Hd, Hnew |].
  exists (t :: cur).
  split; [| split; [exact Hnew | split; [reflexivity | split; [reflexivity |
    split; [exact Hsub | split; [now apply well_formed_insert |]]]]]].
  - rewrite (dirloc_join2 _ _ _ Ht).
    rewrite (dirloc_grows w _ x cur); [| now apply grows_subseteq | assumption].
    simpl. now rewrite lookup_insert_eq.
  - simpl. intros q n H H0. destruct (decide (t :: cur = q)) as [<-|Hne].
    + rewrite lookup_insert_eq in H. split; [congruence | reflexivity].
    + rewrite lookup_insert_ne in H by assumption. congruence.
Qed.

(** The last step after the parents were made. *)
Lemma made_then_mkdir w w1 x t :
  is_name t = true -> well_formed w ->
  made w w1 (head_of x) ->
  exists w', os_mkdir (join2 x t) w1 = (Ok tt, w') /\ made w w' (join2 x t).
Proof.
  intros Ht Hwf (l1 & Hd1 & Hn1 & Hc1 & He1 & Hs1 & Hwf1 & Hnew1).
  rewrite dirloc_head_of in Hd1.
  assert (Hw : fs w !! (t :: l1) = None).
  { destruct (fs w !! (t :: l1)) as [n|] eqn:E; [| reflexivity].
    rewrite (wf_parent _ Hwf _ _ _ E) in Hn1. discriminate. }
  assert (Hw1 : fs w1 !! (t :: l1) = None).
  { destruct (fs w1 !! (t :: l1)) as [n|] eqn:E; [| reflexivity].
    destruct (Hnew1 _ _ E Hw) as [_ Hsuf]. apply suffix_length in Hsuf. simpl in Hsuf. lia. }
  destruct (os_mkdir_made w1 x t l1 Ht Hwf1 Hd1 Hw1)
    as (Hmk & l & Hd & Hn & Hc & He & Hs & Hwf' & Hnew).
  eexists. split; [exact Hmk |].
  assert (Hl : l = t :: l1).
  { rewrite (dirloc_join2 _ _ _ Ht) in Hd.
    rewrite (dirloc_grows w1 _ x l1) in Hd;
      [| apply grows_subseteq; [reflexivity | now apply insert_subseteq] | assumption].
    simpl in Hd. rewrite lookup_insert_eq in Hd. now inversion Hd. }
  subst l. exists (t :: l1).
  split; [exact Hd | split; [exact Hw | split; [congruence | split; [congruence |
    split; [now transitivity (fs w1) | split; [exact Hwf' |]]]]]].
  intros q n H H0. destruct (fs w1 !! q) as [n1|] eqn:E1.
  - rewrite (lookup_weaken _ _ _ _ E1 Hs) in H. inversion H; subst.
    destruct (Hnew1 _ _ E1 H0) as [Hn' Hsuf]. split; [exact Hn' | now apply suffix_cons_r].
  - exact (Hnew _ _ H E1).
Qed.

Lemma last_component_nonempty q x t :
  q <> "" -> endswith_sep q = false ->
  q = x +:+ t -> x = "" \/ endswith_sep x = true -> t <> "".
Proof.
  intros Hq He -> Hx ->. rewrite append_nil_r in *.
  destruct Hx as [-> | Hx]; [contradiction | congruence].
Qed.

(** [os.makedirs] treats a path with trailing separators as the path
    without them. *)
Lemma makedirs_rec_trailing fuel q k w :
  q <> "" -> endswith_sep q = false ->
  makedirs_rec (S fuel) (q +:+ repeat_sep (S k)) w = makedirs_rec (S fuel) q w.
Proof.
  intros Hq He. rewrite !makedirs_rec_S.
  assert (Hx : endswith_sep (q +:+ repeat_sep (S k)) = true).
  { rewrite endswith_sep_append by discriminate.
    clear. induction k as [|k IH]; [reflexivity |]. simpl in *. exact IH. }
  pose proof (os_path_split_decomp _ "" eq_refl (or_intror Hx)) as Hsp.
  rewrite append_nil_r, (head_of_trailing _ _ Hq He) in Hsp. rewrite Hsp.
  cbv beta iota. change ("" =? "") with true. cbv beta iota.
  destruct (split_decomp q) as (x2 & t2 & Hq2 & Ht2 & Hx2).
  pose proof (last_component_nonempty _ _ _ Hq He Hq2 Hx2) as Hne.
  pose proof (os_path_split_decomp x2 t2 Ht2 Hx2) as Hsp2. rewrite <- Hq2 in Hsp2.
  rewrite Hsp2. apply String.eqb_neq in Hne. rewrite Hne.
  destruct (nonempty (head_of x2) && nonempty t2 && negb (os_path_exists w (head_of x2)));
    [| now rewrite (os_mkdir_trailing _ _ _ Hq)].
  unfold bind.
  destruct (except_FileExistsError (makedirs_rec fuel (head_of x2)) w) as [[[]|e] w1];
    [| reflexivity].
  destruct (t2 =? "."); [reflexivity | now rewrite (os_mkdir_trailing _ _ _ Hq)].
Qed.

Lemma makedirs_rec_creates fuel :
  forall p w,
    (String.length p < fuel)%nat -> p <> "" -> no_dotdot p = true ->
    well_formed w -> os_stat w p = inl ENOENT ->
    exists w', makedirs_rec fuel p w = (Ok tt, w') /\ made w w' p.
Proof.
  induction fuel as [|fuel IH]; intros p w Hlen Hp Hnd Hwf Hst; [lia |].
  (* the step, for a path whose last component is not empty *)
  assert (Step : forall x t,
             has_sep t = false -> t <> "" -> x = "" \/ endswith_sep x = true ->
             (String.length (x +:+ t) <= fuel)%nat ->
             no_dotdot (x +:+ t) = true -> os_stat w (x +:+ t) = inl ENOENT ->
             exists w', makedirs_rec (S fuel) (x +:+ t) w = (Ok tt, w') /\
                        made w w' (x +:+ t)).
  { clear p Hlen Hp Hnd Hst. intros x t Ht Hne Hx Hlen Hnd Hst.
    destruct (no_dotdot_head x t Ht Hx Hnd) as [Hndh Hdd].
    assert (Hlenh : (String.length (head_of x) < fuel)%nat).
    { pose proof (length_head_of x). rewrite length_append in Hlen.
      destruct t; [contradiction | simpl in Hlen; lia]. }
    (* when the head does not name a directory, the parents are made first *)
    assert (Parents : dirloc w x = inl ENOENT ->
              nonempty (head_of x) && nonempty t && negb (os_path_exists w (head_of x)) = true /\
              exists w1, makedirs_rec fuel (head_of x) w = (Ok tt, w1) /\
                         made w w1 (head_of x)).
    { intros Hd.
      assert (Hxn : x <> "").
      { intros ->. rewrite (well_formed_dirloc_empty _ Hwf) in Hd. discriminate. }
      pose proof (head_of_nonempty _ Hxn) as Hhn.
      assert (Hsth : os_stat w (head_of x) = inl ENOENT).
      { apply dirloc_enoent; [assumption | now rewrite dirloc_head_of]. }
      split; [| now apply IH].
      unfold nonempty, os_path_exists. rewrite Hsth.
      apply String.eqb_neq in Hhn, Hne. now rewrite Hhn, Hne. }
    rewrite makedirs_rec_S, (os_path_split_decomp x t Ht Hx).
    pose proof Hne as Hne'. apply String.eqb_neq in Hne'. rewrite Hne'.
    destruct (String.eqb_spec t ".") as [->|Hdot].
    - (* the last component is [.] *)
      rewrite (os_stat_dot _ _ Hx) in Hst.
      destruct (dirloc w x) as [e|l] eqn:Hd; [| discriminate].
      inversion Hst; subst e.
      destruct (Parents eq_refl) as (-> & w1 & Hmk & l1 & Hd1 & Hrest).
      exists w1. unfold bind, except_FileExistsError. rewrite Hmk. split; [reflexivity |].
      exists l1. split; [| exact Hrest].
      assert (Hpn : x +:+ "." <> "") by (intros H; now apply append_eq_nil in H).
      rewrite (dirloc_os_stat _ _ Hpn), (os_stat_dot _ _ Hx).
      rewrite dirloc_head_of in Hd1. now rewrite Hd1.
    - (* the last component is a name *)
      pose proof (is_name_intro t Ht Hne Hdot Hdd) as Hname.
      rewrite (append_is_join2 x t Ht Hx) in *.
      rewrite (os_stat_join2 _ _ _ Hname) in Hst.
      destruct (dirloc w x) as [e|cur] eqn:Hd.
      + inversion Hst; subst e.
        destruct (Parents eq_refl) as (-> & w1 & Hmk & Hmade).
        unfold bind, except_FileExistsError. rewrite Hmk.
        now apply (made_then_mkdir w w1 x t).
      + destruct (fs w !! (t :: cur)) as [n|] eqn:Hn; [discriminate |].
        destruct (os_mkdir_made w x t cur Hname Hwf Hd Hn) as [Hmk Hmade].
        assert (Hcond : nonempty (head_of x) && nonempty t
                        && negb (os_path_exists w (head_of x)) = false).
        { destruct (String.eqb_spec x "") as [->|Hxn]; [reflexivity |].
          now rewrite (exists_head_of _ _ _ Hxn Hd), andb_false_r. }
        rewrite Hcond. eexists. split; [exact Hmk | exact Hmade]. }
  destruct (split_decomp p) as (x & t & -> & Ht & Hx).
  destruct (String.eqb_spec t "") as [->|Hne].
  - (* trailing separators *)
    rewrite append_nil_r in *.
    destruct Hx as [-> | Hx]; [contradiction |].
    destruct (all_sep x) eqn:Hall.
    { rewrite (well_formed_all_sep _ _ Hwf Hp Hall) in Hst. discriminate. }
    destruct (rstrip_sep_decomp x) as [k Hk].
    set (q := rstrip_sep x) in *.
    assert (Hq : q <> "").
    { intros H. apply rstrip_sep_empty in H. congruence. }
    pose proof (rstrip_sep_endswith x) as He. fold q in He.
    destruct k as [|k].
    { rewrite append_nil_r in Hk. rewrite <- Hk in He. congruence. }
    assert (Hstq : os_stat w q = inl ENOENT).
    { apply dirloc_enoent; [assumption |].
      rewrite <- (dirloc_trailing q (S k) w Hq He), <- Hk. now apply dirloc_enoent. }
    destruct (split_decomp q) as (x2 & t2 & Hq2 & Ht2 & Hx2).
    pose proof (last_component_nonempty _ _ _ Hq He Hq2 Hx2) as Hne2.
    destruct (Step x2 t2 Ht2 Hne2 Hx2) as (w' & Hmk & l & Hd & Hrest).
    + rewrite <- Hq2. rewrite Hk, length_append in Hlen. simpl in Hlen. lia.
    + rewrite <- Hq2. rewrite Hk, no_dotdot_trailing in Hnd. exact Hnd.
    + now rewrite <- Hq2.
    + rewrite <- Hq2 in *. exists w'. rewrite Hk.
      rewrite (makedirs_rec_trailing _ _ _ _ Hq He). split; [exact Hmk |].
      exists l. split; [| exact Hrest]. now rewrite (dirloc_trailing q (S k) w' Hq He).
  - apply (Step x t Ht Hne Hx); [lia | assumption | assumption].
Qed.

(** ** The models of [os.path] and [os] against CPython *)

Example os_path_split_examples :
  os_path_split "/a//b///" = ("/a//b", "") /\ os_path_split "/" = ("/", "") /\
  os_path_split "abc" = ("", "abc") /\ os_path_split "a/b" = ("a", "b") /\
  os_path_split "//" = ("//", "") /\ os_path_split "a/" = ("a", "") /\
  os_path_split "/x" = ("/", "x").
Proof. repeat split; reflexivity. Qed.

Example os_path_normpath_examples :
  os_path_normpath "//a/../../b/./c//" = "//b/c" /\
  os_path_normpath "a/../../b" = "../b" /\
  os_path_normpath "///a" = "/a" /\
  os_path_normpath "" = "." /\
  os_path_normpath "/.." = "/" /\
  os_path_normpath "a/b/../.." = "." /\
  os_path_normpath "./data/.conda-env/x" = "data/.conda-env/x".
Proof. repeat split; reflexivity. Qed.

Example os_path_join_examples :
  join2 "a" "b" = "a/b" /\ join2 "a/" "b" = "a/b" /\ join2 "a" "/b" = "/b" /\
  join2 "" "b" = "b" /\ join2 "/" "b" = "/b" /\ join2 "a" "" = "a/".
Proof. repeat split; reflexivity. Qed.

Example os_path_relpath_examples :
  let relpath path start := fst (os_path_relpath (Some path) start Scenario.home) in
  relpath "./data/.conda-env/bdf917" "./data" = Ok ".conda-env/bdf917" /\
  relpath "a/b" "c" = Ok "../a/b" /\
  relpath "/x/y" "/x/y" = Ok "." /\
  relpath "/" "/home/z" = Ok "../.." /\
  relpath "../q" "r/.." = Ok "../q".
Proof. repeat split; vm_compute; reflexivity. Qed.

Example os_makedirs_examples :
  let w := with_fs Scenario.home (<[["f"; "home"] := File []]> (fs Scenario.home)) in
  let makedirs p := fst (os_makedirs p w) in
  makedirs "foo/.." = Raise FileExistsError /\
  makedirs "" = Raise (OSError ENOENT) /\
  makedirs "f/x" = Raise (OSError ENOTDIR) /\
  makedirs "a/./b/" = Ok tt /\
  makedirs "c//d" = Ok tt /\
  makedirs "e/." = Ok tt /\
  makedirs "." = Raise FileExistsError /\
  makedirs "/" = Raise FileExistsError.
Proof. repeat split; vm_compute; reflexivity. Qed.

Example write_file_examples :
  let w := with_fs Scenario.home (<[["f"; "home"] := File []]> (fs Scenario.home)) in
  let open_wb p := fst (write_file p [] w) in
  open_wb "/home/" = Raise (OSError EISDIR) /\
  open_wb "zz/" = Raise (OSError EISDIR) /\
  open_wb "f/x" = Raise (OSError ENOTDIR) /\
  open_wb "zz/x" = Raise (OSError ENOENT) /\
  open_wb "f" = Ok tt /\
  open_wb "new" = Ok tt.
Proof. repeat split; vm_compute; reflexivity. Qed.

(** ** The recursion of [os.makedirs] ends *)

Lemma os_path_split_shorter p h t :
  os_path_split p = (h, t) ->
  (String.length h + String.length t <= String.length p)%nat.
Proof.
  destruct (split_decomp p) as (x & t' & -> & Ht & Hx).
  rewrite (os_path_split_decomp x t' Ht Hx). intros H. inversion H; subst.
  pose proof (length_head_of x). rewrite length_append. lia.
Qed.

(** The fuel [os_makedirs] starts with is never used up. *)
Lemma makedirs_rec_fuel fuel :
  forall p w r w',
    (String.length p < fuel)%nat ->
    makedirs_rec fuel p w = (r, w') -> r <> Raise RecursionError.
Proof.
  induction fuel as [|fuel IH]; intros p w r w' Hlen; [lia |].
  assert (Hmk : forall w0 r0 w1, os_mkdir p w0 = (r0, w1) -> r0 <> Raise RecursionError).
  { intros w0 r0 w1. unfold os_mkdir, raise, set_fs. intros H.
    repeat case_match; inversion H; discriminate. }
  rewrite makedirs_rec_S.
  destruct (os_path_split p) as [h t] eqn:E1.
  pose proof (os_path_split_shorter _ _ _ E1) as L1.
  destruct (if t =? "" then os_path_split h else (h, t)) as [h' t'] eqn:E2.
  assert (L2 : (String.length h' + String.length t' <= String.length p)%nat).
  { destruct (t =? ""); [| inversion E2; subst; exact L1].
    pose proof (os_path_split_shorter _ _ _ E2). lia. }
  destruct (nonempty h' && nonempty t' && negb (os_path_exists w h')) eqn:Ec;
    [| apply Hmk].
  assert (Lh : (String.length h' < fuel)%nat).
  { apply andb_true_iff in Ec as [Ec _]. apply andb_true_iff in Ec as [_ Et].
    destruct t'; [discriminate Et | simpl in L2; lia]. }
  unfold bind, except_FileExistsError.
  destruct (makedirs_rec fuel h' w) as [r1 w1] eqn:E3.
  pose proof (IH _ _ _ _ Lh E3) as Hr1.
  destruct r1 as [[]|e].
  - destruct (t' =? "."); [unfold ret; intros H; inversion H; discriminate | apply Hmk].
  - destruct e as [[]| | | | |]; try (intros H; inversion H; subst; assumption);
      try (intros H; inversion H; discriminate).
    destruct (t' =? "."); [unfold ret; intros H; inversion H; discriminate | apply Hmk].
Qed.

Lemma os_makedirs_never_runs_out p w r w' :
  os_makedirs p w = (r, w') -> r <> Raise RecursionError.
Proof. apply makedirs_rec_fuel. lia. Qed.

(** * The claims *)

Section Claims.

Variable resource_string : string -> string -> list byte.
Variable exec : command -> loc -> gmap loc node -> option process.
Variable decode : list byte -> option string.

Local Abbreviation build := (Builder.build_environment resource_string exec decode).
Local Abbreviation outcome := (build_outcome resource_string exec decode).
Local Abbreviation manifest := (manifest resource_string).
Local Abbreviation fingerprint := (fingerprint resource_string).
Local Abbreviation env_dir := (env_dir resource_string).
Local Abbreviation marker_path := (marker_path resource_string).
Local Abbreviation create_cmd := (create_cmd resource_string).
Local Abbreviation built := (built resource_string).
Local Abbreviation preserves := (exec_preserves exec).

Lemma env_dir_join d : env_dir d = join2 (join2 d ".conda-env") fingerprint.
Proof. reflexivity. Qed.

Lemma marker_path_join d : marker_path d = join2 (env_dir d) ".success".
Proof. reflexivity. Qed.

Lemma requirements_path_join d : requirements_path d = join2 d "requirements.txt".
Proof. reflexivity. Qed.

Lemma os_makedirs_env_exists d w :
  os_path_exists w (env_dir d) = true ->
  os_makedirs (env_dir d) w = (Raise FileExistsError, w).
Proof.
  intros H. unfold os_makedirs. rewrite env_dir_join in *.
  now apply makedirs_rec_exists; [apply (fingerprint_is_name resource_string) |].
Qed.

Lemma os_makedirs_env_ok d w w' :
  os_makedirs (env_dir d) w = (Ok tt, w') ->
  os_path_exists w' (env_dir d) = true.
Proof.
  unfold os_makedirs. rewrite env_dir_join. intros H.
  apply makedirs_rec_ok in H as (cur & Hd & Hf); [| apply (fingerprint_is_name resource_string)].
  now apply (os_path_exists_join2 _ _ _ cur Dir); [apply (fingerprint_is_name resource_string) | |].
Qed.

(** A successful spawn adds one event and replaces the file system by
    what the command left. *)
Lemma Popen_grows d w p w' :
  preserves ->
  Builder.Popen exec create_cmd d w = (Ok p, w') ->
  spawn_count (events w') = S (spawn_count (events w)) /\
  cwd w' = cwd w /\ fs w ⊆ fs w'.
Proof.
  intros Hp H. apply Popen_ok in H as (dir & _ & He & ->). simpl.
  rewrite spawn_count_app. simpl. repeat split; [lia |].
  exact (Hp _ _ _ _ He).
Qed.

(** What the paths through [build_environment] that started the
    command have in common. *)
Lemma spawned_run d w1 w2 p w3 r4 w4 :
  preserves ->
  os_makedirs (env_dir d) w1 = (Ok tt, w2) ->
  Builder.Popen exec create_cmd d w2 = (Ok p, w3) ->
  Builder.print_stdout decode (stdout p) w3 = (r4, w4) ->
  spawn_count (events w4) = S (spawn_count (events w1)) /\
  cwd w4 = cwd w1 /\ fs w1 ⊆ fs w4 /\
  os_path_exists w4 (env_dir d) = true.
Proof.
  intros Hp Hm Ho Hs.
  pose proof (os_makedirs_env_ok _ _ _ Hm) as Hex.
  apply os_makedirs_frame in Hm as (He2 & [Hc2 _] & Hs2).
  apply (Popen_grows _ _ _ _ Hp) in Ho as (He3 & Hc3 & Hs3).
  apply print_stdout_frame in Hs as (Hf4 & Hc4 & He4).
  assert (Hsub : fs w2 ⊆ fs w4) by now rewrite Hf4.
  repeat split.
  - congruence.
  - congruence.
  - now transitivity (fs w2).
  - apply (os_path_exists_grows w2); [| assumption].
    apply grows_subseteq; [congruence | assumption].
Qed.

Lemma outcome_spawn_cases d w r w' :
  preserves -> outcome d w r w' ->
  spawn_count (events w') = spawn_count (events w) \/
  (spawn_count (events w') = S (spawn_count (events w)) /\
   os_path_exists w' (env_dir d) = true).
Proof.
  intros Hp H. destruct H as
    [ e w1 H1 | w1 H1 H2 | w1 e w2 H1 H2 H3 | w1 w2 e w3 H1 H2 H3 H4
    | w1 w2 p w3 e w4 H1 H2 H3 H4 H5 | w1 w2 p w3 w4 H1 H2 H3 H4 H5 H6
    | w1 w2 p w3 w4 e w5 H1 H2 H3 H4 H5 H6 H7 | w1 w2 p w3 w4 w5 H1 H2 H3 H4 H5 H6 H7 ];
    apply write_file_frame in H1 as [He1 _].
  - left. congruence.
  - left. simpl. rewrite spawn_count_app, He1. simpl. lia.
  - left. apply os_makedirs_frame in H3 as (He2 & _). rewrite He2. simpl.
    rewrite spawn_count_app, He1. simpl. lia.
  - left. apply os_makedirs_frame in H3 as (He2 & _). apply Popen_raise in H4 as ->.
    rewrite He2. simpl. rewrite spawn_count_app, He1. simpl. lia.
  - right. destruct (spawned_run _ _ _ _ _ _ _ Hp H3 H4 H5) as (Hn & _ & _ & Hex).
    split; [| assumption]. rewrite Hn. simpl. rewrite spawn_count_app, He1. simpl. lia.
  - right. destruct (spawned_run _ _ _ _ _ _ _ Hp H3 H4 H5) as (Hn & _ & _ & Hex).
    split; [| exact Hex]. simpl. rewrite !spawn_count_app, Hn. simpl.
    rewrite spawn_count_app, He1. simpl. lia.
  - right. destruct (spawned_run _ _ _ _ _ _ _ Hp H3 H4 H5) as (Hn & _ & _ & Hex).
    rewrite marker_path_join in H7. apply write_file_raise in H7 as ->; [| reflexivity].
    split; [| exact Hex]. simpl. rewrite !spawn_count_app, Hn. simpl.
    rewrite spawn_count_app, He1. simpl. lia.
  - right. destruct (spawned_run _ _ _ _ _ _ _ Hp H3 H4 H5) as (Hn & _ & _ & Hex).
    apply write_file_frame in H7 as [He7 Hg7]. split.
    + rewrite He7. simpl. rewrite !spawn_count_app, Hn. simpl.
      rewrite spawn_count_app, He1. simpl. lia.
    + apply (os_path_exists_grows (add_event w4 (log_built resource_string d)));
        [assumption | exact Hex].
Qed.

(** Once the environment directory exists, no run starts the command. *)
Lemma outcome_no_spawn d w r w' :
  os_path_exists w (env_dir d) = true -> outcome d w r w' ->
  spawn_count (events w') = spawn_count (events w).
Proof.
  intros Hex H.
  assert (Hno : forall w1 w2,
             write_file (requirements_path d) manifest w = (Ok tt, w1) ->
             os_makedirs (env_dir d) (add_event w1 (log_building resource_string w1 d))
               = (Ok tt, w2) -> False).
  { intros w1 w2 H1 H3. apply write_file_frame in H1 as [_ Hg].
    rewrite os_makedirs_env_exists in H3; [discriminate |].
    apply (os_path_exists_grows w); [| assumption].
    apply (grows_trans _ w1); [assumption | apply grows_add_event]. }
  destruct H as
    [ e w1 H1 | w1 H1 H2 | w1 e w2 H1 H2 H3 | w1 w2 e w3 H1 H2 H3 H4
    | w1 w2 p w3 e w4 H1 H2 H3 H4 H5 | w1 w2 p w3 w4 H1 H2 H3 H4 H5 H6
    | w1 w2 p w3 w4 e w5 H1 H2 H3 H4 H5 H6 H7 | w1 w2 p w3 w4 w5 H1 H2 H3 H4 H5 H6 H7 ];
    try (exfalso; now apply (Hno w1 w2)).
  - apply write_file_frame in H1 as [He1 _]. congruence.
  - apply write_file_frame in H1 as [He1 _]. simpl.
    rewrite spawn_count_app, He1. simpl. lia.
  - apply write_file_frame in H1 as [He1 _].
    apply os_makedirs_frame in H3 as (He2 & _). rewrite He2. simpl.
    rewrite spawn_count_app, He1. simpl. lia.
Qed.

(** A run that returns normally leaves the copy of the manifest and the
    marker behind. *)
Lemma outcome_ok d w s w' :
  preserves -> outcome d w (Ok s) w' ->
  s = built d /\
  has_copy w' d "requirements.txt" manifest /\
  os_path_exists w' (marker_path d) = true.
Proof.
  intros Hp H. inversion H as
    [ | w1 H1 H2 | | | | | | w1 w2 p w3 w4 w5 H1 H2 H3 H4 H5 H6 H7 ]; subst.
  - split; [reflexivity |]. split; [| exact H2].
    exact (has_copy_written w d "requirements.txt" manifest w1 eq_refl H1).
  - split; [reflexivity |].
    pose proof (has_copy_written w d "requirements.txt" manifest w1 eq_refl H1) as Hc1.
    destruct (spawned_run _ _ _ _ _ _ _ Hp H3 H4 H5) as (_ & Hc4 & Hs4 & _).
    assert (Hc4' : has_copy (add_event w4 (log_built resource_string d)) d
                     "requirements.txt" manifest).
    { apply (has_copy_subseteq w1); assumption. }
    split.
    + rewrite marker_path_join in H7.
      refine (has_copy_other_write _ d "requirements.txt" manifest (env_dir d)
                ".success" [] w' eq_refl _ H7 Hc4'). discriminate.
    + rewrite marker_path_join in *.
      destruct (has_copy_written _ (env_dir d) ".success" [] w' eq_refl H7)
        as (cur & Hd & Hf).
      now apply (os_path_exists_join2 _ _ _ cur (File [])).
Qed.

(** C1. Ensuring the environment twice in a row, against the same target
    directory and with the same bundled manifest, starts the creation
    command at most once.  When the first call returns, it has recorded
    the fingerprint-derived environment path and left the [.success]
    marker there; the second call then finds the marker, logs that it
    uses the existing environment, changes nothing in the file system and
    records the same path. *)
Theorem build_environment_twice self self' w r1 w1 r2 w2 :
  preserves ->
  Builder.data_dir self' = Builder.data_dir self ->
  build self w = (r1, w1) ->
  build self' w1 = (r2, w2) ->
  let d := Builder.data_dir self in
  (spawn_count (events w2) <= spawn_count (events w) + 1)%nat /\
  (forall s1, r1 = Ok s1 ->
     Builder.env_path s1 = Some (env_dir d) /\
     os_path_exists w1 (marker_path d) = true /\
     r2 = Ok s1 /\
     fs w2 = fs w1 /\
     events w2 = events w1 ++ [log_reuse resource_string w1 d] /\
     spawn_count (events w2) = spawn_count (events w1)).
Proof.
  intros Hp Hd H1 H2 d.
  pose proof (proj1 (build_environment_outcome _ _ _ _ _ _ _) H1) as O1.
  pose proof (proj1 (build_environment_outcome _ _ _ _ _ _ _) H2) as O2.
  rewrite Hd in O2. fold d in O1, O2. split.
  - destruct (outcome_spawn_cases _ _ _ _ Hp O1) as [E1 | [E1 Hex]].
    + destruct (outcome_spawn_cases _ _ _ _ Hp O2) as [E2 | [E2 _]]; lia.
    + rewrite (outcome_no_spawn _ _ _ _ Hex O2). lia.
  - intros s1 ->. destruct (outcome_ok _ _ _ _ Hp O1) as (-> & Hc & Hm).
    assert (E : build self' w1 = (Ok (built d), add_event w1 (log_reuse resource_string w1 d))).
    { apply build_environment_outcome. rewrite Hd. fold d.
      apply reused; [| exact Hm]. now apply has_copy_again. }
    rewrite E in H2. inversion H2; subst. simpl.
    repeat split; try reflexivity; try assumption.
    rewrite spawn_count_app. simpl. lia.
Qed.

(** C3. The environment path [build_environment] records is the target
    directory joined with [.conda-env] and the first 6 characters of the
    MD5 hex digest of the manifest: the target directory, a separator
    unless it is empty or already ends with one, [.conda-env/], and
    exactly 6 hexadecimal characters. *)
Theorem recorded_env_path self w s w' :
  build self w = (Ok s, w') ->
  let d := Builder.data_dir self in
  let digest := md5_hexdigest (md5_update md5 manifest) in
  Builder.env_path s = Some (os_path_join d [".conda-env"; str_take 6 digest]) /\
  os_path_join d [".conda-env"; str_take 6 digest] =
    (if (d =? "") || endswith_sep d then d else d +:+ "/")
      +:+ ".conda-env/" +:+ str_take 6 digest /\
  digest = MD5.hexdigest manifest /\
  String.length (str_take 6 digest) = 6%nat /\
  all_hex (str_take 6 digest) = true.
Proof.
  intros H d digest. apply build_environment_outcome in H.
  assert (Hs : s = built d) by (inversion H; reflexivity).
  subst s. subst digest.
  change (md5_hexdigest (md5_update md5 manifest)) with (MD5.hexdigest manifest).
  split; [reflexivity |]. split.
  - rewrite os_path_join_2.
    rewrite (join2_name (join2 d ".conda-env") _ (fingerprint_name manifest)).
    rewrite (join2_eqb_empty d ".conda-env" eq_refl), (endswith_join2 d ".conda-env" eq_refl).
    simpl. rewrite (join2_name d ".conda-env" eq_refl).
    destruct ((d =? "") || endswith_sep d); now rewrite !append_assoc.
  - split; [reflexivity |]. split; [apply fingerprint_length | apply fingerprint_hex].
Qed.

Lemma print_stdout_ok lines w :
  Forall (fun line => is_Some (decode (removelast line))) lines ->
  exists w', Builder.print_stdout decode lines w = (Ok tt, w') /\
             fs w' = fs w /\ cwd w' = cwd w /\
             spawn_count (events w') = spawn_count (events w) /\
             exists prints, events w' = events w ++ prints.
Proof.
  intros H. revert w. induction H as [|i rest [s Hs] _ IH]; intros w; simpl.
  - exists w. repeat split; try reflexivity. exists []. now rewrite app_nil_r.
  - rewrite Hs. unfold bind, print. rewrite emit_spec.
    destruct (IH (add_event w (EvPrint s))) as (w' & -> & Hf & Hc & Hn & prints & He).
    exists w'. repeat split; try assumption.
    + rewrite Hn. simpl. rewrite spawn_count_app. simpl. lia.
    + exists (EvPrint s :: prints). rewrite He. simpl. now rewrite <- app_assoc.
Qed.

(** C2. When the creation command exits with a non-zero status,
    [build_environment] raises [CalledProcessError] with that status and
    the command it tried.  It does nothing after the command: the file
    system is as the command left it, so no [.success] marker is written
    and nothing is cleaned up or retried; with a command that only adds
    files, the target directory and the environment directory made for
    it are still there. *)
Theorem failed_creation self w cur p :
  let d := Builder.data_dir self in
  let env := fingerprint :: ".conda-env" :: cur in
  let m := <[env := Dir]>
             (<[".conda-env" :: cur := Dir]>
                (<["requirements.txt" :: cur := File manifest]> (fs w))) in
  os_stat w d = inr (cur, Dir) ->
  fs w !! ("requirements.txt" :: cur) <> Some Dir ->
  fs w !! (".conda-env" :: cur) = None \/ fs w !! (".conda-env" :: cur) = Some Dir ->
  fs w !! env = None ->
  exec create_cmd cur m = Some p ->
  decodable decode p ->
  returncode p <> 0%Z ->
  exists w',
    build self w = (Raise (CalledProcessError (returncode p) create_cmd), w') /\
    fs w' = fs_after p /\
    spawn_count (events w') = S (spawn_count (events w)) /\
    List.last (events w') (EvPrint "") = log_failed resource_string /\
    (preserves -> os_stat w' d = inr (cur, Dir) /\ fs w' !! env = Some Dir).
Proof.
  intros d env m Hd Hreq Hce Henv Hexec Hdec Hrc.
  pose proof (os_stat_dirloc _ _ _ Hd) as Hdl.
  set (w1 := with_fs w (<["requirements.txt" :: cur := File manifest]> (fs w))).
  assert (H1 : write_file (requirements_path d) manifest w = (Ok tt, w1)).
  { rewrite requirements_path_join.
    rewrite (write_file_join2 w d "requirements.txt" manifest eq_refl), Hdl, set_fs_spec.
    destruct (fs w !! ("requirements.txt" :: cur)) as [[]|]; try reflexivity.
    now contradiction Hreq. }
  assert (Hne : forall (b c : string) (rest : loc), b <> c -> b :: rest <> c :: rest)
    by congruence.
  assert (Hlen : forall (a b c : string) (l : loc), a :: l <> b :: c :: l).
  { intros a b c l H. apply (f_equal length) in H. simpl in H. lia. }
  assert (Hg1 : grows w w1).
  { apply write_file_frame in H1. tauto. }
  assert (Hd1 : os_stat (add_event w1 (log_building resource_string w1 d)) d = inr (cur, Dir)).
  { apply dirloc_exists; [intros E; rewrite E in Hd; discriminate Hd |].
    now apply (dirloc_grows w). }
  assert (Hce1 : fs w1 !! (".conda-env" :: cur) = None \/
                 fs w1 !! (".conda-env" :: cur) = Some Dir).
  { simpl. rewrite lookup_insert_ne by (apply Hne; discriminate). exact Hce. }
  assert (Henv1 : fs w1 !! env = None).
  { simpl. rewrite lookup_insert_ne; [exact Henv | apply Hlen]. }
  assert (H2 : os_path_exists w1 (marker_path d) = false).
  { unfold os_path_exists.
    rewrite marker_path_join, (os_stat_join2 w1 (env_dir d) ".success" eq_refl), env_dir_join.
    rewrite (dirloc_join2 _ _ _ (fingerprint_is_name resource_string)).
    rewrite (dirloc_join2 w1 d ".conda-env" eq_refl).
    rewrite (dirloc_grows _ _ _ _ Hg1 Hdl).
    destruct Hce1 as [-> | ->]; [reflexivity |].
    unfold env in Henv1. now rewrite Henv1. }
  pose proof (os_makedirs_fresh _ d ".conda-env" fingerprint cur eq_refl
                (fingerprint_is_name resource_string) Hd1 Hce1 Henv1) as H3.
  rewrite <- env_dir_join in H3. fold env in H3.
  set (w2 := with_fs (add_event w1 (log_building resource_string w1 d)) m) in *.
  assert (Hg2 : fs w1 ⊆ fs w2).
  { apply os_makedirs_frame in H3. tauto. }
  assert (Hd2 : os_stat w2 d = inr (cur, Dir)).
  { apply (os_stat_weaken (add_event w1 (log_building resource_string w1 d)));
      [reflexivity | exact Hg2 | exact Hd1]. }
  set (w3 := with_fs (add_event w2 (EvSpawn create_cmd d)) (fs_after p)).
  assert (H4 : Builder.Popen exec create_cmd d w2 = (Ok p, w3)).
  { unfold Builder.Popen. rewrite Hd2. change (fs w2) with m. now rewrite Hexec. }
  destruct (print_stdout_ok (stdout p) w3 Hdec) as (w4 & H5 & Hf4 & Hc4 & Hn4 & _).
  exists (add_event w4 (log_failed resource_string)).
  split; [| split; [| split; [| split]]].
  - apply build_environment_outcome. fold d.
    now apply (command_failed _ _ _ _ _ w1 w2 p w3 w4).
  - simpl. now rewrite Hf4.
  - simpl. rewrite spawn_count_app, Hn4. simpl. rewrite !spawn_count_app. simpl. lia.
  - simpl. apply last_last.
  - intros Hp. pose proof (Hp _ _ _ _ Hexec) as Hsub.
    assert (Hsub4 : m ⊆ fs (add_event w4 (log_failed resource_string))).
    { simpl. now rewrite Hf4. }
    split.
    + apply (os_stat_weaken w2); [simpl; now rewrite Hc4 | exact Hsub4 | exact Hd2].
    + simpl. rewrite Hf4. apply (lookup_weaken m); [apply lookup_insert_eq | exact Hsub].
Qed.

(** C5. Making the environment directory is not idempotent.  When it
    already exists but holds no [.success] marker, as after a failed
    build, calling [build_environment] again copies the manifest, logs
    that it builds the environment, and fails in [os.makedirs] with
    [FileExistsError]; the command is not started. *)
Theorem existing_env_without_marker self w env w1 :
  let d := Builder.data_dir self in
  dirloc w (env_dir d) = inr env ->
  fs w !! (".success" :: env) = None ->
  write_file (requirements_path d) manifest w = (Ok tt, w1) ->
  build self w =
    (Raise FileExistsError, add_event w1 (log_building resource_string w1 d)) /\
  spawn_count (events (add_event w1 (log_building resource_string w1 d)))
    = spawn_count (events w) /\
  os_makedirs (env_dir d) w1 = (Raise FileExistsError, w1).
Proof.
  intros d Henv Hmk H1.
  pose proof (write_file_frame _ _ _ _ _ H1) as [He1 Hg1].
  pose proof (dirloc_grows _ _ _ _ Hg1 Henv) as Henv1.
  assert (Hex : os_path_exists w1 (env_dir d) = true).
  { unfold os_path_exists.
    assert (Hn : env_dir d <> "")
      by (rewrite env_dir_join; apply join2_nonempty, fingerprint_is_name).
    now rewrite (dirloc_exists _ _ _ Hn Henv1). }
  assert (Hmk1 : fs w1 !! (".success" :: env) = None).
  { rewrite requirements_path_join in H1.
    apply (write_file_ok w d "requirements.txt" manifest w1 eq_refl) in H1
      as (cur & _ & _ & ->).
    simpl. rewrite lookup_insert_ne; [exact Hmk | congruence]. }
  split; [| split].
  - apply build_environment_outcome. fold d.
    apply (makedirs_failed _ _ _ _ _ w1); [exact H1 | |].
    + unfold os_path_exists.
      rewrite marker_path_join, (os_stat_join2 w1 (env_dir d) ".success" eq_refl).
      now rewrite Henv1, Hmk1.
    + now apply os_makedirs_env_exists.
  - simpl. rewrite spawn_count_app, He1. simpl. lia.
  - now apply os_makedirs_env_exists.
Qed.

(** C8. [build_environment] first copies the bundled manifest into the
    target directory as [requirements.txt], and the fingerprint it then
    uses is computed over the same bytes.  If the copy fails, nothing
    else happens.  Otherwise the copy holds exactly the bytes that were
    hashed, from the moment it is written to the end of the call
    (the command only adding files), and the environment path that is
    recorded carries the digest of those bytes. *)
Theorem copy_then_fingerprint self w r w' :
  preserves ->
  build self w = (r, w') ->
  let d := Builder.data_dir self in
  (exists e,
      write_file (os_path_join d ["requirements.txt"]) manifest w = (Raise e, w) /\
      r = Raise e /\ w' = w) \/
  (exists w1,
      write_file (os_path_join d ["requirements.txt"]) manifest w = (Ok tt, w1) /\
      has_copy w1 d "requirements.txt" manifest /\
      has_copy w' d "requirements.txt" manifest /\
      forall s, r = Ok s ->
        Builder.env_path s =
          Some (os_path_join d
                  [".conda-env"; str_take 6 (md5_hexdigest (md5_update md5 manifest))])).
Proof.
  intros Hp H d. apply build_environment_outcome in H. fold d in H.
  change (os_path_join d ["requirements.txt"]) with (requirements_path d).
  assert (Hs : forall s, r = Ok s -> Builder.env_path s = Some (env_dir d)).
  { intros s ->. inversion H; reflexivity. }
  destruct H as
    [ e w1 H1 | w1 H1 H2 | w1 e w2 H1 H2 H3 | w1 w2 e w3 H1 H2 H3 H4
    | w1 w2 p w3 e w4 H1 H2 H3 H4 H5 | w1 w2 p w3 w4 H1 H2 H3 H4 H5 H6
    | w1 w2 p w3 w4 e w5 H1 H2 H3 H4 H5 H6 H7 | w1 w2 p w3 w4 w5 H1 H2 H3 H4 H5 H6 H7 ].
  { left. exists e.
    pose proof (write_file_raise w d "requirements.txt" manifest e w1 eq_refl H1) as ->.
    now repeat split. }
  all: right; exists w1;
    pose proof (has_copy_written w d "requirements.txt" manifest w1 eq_refl H1) as Hc1;
    split; [exact H1 |]; split; [exact Hc1 |]; split; [| exact Hs].
  - exact Hc1.
  - apply os_makedirs_frame in H3 as (_ & [Hc _] & Hsub).
    now apply (has_copy_subseteq (add_event w1 (log_building resource_string w1 d))).
  - apply Popen_raise in H4 as ->.
    apply os_makedirs_frame in H3 as (_ & [Hc _] & Hsub).
    now apply (has_copy_subseteq (add_event w1 (log_building resource_string w1 d))).
  - destruct (spawned_run _ _ _ _ _ _ _ Hp H3 H4 H5) as (_ & Hc & Hsub & _).
    now apply (has_copy_subseteq (add_event w1 (log_building resource_string w1 d))).
  - destruct (spawned_run _ _ _ _ _ _ _ Hp H3 H4 H5) as (_ & Hc & Hsub & _).
    now apply (has_copy_subseteq (add_event w1 (log_building resource_string w1 d))).
  - destruct (spawned_run _ _ _ _ _ _ _ Hp H3 H4 H5) as (_ & Hc & Hsub & _).
    rewrite marker_path_join in H7.
    apply (write_file_raise _ (env_dir d) ".success" [] e w5 eq_refl) in H7 as ->.
    now apply (has_copy_subseteq (add_event w1 (log_building resource_string w1 d))).
  - destruct (spawned_run _ _ _ _ _ _ _ Hp H3 H4 H5) as (_ & Hc & Hsub & _).
    rewrite marker_path_join in H7.
    refine (has_copy_other_write _ d "requirements.txt" manifest (env_dir d)
              ".success" [] w5 eq_refl _ H7 _); [discriminate |].
    now apply (has_copy_subseteq (add_event w1 (log_building resource_string w1 d))).
Qed.

(** ** run_snakefile *)

Local Abbreviation run := (Builder.run_snakefile exec decode).

Lemma run_snakefile_unfold self args w :
  let d := Builder.data_dir self in
  run self args w =
  match os_path_relpath (Builder.env_path self) d (add_event w (log_running d)) with
  | (Raise e, w1) => (Raise e, w1)
  | (Ok rel, w1) =>
      let cmd := ShellLine ("source activate " +:+ rel +:+ "; snakemake "
                              +:+ space_join args) in
      match Builder.Popen exec cmd d w1 with
      | (Raise e, w2) => (Raise e, w2)
      | (Ok p, w2) =>
          match Builder.print_stdout decode (stdout p) w2 with
          | (Raise e, w3) => (Raise e, w3)
          | (Ok _, w3) =>
              if (returncode p =? 0)%Z then (Ok tt, w3)
              else (Raise (CalledProcessError (returncode p) cmd),
                    add_event w3 (EvLog ERROR "CMDS: %s" (ArgCmd cmd)))
          end
      end
  end.
Proof.
  intros d. unfold Builder.run_snakefile, bind, logger_info, logger_error.
  rewrite emit_spec. fold d. change (add_event w _) with (add_event w (log_running d)).
  destruct (os_path_relpath _ d _) as [[rel|e] w1]; [| reflexivity].
  cbv zeta.
  destruct (Builder.Popen exec _ d w1) as [[p|e] w2]; [| reflexivity].
  destruct (Builder.print_stdout decode (stdout p) w2) as [[[]|e] w3]; [| reflexivity].
  destruct (returncode p =? 0)%Z; cbv beta iota delta [negb]; [reflexivity |].
  rewrite emit_spec. reflexivity.
Qed.

Lemma print_stdout_events lines w r w' :
  Builder.print_stdout decode lines w = (r, w') ->
  exists prints, events w' = events w ++ prints.
Proof.
  revert w. induction lines as [|i rest IH]; intros w; simpl.
  - unfold ret. intros H. inversion H; subst. exists []. now rewrite app_nil_r.
  - destruct (decode (removelast i)) as [s|].
    + unfold bind, print. rewrite emit_spec. intros H.
      apply IH in H as (prints & ->). exists (EvPrint s :: prints).
      simpl. now rewrite <- app_assoc.
    + unfold raise. intros H. inversion H; subst. exists []. now rewrite app_nil_r.
Qed.

(** The command line [run_snakefile] hands to the shell, for a builder
    whose environment is [.conda-env/h] under its target directory. *)
Lemma run_snakefile_spawns self args w h cur p :
  let d := Builder.data_dir self in
  let line := "source activate .conda-env/" +:+ h +:+ "; snakemake " +:+ space_join args in
  Builder.env_path self = Some (os_path_join d [".conda-env"; h]) ->
  is_name h = true ->
  os_stat w d = inr (cur, Dir) ->
  exec (ShellLine line) cur (fs w) = Some p ->
  exists r w' rest,
    run self args w = (r, w') /\
    events w' = events w ++ log_running d :: EvSpawn (ShellLine line) d :: rest /\
    spawn_count (events w') = S (spawn_count (events w)).
Proof.
  intros d line Henv Hh Hd Hexec.
  rewrite run_snakefile_unfold. fold d. rewrite Henv.
  rewrite (os_path_relpath_env _ d ".conda-env" h eq_refl Hh).
  cbv zeta.
  change ("source activate " +:+ (".conda-env" +:+ "/" +:+ h) +:+ "; snakemake "
            +:+ space_join args) with line.
  set (w1 := add_event w (log_running d)).
  assert (Hpo : Builder.Popen exec (ShellLine line) d w1
                = (Ok p, with_fs (add_event w1 (EvSpawn (ShellLine line) d)) (fs_after p))).
  { unfold Builder.Popen. change (os_stat w1 d) with (os_stat w d). rewrite Hd.
    change (fs w1) with (fs w). now rewrite Hexec. }
  rewrite Hpo.
  destruct (Builder.print_stdout decode (stdout p) _) as [r3 w3] eqn:E3.
  pose proof (print_stdout_events _ _ _ _ E3) as (prints & Hev).
  pose proof (print_stdout_frame _ _ _ _ _ E3) as (_ & _ & Hn).
  simpl in Hev, Hn. rewrite !spawn_count_app in Hn. simpl in Hn.
  destruct r3 as [[]|e].
  - destruct (returncode p =? 0)%Z.
    + exists (Ok tt), w3, prints. split; [reflexivity |]. split; [| lia].
      rewrite Hev, <- !app_assoc. reflexivity.
    + eexists _, _, (prints ++ [_]). split; [reflexivity |]. simpl. split.
      * rewrite Hev, <- !app_assoc. reflexivity.
      * rewrite spawn_count_app, Hn. simpl. lia.
  - exists (Raise e), w3, prints. split; [reflexivity |]. split; [| lia].
    rewrite Hev, <- !app_assoc. reflexivity.
Qed.

(** C4. For every sequence of passthrough tokens, [run_snakefile] starts
    one shell command: it activates the environment by its path relative
    to the target directory, [.conda-env/] followed by the fingerprint,
    and then runs snakemake with the tokens joined by single spaces; the
    tokens [-n] and [-j4] give the suffix [-n -j4]. *)
Theorem passthrough_arguments self args w cur p :
  let d := Builder.data_dir self in
  let line := "source activate .conda-env/" +:+ fingerprint +:+ "; snakemake "
                +:+ String.concat " " args in
  Builder.env_path self = Some (env_dir d) ->
  os_stat w d = inr (cur, Dir) ->
  exec (ShellLine line) cur (fs w) = Some p ->
  (exists r w' rest,
      run self (PyList args) w = (r, w') /\
      events w' = events w ++ log_running d :: EvSpawn (ShellLine line) d :: rest /\
      spawn_count (events w') = S (spawn_count (events w))) /\
  (args = ["-n"; "-j4"] ->
   line = "source activate .conda-env/" +:+ fingerprint +:+ "; snakemake -n -j4").
Proof.
  intros d line Henv Hd Hexec. split.
  - exact (run_snakefile_spawns self (PyList args) w fingerprint cur p Henv
             (fingerprint_is_name resource_string) Hd Hexec).
  - intros ->. reflexivity.
Qed.

(** C9. Given a plain string instead of a sequence of tokens, the join
    runs over the characters of the string: the suffix of the command is
    the string with a space between every two characters, [- j 4] for
    [-j4]; a list of whole tokens gives the documented suffix. *)
Theorem string_arguments self s w cur p :
  let d := Builder.data_dir self in
  let line := "source activate .conda-env/" +:+ fingerprint +:+ "; snakemake "
                +:+ spaced s in
  Builder.env_path self = Some (env_dir d) ->
  os_stat w d = inr (cur, Dir) ->
  exec (ShellLine line) cur (fs w) = Some p ->
  space_join (PyStr s) = spaced s /\
  (exists r w' rest,
      run self (PyStr s) w = (r, w') /\
      events w' = events w ++ log_running d :: EvSpawn (ShellLine line) d :: rest) /\
  space_join (PyStr "-j4") = "- j 4" /\
  space_join (PyStr "-j4 -T") = "- j 4   - T" /\
  space_join (PyList ["-j4"; "-T"]) = "-j4 -T".
Proof.
  intros d line Henv Hd Hexec.
  assert (Hsp : forall x, space_join (PyStr x) = spaced x).
  { clear. unfold space_join. simpl. intros x.
    induction x as [|c x IH]; [reflexivity |].
    destruct x as [|c' x]; [reflexivity |].
    change (chars (String c (String c' x)))
      with (String c "" :: chars (String c' x)).
    simpl chars in *. rewrite concat_cons2, IH. reflexivity. }
  split; [apply Hsp |]. split; [| repeat split; reflexivity].
  unfold line in *. rewrite <- Hsp in *.
  destruct (run_snakefile_spawns self (PyStr s) w fingerprint cur p Henv
              (fingerprint_is_name resource_string) Hd Hexec) as (r & w' & rest & H1 & H2 & _).
  now exists r, w', rest.
Qed.

Lemma Popen_raises cmd d w e w' :
  Builder.Popen exec cmd d w = (Raise e, w') -> exists n, e = OSError n.
Proof.
  unfold Builder.Popen, raise.
  destruct (os_stat w d) as [n|[dir []]].
  - intros H. inversion H. now exists n.
  - destruct (exec cmd dir (fs w)) as [p|].
    + unfold bind. rewrite emit_spec, set_fs_spec. discriminate.
    + intros H. inversion H. now exists ENOENT.
  - intros H. inversion H. now exists ENOTDIR.
Qed.

Lemma print_stdout_raises lines w e w' :
  Builder.print_stdout decode lines w = (Raise e, w') -> e = UnicodeDecodeError.
Proof.
  revert w. induction lines as [|i rest IH]; intros w; simpl; [discriminate |].
  destruct (decode (removelast i)) as [s|].
  - unfold bind, print. rewrite emit_spec. apply IH.
  - unfold raise. intros H. now inversion H.
Qed.

(** C10, as the program has it.  A [Builder] is constructed with no
    environment path.  Calling [run_snakefile] on it fails in
    [os.path.relpath], before any command is started, with the
    [ValueError] that function raises for a path that is [None]: not a
    process-execution error, and not a type error.  After
    [build_environment] has returned, the path is set and
    [run_snakefile] cannot fail that way. *)
Theorem run_before_build :
  (forall d w s w', Builder.__init__ d w = (Ok s, w') -> Builder.env_path s = None) /\
  (forall self args w,
      Builder.env_path self = None ->
      run self args w =
        (Raise (ValueError "no path specified"),
         add_event w (log_running (Builder.data_dir self))) /\
      spawn_count (events (snd (run self args w))) = spawn_count (events w)) /\
  (forall self w s w',
      build self w = (Ok s, w') ->
      Builder.env_path s <> None /\
      forall args w2 r w3,
        run s args w2 = (r, w3) ->
        forall msg, r <> Raise (ValueError msg) /\ r <> Raise (TypeError msg)).
Proof.
  split; [| split].
  - intros d w s w'. unfold Builder.__init__.
    destruct (negb (os_path_exists w d)).
    + unfold bind, logger_info, ret. rewrite emit_spec.
      destruct (os_makedirs d _) as [[[]|e] w1]; intros H; inversion H; reflexivity.
    + unfold ret. intros H. inversion H. reflexivity.
  - intros self args w Hnone.
    assert (E : run self args w =
                (Raise (ValueError "no path specified"),
                 add_event w (log_running (Builder.data_dir self)))).
    { rewrite run_snakefile_unfold. cbv zeta. now rewrite Hnone. }
    split; [exact E |]. rewrite E. simpl. rewrite spawn_count_app. simpl. lia.
  - intros self w s w' H. apply build_environment_outcome in H.
    assert (Hs : s = built (Builder.data_dir self)) by (inversion H; reflexivity).
    subst s. split; [discriminate |].
    intros args w2 r w3. rewrite run_snakefile_unfold. cbv zeta. simpl Builder.env_path.
    simpl Builder.data_dir. unfold env_dir.
    rewrite (os_path_relpath_env _ _ ".conda-env" fingerprint eq_refl
               (fingerprint_is_name resource_string)).
    destruct (Builder.Popen exec _ _ _) as [[p|e] w4] eqn:E4.
    + destruct (Builder.print_stdout decode (stdout p) w4) as [[[]|e] w5] eqn:E5.
      * destruct (returncode p =? 0)%Z; intros H' msg; inversion H'; split; discriminate.
      * apply print_stdout_raises in E5 as ->.
        intros H' msg; inversion H'; split; discriminate.
    + apply Popen_raises in E4 as [n ->].
      intros H' msg; inversion H'; split; discriminate.
Qed.

End Claims.

Section TwoManifests.

Variables rs rs' : string -> string -> list byte.
Variable exec : command -> loc -> gmap loc node -> option process.
Variable decode : list byte -> option string.

(** C6, as the program has it.  The environment directory depends on the
    manifest only through the first 6 characters of its MD5 hex digest:
    two manifests are given the same environment directory under a
    target directory exactly when these 6 characters agree, and the
    paths two successful builds record are equal exactly then. *)
Theorem environment_follows_fingerprint self w s w' self' v s' v' :
  Builder.data_dir self' = Builder.data_dir self ->
  Builder.build_environment rs exec decode self w = (Ok s, w') ->
  Builder.build_environment rs' exec decode self' v = (Ok s', v') ->
  (Builder.env_path s = Builder.env_path s' <->
   str_take 6 (MD5.hexdigest (manifest rs)) = str_take 6 (MD5.hexdigest (manifest rs'))) /\
  (env_dir rs (Builder.data_dir self) = env_dir rs' (Builder.data_dir self) <->
   fingerprint rs = fingerprint rs').
Proof.
  intros Hd H H'. apply build_environment_outcome in H, H'. rewrite Hd in H'.
  assert (Hs : s = built rs (Builder.data_dir self)) by (inversion H; reflexivity).
  assert (Hs' : s' = built rs' (Builder.data_dir self)) by (inversion H'; reflexivity).
  subst s s'. simpl.
  assert (Hiff : env_dir rs (Builder.data_dir self) = env_dir rs' (Builder.data_dir self)
                 <-> fingerprint rs = fingerprint rs').
  { split; [| unfold env_dir; now intros ->].
    rewrite !env_dir_join.
    rewrite (join2_name _ _ (fingerprint_is_name rs)).
    rewrite (join2_name _ _ (fingerprint_is_name rs')).
    destruct ((join2 (Builder.data_dir self) ".conda-env" =? "")
              || endswith_sep (join2 (Builder.data_dir self) ".conda-env")).
    - apply String.app_inj.
    - intros E. apply String.app_inj in E. now inversion E. }
  split; [| exact Hiff].
  rewrite <- Hiff. split; [now intros [=] | now intros ->].
Qed.

End TwoManifests.

(** C7, as the program has it.  Constructing a [Builder] is a no-op that
    raises nothing when the target path exists.  When it does not exist,
    the directory is created together with its missing parents, and
    nothing else is touched, provided the path is not empty and has no
    [..] component, and only absence stands in the way (no regular file on
    the path), in a file system that is a tree. *)
Theorem init_target_directory d w :
  let self := {| Builder.data_dir := d; Builder.env_path := None |} in
  (os_path_exists w d = true -> Builder.__init__ d w = (Ok self, w)) /\
  (d <> "" -> no_dotdot d = true -> well_formed w -> os_stat w d = inl ENOENT ->
   exists w' l,
     Builder.__init__ d w = (Ok self, w') /\
     events w' = events w ++ [EvLog INFO "Creating %s" (ArgStr d)] /\
     os_stat w' d = inr (l, Dir) /\
     fs w !! l = None /\
     fs w ⊆ fs w' /\
     well_formed w' /\
     forall q n, fs w' !! q = Some n -> fs w !! q = None -> n = Dir /\ q `suffix_of` l).
Proof.
  intros self. unfold Builder.__init__. split.
  - intros ->. reflexivity.
  - intros Hd Hnd Hwf Hst. unfold os_path_exists. rewrite Hst. simpl negb. cbv iota.
    unfold bind, logger_info. rewrite emit_spec.
    set (w0 := add_event w (EvLog INFO "Creating %s" (ArgStr d))).
    assert (Hwf0 : well_formed w0) by (destruct Hwf; now split).
    destruct (makedirs_rec_creates (S (String.length d)) d w0 (Nat.lt_succ_diag_r _)
                Hd Hnd Hwf0 Hst)
      as (w' & Hmk & l & Hdl & Hn & Hc & He & Hs & Hwf' & Hnew).
    unfold os_makedirs. rewrite Hmk. exists w', l.
    split; [reflexivity |]. split; [exact He |].
    split; [now apply dirloc_exists |]. split; [exact Hn |].
    split; [exact Hs |]. split; [exact Hwf' | exact Hnew].
Qed.

Lemma conda_preserves rc : exec_preserves (Scenario.conda rc).
Proof.
  intros rel dir m p. unfold Scenario.conda, Builder.conda_create. simpl.
  destruct (walk m dir (split_sep rel)) as [e|l]; [discriminate |].
  intros H. inversion H; subst. simpl.
  destruct (m !! ("conda-meta" :: l)) eqn:E; [reflexivity | now apply insert_subseteq].
Qed.

Lemma build_environment_twice_witness :
  let build := Builder.build_environment Scenario.bundled (Scenario.conda 0) Scenario.text in
  let w1 := snd (build Scenario.builder Scenario.fresh) in
  let w2 := snd (build Scenario.builder w1) in
  exec_preserves (Scenario.conda 0) /\
  (spawn_count (events w2) <= spawn_count (events Scenario.fresh) + 1)%nat /\
  fst (build Scenario.builder w1) = fst (build Scenario.builder Scenario.fresh) /\
  fs w2 = fs w1 /\
  spawn_count (events w1) = 1%nat.
Proof.
  intros build w1 w2. split; [apply conda_preserves |].
  pose proof (build_environment_twice Scenario.bundled (Scenario.conda 0) Scenario.text
                Scenario.builder Scenario.builder Scenario.fresh
                (fst (build Scenario.builder Scenario.fresh)) w1
                (fst (build Scenario.builder w1)) w2
                (conda_preserves 0) eq_refl
                (surjective_pairing _) (surjective_pairing _)) as [Hle Hok].
  split; [exact Hle |].
  destruct (Hok {| Builder.data_dir := "./data";
                   Builder.env_path := Some "./data/.conda-env/bdf917" |})
    as (_ & _ & E & Hfs & _).
  - vm_compute. reflexivity.
  - split; [now rewrite E |]. split; [exact Hfs |]. vm_compute. reflexivity.
Defined.

Lemma recorded_env_path_witness :
  let s := {| Builder.data_dir := "./data";
              Builder.env_path := Some "./data/.conda-env/bdf917" |} in
  let run := Builder.build_environment Scenario.bundled (Scenario.conda 0) Scenario.text
               Scenario.builder Scenario.fresh in
  run = (Ok s, snd run) /\
  String.length (str_take 6 (md5_hexdigest (md5_update md5 (manifest Scenario.bundled))))
    = 6%nat.
Proof.
  intros s run.
  assert (H : run = (Ok s, snd run)) by (vm_compute; reflexivity).
  split; [exact H |].
  destruct (recorded_env_path Scenario.bundled (Scenario.conda 0) Scenario.text
              Scenario.builder Scenario.fresh s (snd run) H) as (_ & _ & _ & Hlen & _).
  exact Hlen.
Defined.

Lemma failed_creation_witness :
  let cur := ["data"; "home"] in
  let env := fingerprint Scenario.bundled :: ".conda-env" :: cur in
  let m := <[env := Dir]>
             (<[".conda-env" :: cur := Dir]>
                (<["requirements.txt" :: cur := File (manifest Scenario.bundled)]>
                   (fs Scenario.fresh))) in
  let p := {| stdout := [list_byte_of_string ("Solving environment: done" +:+ Scenario.nl)];
              returncode := 1;
              fs_after := <["conda-meta" :: env := Dir]> m |} in
  os_stat Scenario.fresh "./data" = inr (cur, Dir) /\
  Scenario.conda 1 (create_cmd Scenario.bundled) cur m = Some p /\
  exists w',
    Builder.build_environment Scenario.bundled (Scenario.conda 1) Scenario.text
      Scenario.builder Scenario.fresh
    = (Raise (CalledProcessError 1 (create_cmd Scenario.bundled)), w') /\
    fs w' = fs_after p.
Proof.
  intros cur env m p.
  assert (Hd : os_stat Scenario.fresh "./data" = inr (cur, Dir)) by (vm_compute; reflexivity).
  assert (He : Scenario.conda 1 (create_cmd Scenario.bundled) cur m = Some p)
    by (vm_compute; reflexivity).
  split; [exact Hd |]. split; [exact He |].
  destruct (failed_creation Scenario.bundled (Scenario.conda 1) Scenario.text
              Scenario.builder Scenario.fresh cur p) as (w' & Hrun & Hfs & _).
  - exact Hd.
  - vm_compute. discriminate.
  - left. vm_compute. reflexivity.
  - vm_compute. reflexivity.
  - exact He.
  - repeat constructor. eexists. reflexivity.
  - simpl. lia.
  - exists w'. split; [exact Hrun | exact Hfs].
Defined.

Lemma existing_env_without_marker_witness :
  let failed := snd (Builder.build_environment Scenario.bundled (Scenario.conda 1)
                       Scenario.text Scenario.builder Scenario.fresh) in
  let env := fingerprint Scenario.bundled :: [".conda-env"; "data"; "home"] in
  dirloc failed (env_dir Scenario.bundled "./data") = inr env /\
  fs failed !! (".success" :: env) = None /\
  fst (Builder.build_environment Scenario.bundled (Scenario.conda 0) Scenario.text
         Scenario.builder failed) = Raise FileExistsError.
Proof.
  intros failed env.
  assert (H1 : dirloc failed (env_dir Scenario.bundled "./data") = inr env)
    by (vm_compute; reflexivity).
  assert (H2 : fs failed !! (".success" :: env) = None) by (vm_compute; reflexivity).
  split; [exact H1 |]. split; [exact H2 |].
  destruct (existing_env_without_marker Scenario.bundled (Scenario.conda 0) Scenario.text
              Scenario.builder failed env failed H1 H2) as (Hrun & _).
  - vm_compute. reflexivity.
  - now rewrite Hrun.
Defined.

Lemma copy_then_fingerprint_witness :
  let run := Builder.build_environment Scenario.bundled (Scenario.conda 0) Scenario.text
               Scenario.builder Scenario.fresh in
  exec_preserves (Scenario.conda 0) /\
  has_copy (snd run) "./data" "requirements.txt" (manifest Scenario.bundled).
Proof.
  intros run. split; [apply conda_preserves |].
  destruct (copy_then_fingerprint Scenario.bundled (Scenario.conda 0) Scenario.text
              Scenario.builder Scenario.fresh (fst run) (snd run)
              (conda_preserves 0) (surjective_pairing run))
    as [(e & _ & He & _) | (w1 & _ & _ & Hc & _)].
  - vm_compute in He. discriminate He.
  - exact Hc.
Defined.

Lemma passthrough_arguments_witness :
  let self := built Scenario.bundled "./data" in
  let w := snd (Builder.build_environment Scenario.bundled (Scenario.conda 0) Scenario.text
                  Scenario.builder Scenario.fresh) in
  let line := "source activate .conda-env/" +:+ fingerprint Scenario.bundled
                +:+ "; snakemake " +:+ String.concat " " ["-n"; "-j4"] in
  let p := {| stdout := []; returncode := 0; fs_after := fs w |} in
  os_stat w "./data" = inr (["data"; "home"], Dir) /\
  Scenario.conda 0 (ShellLine line) ["data"; "home"] (fs w) = Some p /\
  line = "source activate .conda-env/bdf917; snakemake -n -j4" /\
  exists r w' rest,
    Builder.run_snakefile (Scenario.conda 0) Scenario.text self (PyList ["-n"; "-j4"]) w
      = (r, w') /\
    events w' = events w ++ log_running "./data" :: EvSpawn (ShellLine line) "./data" :: rest.
Proof.
  intros self w line p.
  assert (Hd : os_stat w "./data" = inr (["data"; "home"], Dir)) by (vm_compute; reflexivity).
  assert (He : Scenario.conda 0 (ShellLine line) ["data"; "home"] (fs w) = Some p)
    by reflexivity.
  split; [exact Hd |]. split; [exact He |]. split; [vm_compute; reflexivity |].
  destruct (passthrough_arguments Scenario.bundled (Scenario.conda 0) Scenario.text
              self ["-n"; "-j4"] w ["data"; "home"] p eq_refl Hd He)
    as [(r & w' & rest & H1 & H2 & _) _].
  exists r, w', rest. split; [exact H1 | exact H2].
Defined.

Lemma string_arguments_witness :
  let self := built Scenario.bundled "./data" in
  let w := snd (Builder.build_environment Scenario.bundled (Scenario.conda 0) Scenario.text
                  Scenario.builder Scenario.fresh) in
  let line := "source activate .conda-env/" +:+ fingerprint Scenario.bundled
                +:+ "; snakemake " +:+ spaced "-j4 -T" in
  let p := {| stdout := []; returncode := 0; fs_after := fs w |} in
  os_stat w "./data" = inr (["data"; "home"], Dir) /\
  Scenario.conda 0 (ShellLine line) ["data"; "home"] (fs w) = Some p /\
  line = "source activate .conda-env/bdf917; snakemake - j 4   - T" /\
  exists r w' rest,
    Builder.run_snakefile (Scenario.conda 0) Scenario.text self (PyStr "-j4 -T") w
      = (r, w') /\
    events w' = events w ++ log_running "./data" :: EvSpawn (ShellLine line) "./data" :: rest.
Proof.
  intros self w line p.
  assert (Hd : os_stat w "./data" = inr (["data"; "home"], Dir)) by (vm_compute; reflexivity).
  assert (He : Scenario.conda 0 (ShellLine line) ["data"; "home"] (fs w) = Some p)
    by reflexivity.
  split; [exact Hd |]. split; [exact He |]. split; [vm_compute; reflexivity |].
  destruct (string_arguments Scenario.bundled (Scenario.conda 0) Scenario.text
              self "-j4 -T" w ["data"; "home"] p eq_refl Hd He)
    as (_ & (r & w' & rest & H1 & H2) & _).
  exists r, w', rest. split; [exact H1 | exact H2].
Defined.

Lemma run_before_build_witness :
  let run := Builder.run_snakefile (Scenario.conda 0) Scenario.text in
  let built_run := Builder.build_environment Scenario.bundled (Scenario.conda 0) Scenario.text
                     Scenario.builder Scenario.fresh in
  Builder.__init__ "./data" Scenario.home = (Ok Scenario.builder, Scenario.fresh) /\
  fst (run Scenario.builder (PyList []) Scenario.fresh) = Raise (ValueError "no path specified") /\
  built_run = (Ok (built Scenario.bundled "./data"), snd built_run) /\
  Builder.env_path (built Scenario.bundled "./data") <> None.
Proof.
  intros run built_run.
  destruct (run_before_build Scenario.bundled (Scenario.conda 0) Scenario.text)
    as (Hinit & Hnone & Hbuilt).
  assert (H0 : Builder.__init__ "./data" Scenario.home = (Ok Scenario.builder, Scenario.fresh))
    by (vm_compute; reflexivity).
  assert (Hb : built_run = (Ok (built Scenario.bundled "./data"), snd built_run))
    by (vm_compute; reflexivity).
  split; [exact H0 |]. split; [| split; [exact Hb |]].
  - destruct (Hnone Scenario.builder (PyList []) Scenario.fresh
                (Hinit "./data" Scenario.home Scenario.builder Scenario.fresh H0)) as [E _].
    unfold run. rewrite E. reflexivity.
  - exact (proj1 (Hbuilt Scenario.builder Scenario.fresh _ _ Hb)).
Defined.

(** C10, as the claim states it, fails: the error raised before a build is
    not a type error. *)
Lemma run_before_build_is_not_a_type_error :
  ~ exists msg,
      fst (Builder.run_snakefile (Scenario.conda 0) Scenario.text Scenario.builder
             (PyList ["-n"]) Scenario.fresh) = Raise (TypeError msg).
Proof. intros [msg H]. vm_compute in H. discriminate H. Qed.

(** C6, as the claim states it, fails: two different manifests with the
    same 6-character fingerprint share the environment directory, and the
    environment built for the first is reused for the second. *)
Lemma changed_manifest_reuses_environment :
  let first := Builder.build_environment Scenario.bundled_a (Scenario.conda 0) Scenario.text
                 Scenario.builder Scenario.fresh in
  let second := Builder.build_environment Scenario.bundled_b (Scenario.conda 0) Scenario.text
                  Scenario.builder (snd first) in
  manifest Scenario.bundled_a <> manifest Scenario.bundled_b /\
  fingerprint Scenario.bundled_a = "04c18d" /\
  fingerprint Scenario.bundled_b = "04c18d" /\
  env_dir Scenario.bundled_a "./data" = env_dir Scenario.bundled_b "./data" /\
  fst first = Ok (built Scenario.bundled_a "./data") /\
  spawn_count (events (snd first)) = 1%nat /\
  fst second = Ok (built Scenario.bundled_a "./data") /\
  spawn_count (events (snd second)) = 1%nat.
Proof.
  intros first second. split.
  - vm_compute. discriminate.
  - repeat split; vm_compute; reflexivity.
Qed.

Lemma environment_follows_fingerprint_witness :
  let first := Builder.build_environment Scenario.bundled (Scenario.conda 0) Scenario.text
                 Scenario.builder Scenario.fresh in
  let second := Builder.build_environment Scenario.bundled_a (Scenario.conda 0) Scenario.text
                  Scenario.builder Scenario.fresh in
  first = (Ok (built Scenario.bundled "./data"), snd first) /\
  second = (Ok (built Scenario.bundled_a "./data"), snd second) /\
  (env_dir Scenario.bundled (Builder.data_dir Scenario.builder)
     = env_dir Scenario.bundled_a (Builder.data_dir Scenario.builder) <->
   fingerprint Scenario.bundled = fingerprint Scenario.bundled_a).
Proof.
  intros first second.
  assert (H1 : first = (Ok (built Scenario.bundled "./data"), snd first))
    by (vm_compute; reflexivity).
  assert (H2 : second = (Ok (built Scenario.bundled_a "./data"), snd second))
    by (vm_compute; reflexivity).
  split; [exact H1 |]. split; [exact H2 |].
  exact (proj2 (environment_follows_fingerprint Scenario.bundled Scenario.bundled_a
                  (Scenario.conda 0) Scenario.text Scenario.builder Scenario.fresh _ _
                  Scenario.builder Scenario.fresh _ _ eq_refl H1 H2)).
Defined.

Lemma home_well_formed : well_formed Scenario.home.
Proof.
  split; [reflexivity | reflexivity |].
  intros c l n. unfold Scenario.home. simpl.
  destruct (decide (c :: l = ["home"])) as [E|Hne].
  - inversion E; subst. reflexivity.
  - rewrite lookup_insert_ne by discriminate.
    rewrite lookup_singleton_ne by congruence. discriminate.
Qed.

Lemma init_target_directory_witness :
  "./data" <> "" /\ no_dotdot "./data" = true /\ well_formed Scenario.home /\
  os_stat Scenario.home "./data" = inl ENOENT /\
  exists w' l,
    Builder.__init__ "./data" Scenario.home = (Ok Scenario.builder, w') /\
    os_stat w' "./data" = inr (l, Dir).
Proof.
  assert (H1 : "./data" <> "") by discriminate.
  assert (H2 : no_dotdot "./data" = true) by reflexivity.
  assert (H4 : os_stat Scenario.home "./data" = inl ENOENT) by (vm_compute; reflexivity).
  split; [exact H1 |]. split; [exact H2 |]. split; [exact home_well_formed |].
  split; [exact H4 |].
  destruct (proj2 (init_target_directory "./data" Scenario.home) H1 H2 home_well_formed H4)
    as (w' & l & Hrun & _ & Hst & _).
  exists w', l. split; [exact Hrun | exact Hst].
Defined.

(** C7, as the claim states it, fails: [foo/..] does not exist while [foo]
    is missing, and [os.makedirs] makes [foo] and then fails on the path
    itself; with a regular file [f] in the way, [f/x] does not exist and
    cannot be created. *)
Lemma init_fails_on_some_paths :
  os_path_exists Scenario.home "foo/.." = false /\
  fst (Builder.__init__ "foo/.." Scenario.home) = Raise FileExistsError /\
  let w := with_fs Scenario.home (<[["f"; "home"] := File []]> (fs Scenario.home)) in
  os_path_exists w "f/x" = false /\
  Builder.__init__ "f/x" w
    = (Raise (OSError ENOTDIR), add_event w (EvLog INFO "Creating %s" (ArgStr "f/x"))).
Proof. repeat split; vm_compute; reflexivity. Qed.

(** ** hashlib.md5 against known digests *)

Example md5_empty :
  MD5.hexdigest [] = "d41d8cd98f00b204e9800998ecf8427e"%string.
Proof. vm_compute. reflexivity. Qed.

Example md5_abc :
  MD5.hexdigest (list_byte_of_string "abc") = "900150983cd24fb0d6963f7d28e17f72"%string.
Proof. vm_compute. reflexivity. Qed.

Example md5_two_blocks :
  MD5.hexdigest (repeat "a"%byte 64) = "014842d480b571495a4a0363793f7367"%string.
Proof. vm_compute. reflexivity. Qed.

Example md5_long_padding :
  MD5.hexdigest (repeat "a"%byte 56) = "3b0c8ac703f828b04c6c197006d17218"%string.
Proof. vm_compute. reflexivity. Qed.

(** * Further properties of the program *)

(** ** The output loop *)

Section Output.

Variable decode : list byte -> option string.

Lemma spawned_app evs evs' : spawned (evs ++ evs') = spawned evs ++ spawned evs'.
Proof.
  induction evs as [|[| |c d] evs IH]; simpl; [reflexivity | assumption | assumption |].
  now rewrite IH.
Qed.

Lemma spawned_prints strs : spawned (map EvPrint strs) = [].
Proof. induction strs; [reflexivity | assumption]. Qed.

Lemma print_stdout_decoded lines strs w :
  decoded decode lines strs ->
  Builder.print_stdout decode lines w =
    (Ok tt, {| fs := fs w; cwd := cwd w; events := events w ++ map EvPrint strs |}).
Proof.
  intros H. revert w. induction H as [|i s lines strs Hs _ IH]; intros w; simpl.
  - rewrite app_nil_r. now destruct w.
  - rewrite Hs. unfold bind, print. rewrite emit_spec, IH. simpl.
    now rewrite <- app_assoc.
Qed.

Lemma print_stdout_undecodable pre bad post strs w :
  decoded decode pre strs -> decode (removelast bad) = None ->
  Builder.print_stdout decode (pre ++ bad :: post) w =
    (Raise UnicodeDecodeError,
     {| fs := fs w; cwd := cwd w; events := events w ++ map EvPrint strs |}).
Proof.
  intros H Hbad. revert w. induction H as [|i s lines strs Hs _ IH]; intros w; simpl.
  - rewrite Hbad, app_nil_r. now destruct w.
  - rewrite Hs. unfold bind, print. rewrite emit_spec, IH. simpl.
    now rewrite <- app_assoc.
Qed.

(** Whatever the loop does, it only prints. *)
Lemma print_stdout_prints lines w r w' :
  Builder.print_stdout decode lines w = (r, w') ->
  exists strs,
    w' = {| fs := fs w; cwd := cwd w; events := events w ++ map EvPrint strs |} /\
    (r = Ok tt \/ r = Raise UnicodeDecodeError).
Proof.
  revert w. induction lines as [|i rest IH]; intros w; simpl.
  - unfold ret. intros H. inversion H; subst. exists []. simpl. rewrite app_nil_r.
    split; [now destruct w' | now left].
  - destruct (decode (removelast i)) as [s|].
    + unfold bind, print. rewrite emit_spec. intros H.
      apply IH in H as (strs & -> & Hr). exists (s :: strs). simpl.
      now rewrite <- app_assoc.
    + unfold raise. intros H. inversion H; subst. exists []. simpl. rewrite app_nil_r.
      split; [now destruct w' | now right].
Qed.

End Output.

(** ** run_snakefile *)

Section RunSnakefile.

Variable resource_string : string -> string -> list byte.
Variable exec : command -> loc -> gmap loc node -> option process.
Variable decode : list byte -> option string.

Local Abbreviation run := (Builder.run_snakefile exec decode).
Local Abbreviation fingerprint := (fingerprint resource_string).
Local Abbreviation env_dir := (env_dir resource_string).
Local Abbreviation run_cmd := (run_cmd resource_string).

(** [run_snakefile] on a builder whose environment has been built, up to
    the moment the child has been waited for. *)
Lemma run_snakefile_built self args w :
  let d := Builder.data_dir self in
  Builder.env_path self = Some (env_dir d) ->
  run self args w =
  match Builder.Popen exec (run_cmd args) d (add_event w (log_running d)) with
  | (Raise e, w2) => (Raise e, w2)
  | (Ok p, w2) =>
      match Builder.print_stdout decode (stdout p) w2 with
      | (Raise e, w3) => (Raise e, w3)
      | (Ok _, w3) =>
          if (returncode p =? 0)%Z then (Ok tt, w3)
          else (Raise (CalledProcessError (returncode p) (run_cmd args)),
                add_event w3 (log_run_failed resource_string args))
      end
  end.
Proof.
  intros d Henv. rewrite run_snakefile_unfold. fold d. rewrite Henv.
  unfold env_dir.
  rewrite (os_path_relpath_env _ d ".conda-env" fingerprint eq_refl
             (fingerprint_is_name resource_string)).
  reflexivity.
Qed.

Lemma Popen_run cmd d w cur p :
  os_stat w d = inr (cur, Dir) -> exec cmd cur (fs w) = Some p ->
  Builder.Popen exec cmd d w =
    (Ok p, {| fs := fs_after p; cwd := cwd w; events := events w ++ [EvSpawn cmd d] |}).
Proof.
  intros Hd He. unfold Builder.Popen. rewrite Hd, He. reflexivity.
Qed.

(** X4. When the workflow runner exits with status 0, [run_snakefile]
    returns.  It has logged that it runs snakemake, started the one shell
    line in the target directory, printed every line of output without
    its last byte, and logged nothing else; the file system is what the
    runner left. *)
Theorem run_snakefile_returns self args w cur p strs :
  let d := Builder.data_dir self in
  Builder.env_path self = Some (env_dir d) ->
  os_stat w d = inr (cur, Dir) ->
  exec (run_cmd args) cur (fs w) = Some p ->
  decoded decode (stdout p) strs ->
  returncode p = 0%Z ->
  run self args w =
    (Ok tt,
     {| fs := fs_after p; cwd := cwd w;
        events := events w ++ log_running d :: EvSpawn (run_cmd args) d
                    :: map EvPrint strs |}).
Proof.
  intros d Henv Hd He Hdec Hrc.
  rewrite (run_snakefile_built self args w Henv). fold d.
  rewrite (Popen_run _ d (add_event w (log_running d)) cur p Hd He).
  rewrite (print_stdout_decoded decode _ strs _ Hdec), Hrc. simpl.
  now rewrite <- !app_assoc.
Qed.

(** X5. When the workflow runner exits with another status,
    [run_snakefile] raises [CalledProcessError] with that status and the
    shell line, after it has printed all the output; the shell line is the
    last thing it logs, as an error. *)
Theorem run_snakefile_fails self args w cur p strs :
  let d := Builder.data_dir self in
  Builder.env_path self = Some (env_dir d) ->
  os_stat w d = inr (cur, Dir) ->
  exec (run_cmd args) cur (fs w) = Some p ->
  decoded decode (stdout p) strs ->
  returncode p <> 0%Z ->
  run self args w =
    (Raise (CalledProcessError (returncode p) (run_cmd args)),
     {| fs := fs_after p; cwd := cwd w;
        events := events w ++ log_running d :: EvSpawn (run_cmd args) d
                    :: map EvPrint strs ++ [log_run_failed resource_string args] |}).
Proof.
  intros d Henv Hd He Hdec Hrc.
  rewrite (run_snakefile_built self args w Henv). fold d.
  rewrite (Popen_run _ d (add_event w (log_running d)) cur p Hd He).
  rewrite (print_stdout_decoded decode _ strs _ Hdec).
  apply Z.eqb_neq in Hrc. rewrite Hrc. unfold add_event. simpl.
  now rewrite <- !app_assoc.
Qed.

(** X6. When a line of the runner's output does not decode,
    [run_snakefile] raises [UnicodeDecodeError] at that line: the lines
    before it have been printed, the lines after it are not, and the exit
    status is never looked at, so that nothing is logged as failed and no
    [CalledProcessError] is raised whatever the status is. *)
Theorem run_snakefile_undecodable self args w cur p pre bad post strs :
  let d := Builder.data_dir self in
  Builder.env_path self = Some (env_dir d) ->
  os_stat w d = inr (cur, Dir) ->
  exec (run_cmd args) cur (fs w) = Some p ->
  stdout p = pre ++ bad :: post ->
  decoded decode pre strs ->
  decode (removelast bad) = None ->
  run self args w =
    (Raise UnicodeDecodeError,
     {| fs := fs_after p; cwd := cwd w;
        events := events w ++ log_running d :: EvSpawn (run_cmd args) d
                    :: map EvPrint strs |}).
Proof.
  intros d Henv Hd He Hout Hdec Hbad.
  rewrite (run_snakefile_built self args w Henv). fold d.
  rewrite (Popen_run _ d (add_event w (log_running d)) cur p Hd He), Hout.
  rewrite (print_stdout_undecodable decode pre bad post strs _ Hdec Hbad). simpl.
  now rewrite <- !app_assoc.
Qed.

End RunSnakefile.

(** ** Which errors the file-system calls raise *)

Lemma write_file_oserror p data w e w' :
  write_file p data w = (Raise e, w') -> exists n, e = OSError n.
Proof.
  unfold write_file, raise, set_fs. intros H.
  repeat case_match; inversion H; eauto.
Qed.

Lemma os_mkdir_oserror p w e w' :
  os_mkdir p w = (Raise e, w') -> exists n, e = OSError n.
Proof.
  unfold os_mkdir, raise, set_fs. intros H.
  repeat case_match; inversion H; eauto.
Qed.

Lemma makedirs_rec_oserror fuel :
  forall p w e w',
    (String.length p < fuel)%nat ->
    makedirs_rec fuel p w = (Raise e, w') -> exists n, e = OSError n.
Proof.
  induction fuel as [|fuel IH]; intros p w e w' Hlen; [lia |].
  rewrite makedirs_rec_S.
  destruct (os_path_split p) as [h t] eqn:E1.
  pose proof (os_path_split_shorter _ _ _ E1) as L1.
  destruct (if t =? "" then os_path_split h else (h, t)) as [h' t'] eqn:E2.
  assert (L2 : (String.length h' + String.length t' <= String.length p)%nat).
  { destruct (t =? ""); [| inversion E2; subst; exact L1].
    pose proof (os_path_split_shorter _ _ _ E2). lia. }
  destruct (nonempty h' && nonempty t' && negb (os_path_exists w h')) eqn:Ec;
    [| intros H; exact (os_mkdir_oserror _ _ _ _ H)].
  assert (Lh : (String.length h' < fuel)%nat).
  { apply andb_true_iff in Ec as [Ec _]. apply andb_true_iff in Ec as [_ Et].
    destruct t'; [discriminate Et | simpl in L2; lia]. }
  unfold bind, except_FileExistsError.
  destruct (makedirs_rec fuel h' w) as [r1 w1] eqn:E3.
  destruct r1 as [[]|e1].
  - destruct (t' =? "."); [unfold ret; discriminate | intros H; exact (os_mkdir_oserror _ _ _ _ H)].
  - destruct (IH _ _ _ _ Lh E3) as [n ->].
    destruct n; try solve [intros H; inversion H; eauto].
    destruct (t' =? "."); [unfold ret; discriminate | intros H; exact (os_mkdir_oserror _ _ _ _ H)].
Qed.

Lemma os_makedirs_oserror p w e w' :
  os_makedirs p w = (Raise e, w') -> exists n, e = OSError n.
Proof. intros H. apply (makedirs_rec_oserror _ _ _ _ _ (Nat.lt_succ_diag_r _) H). Qed.

(** [os.mkdir] and [os.makedirs] make directories, never files. *)
Lemma os_mkdir_dirs_only p w r w' :
  os_mkdir p w = (r, w') ->
  forall l data, fs w' !! l = Some (File data) -> fs w !! l = Some (File data).
Proof.
  unfold os_mkdir, raise, set_fs. intros H l data.
  repeat case_match; inversion H; subst; simpl; try tauto.
  match goal with
  | |- <[?k := Dir]> _ !! l = _ -> _ =>
      destruct (decide (l = k)) as [-> | Hne];
      [rewrite lookup_insert_eq; discriminate | now rewrite lookup_insert_ne]
  end.
Qed.

Lemma makedirs_rec_dirs_only fuel :
  forall p w r w',
    makedirs_rec fuel p w = (r, w') ->
    forall l data, fs w' !! l = Some (File data) -> fs w !! l = Some (File data).
Proof.
  induction fuel as [|fuel IH]; intros p w r w'.
  - simpl. unfold raise. intros H. inversion H; subst. tauto.
  - rewrite makedirs_rec_S.
    destruct (os_path_split p) as [h t].
    destruct (if t =? "" then os_path_split h else (h, t)) as [h' t'].
    destruct (nonempty h' && nonempty t' && negb (os_path_exists w h'));
      [| apply os_mkdir_dirs_only].
    unfold bind, except_FileExistsError.
    destruct (makedirs_rec fuel h' w) as [r1 w1] eqn:E1.
    pose proof (IH _ _ _ _ E1) as H1.
    assert (Hk : forall w2, (if t' =? "." then ret tt else os_mkdir p) w1 = (r, w2) ->
                 forall l data, fs w2 !! l = Some (File data) -> fs w !! l = Some (File data)).
    { intros w2 H l data Hl. apply H1.
      destruct (t' =? ".").
      - unfold ret in H. inversion H; subst. exact Hl.
      - exact (os_mkdir_dirs_only _ _ _ _ H l data Hl). }
    destruct r1 as [[]|e]; [apply Hk |].
    destruct e as [[]| | | | |]; try (intros H; inversion H; subst; exact H1).
    apply Hk.
Qed.

Lemma os_makedirs_dirs_only p w r w' :
  os_makedirs p w = (r, w') ->
  forall l data, fs w' !! l = Some (File data) -> fs w !! l = Some (File data).
Proof. apply makedirs_rec_dirs_only. Qed.

(** ** Builder.__init__ *)

(** X1. Constructing a [Builder] never removes or changes anything that
    exists, whether it returns or raises: the file system only gains
    directories and the current directory stays.  When the path exists
    nothing happens at all; when it does not, [Creating] is logged once,
    before [os.makedirs] runs, also when that call then fails. *)
Theorem init_only_adds d w :
  let r := fst (Builder.__init__ d w) in
  let w' := snd (Builder.__init__ d w) in
  cwd w' = cwd w /\ fs w ⊆ fs w' /\
  (forall l data, fs w' !! l = Some (File data) -> fs w !! l = Some (File data)) /\
  (os_path_exists w d = true ->
   r = Ok {| Builder.data_dir := d; Builder.env_path := None |} /\ w' = w) /\
  (os_path_exists w d = false -> events w' = events w ++ [log_creating d]).
Proof.
  unfold Builder.__init__. destruct (os_path_exists w d); simpl.
  - split; [reflexivity |]. split; [reflexivity |]. split; [tauto |].
    split; [now split | discriminate].
  - unfold bind, logger_info. rewrite emit_spec.
    destruct (os_makedirs d (add_event w (EvLog INFO "Creating %s" (ArgStr d))))
      as [r1 w1] eqn:E.
    pose proof (os_makedirs_frame _ _ _ _ E) as (He & [Hc _] & Hs).
    pose proof (os_makedirs_dirs_only _ _ _ _ E) as Hf.
    simpl in He, Hc, Hs, Hf.
    assert (Hw : snd (match r1 with
                      | Ok _ => ret {| Builder.data_dir := d; Builder.env_path := None |} w1
                      | Raise e => (Raise e, w1)
                      end) = w1) by now destruct r1.
    rewrite Hw.
    split; [exact Hc |]. split; [exact Hs |]. split; [exact Hf |].
    split; [discriminate | intros _; exact He].
Qed.

(** ** write_snakefile *)

Section WriteSnakefile.

Variable resource_string : string -> string -> list byte.

Local Abbreviation write_snakefile := (Builder.write_snakefile resource_string).
Local Abbreviation snakefile := (snakefile resource_string).

Lemma snakefile_path_join d : snakefile_path d = join2 d "Snakefile".
Proof. reflexivity. Qed.

Lemma write_snakefile_unfold self w :
  let d := Builder.data_dir self in
  write_snakefile self w =
  match dirloc w d with
  | inl e => (Raise (OSError e), w)
  | inr cur =>
      match fs w !! ("Snakefile" :: cur) with
      | Some Dir => (Raise (OSError EISDIR), w)
      | _ => (Ok (snakefile_path d),
              with_fs w (<["Snakefile" :: cur := File snakefile]> (fs w)))
      end
  end.
Proof.
  intros d. unfold Builder.write_snakefile, bind. fold d.
  change (os_path_join d ["Snakefile"]) with (join2 d "Snakefile").
  rewrite (write_file_join2 w d "Snakefile" _ eq_refl).
  destruct (dirloc w d) as [e|cur]; [reflexivity |].
  destruct (fs w !! ("Snakefile" :: cur)) as [[]|]; reflexivity.
Qed.

(** X2. In a target directory where [Snakefile] is not a directory,
    [write_snakefile] puts the bundled bytes there, replacing the file if
    there is one and touching nothing else (no log line, no command), and
    returns the path it wrote: the target directory, a separator unless it
    ends with one, and [Snakefile].  Calling it again changes nothing. *)
Theorem write_snakefile_writes self w cur :
  let d := Builder.data_dir self in
  let w' := with_fs w (<["Snakefile" :: cur := File snakefile]> (fs w)) in
  os_stat w d = inr (cur, Dir) ->
  fs w !! ("Snakefile" :: cur) <> Some Dir ->
  write_snakefile self w = (Ok (snakefile_path d), w') /\
  snakefile_path d = (if endswith_sep d then d else d +:+ "/") +:+ "Snakefile" /\
  has_copy w' d "Snakefile" snakefile /\
  write_snakefile self w' = (Ok (snakefile_path d), w').
Proof.
  intros d w' Hd Hno.
  pose proof (os_stat_dirloc _ _ _ Hd) as Hdl.
  assert (Hne : d <> "") by (intros E; rewrite E in Hd; discriminate Hd).
  assert (Hdl' : dirloc w' d = inr cur).
  { apply (dirloc_shape_le w); [reflexivity | | exact Hdl].
    now apply shape_le_insert_file. }
  split; [| split; [| split]].
  - rewrite write_snakefile_unfold. fold d. rewrite Hdl.
    destruct (fs w !! ("Snakefile" :: cur)) as [[]|]; try reflexivity.
    now contradiction Hno.
  - rewrite snakefile_path_join, (join2_name d "Snakefile" eq_refl).
    apply String.eqb_neq in Hne. rewrite Hne. simpl.
    destruct (endswith_sep d); [reflexivity | now rewrite append_assoc].
  - exists cur. split; [exact Hdl' |]. simpl. apply lookup_insert_eq.
  - rewrite write_snakefile_unfold. fold d. rewrite Hdl'. unfold w' at 1. simpl.
    rewrite lookup_insert_eq. unfold w', with_fs. simpl. now rewrite insert_insert_eq.
Qed.

(** X3. A call of [write_snakefile] that fails leaves the world as it
    was.  In this file system, which has no permissions and no quotas, it
    fails only when the target directory cannot be reached as a directory,
    with the error of that, or when [Snakefile] is a directory there, with
    [IsADirectoryError]. *)
Theorem write_snakefile_fails self w e w' :
  let d := Builder.data_dir self in
  write_snakefile self w = (Raise e, w') ->
  w' = w /\
  ((exists n, e = OSError n /\ dirloc w d = inl n) \/
   (e = OSError EISDIR /\
    exists cur, dirloc w d = inr cur /\ fs w !! ("Snakefile" :: cur) = Some Dir)).
Proof.
  intros d. rewrite write_snakefile_unfold. fold d.
  destruct (dirloc w d) as [n|cur] eqn:Hdl.
  - intros H. inversion H; subst. split; [reflexivity |]. left. now exists n.
  - destruct (fs w !! ("Snakefile" :: cur)) as [[]|] eqn:Hl; intros H; inversion H; subst.
    split; [reflexivity |]. right. split; [reflexivity |]. now exists cur.
Qed.

End WriteSnakefile.

(** ** build_environment: the other paths *)

Section BuildMore.

Variable resource_string : string -> string -> list byte.
Variable exec : command -> loc -> gmap loc node -> option process.
Variable decode : list byte -> option string.

Local Abbreviation build := (Builder.build_environment resource_string exec decode).
Local Abbreviation outcome := (build_outcome resource_string exec decode).
Local Abbreviation manifest := (manifest resource_string).
Local Abbreviation fingerprint := (fingerprint resource_string).
Local Abbreviation env_dir := (env_dir resource_string).
Local Abbreviation marker_path := (marker_path resource_string).
Local Abbreviation create_cmd := (create_cmd resource_string).
Local Abbreviation built := (built resource_string).
Local Abbreviation log_building := (log_building resource_string).
Local Abbreviation log_built := (log_built resource_string).
Local Abbreviation log_reuse := (log_reuse resource_string).
Local Abbreviation log_failed := (log_failed resource_string).

(** A first build in a target directory that has no environment yet, up
    to the moment the command has been waited for. *)
Lemma build_environment_fresh self w cur p :
  let d := Builder.data_dir self in
  let env := fingerprint :: ".conda-env" :: cur in
  let m := <[env := Dir]>
             (<[".conda-env" :: cur := Dir]>
                (<["requirements.txt" :: cur := File manifest]> (fs w))) in
  let w3 := {| fs := fs_after p; cwd := cwd w;
               events := events w ++ [log_building w d; EvSpawn create_cmd d] |} in
  os_stat w d = inr (cur, Dir) ->
  fs w !! ("requirements.txt" :: cur) <> Some Dir ->
  fs w !! (".conda-env" :: cur) = None \/ fs w !! (".conda-env" :: cur) = Some Dir ->
  fs w !! env = None ->
  exec create_cmd cur m = Some p ->
  dirloc (with_fs w m) d = inr cur /\
  build self w =
  match Builder.print_stdout decode (stdout p) w3 with
  | (Raise e, w4) => (Raise e, w4)
  | (Ok _, w4) =>
      if (returncode p =? 0)%Z then
        match write_file (marker_path d) [] (add_event w4 (log_built d)) with
        | (Raise e, w5) => (Raise e, w5)
        | (Ok _, w5) => (Ok (built d), w5)
        end
      else (Raise (CalledProcessError (returncode p) create_cmd), add_event w4 log_failed)
  end.
Proof.
  intros d env m w3 Hd Hreq Hce Henv Hexec.
  pose proof (os_stat_dirloc _ _ _ Hd) as Hdl.
  set (w1 := with_fs w (<["requirements.txt" :: cur := File manifest]> (fs w))).
  assert (H1 : write_file (requirements_path d) manifest w = (Ok tt, w1)).
  { change (requirements_path d) with (join2 d "requirements.txt").
    rewrite (write_file_join2 w d "requirements.txt" manifest eq_refl), Hdl, set_fs_spec.
    destruct (fs w !! ("requirements.txt" :: cur)) as [[]|]; try reflexivity.
    now contradiction Hreq. }
  assert (Hne : forall (b c : string) (rest : loc), b <> c -> b :: rest <> c :: rest)
    by congruence.
  assert (Hlen : forall (a b c : string) (l : loc), a :: l <> b :: c :: l).
  { intros a b c l H. apply (f_equal length) in H. simpl in H. lia. }
  assert (Hg1 : grows w w1).
  { apply write_file_frame in H1. tauto. }
  assert (Hd1 : os_stat (add_event w1 (log_building w1 d)) d = inr (cur, Dir)).
  { apply dirloc_exists; [intros E; rewrite E in Hd; discriminate Hd |].
    now apply (dirloc_grows w). }
  assert (Hce1 : fs w1 !! (".conda-env" :: cur) = None \/
                 fs w1 !! (".conda-env" :: cur) = Some Dir).
  { simpl. rewrite lookup_insert_ne by (apply Hne; discriminate). exact Hce. }
  assert (Henv1 : fs w1 !! env = None).
  { simpl. rewrite lookup_insert_ne; [exact Henv | apply Hlen]. }
  assert (H2 : os_path_exists w1 (marker_path d) = false).
  { unfold os_path_exists.
    change (marker_path d) with (join2 (join2 (join2 d ".conda-env") fingerprint) ".success").
    rewrite (os_stat_join2 w1 _ ".success" eq_refl).
    rewrite (dirloc_join2 _ _ _ (fingerprint_is_name resource_string)).
    rewrite (dirloc_join2 w1 d ".conda-env" eq_refl).
    rewrite (dirloc_grows _ _ _ _ Hg1 Hdl).
    destruct Hce1 as [-> | ->]; [reflexivity |].
    unfold env in Henv1. now rewrite Henv1. }
  pose proof (os_makedirs_fresh _ d ".conda-env" fingerprint cur eq_refl
                (fingerprint_is_name resource_string) Hd1 Hce1 Henv1) as H3.
  change (join2 (join2 d ".conda-env") fingerprint) with (env_dir d) in H3.
  fold env in H3.
  set (w2 := with_fs (add_event w1 (log_building w1 d)) m) in *.
  assert (Hg2 : fs w1 ⊆ fs w2).
  { apply os_makedirs_frame in H3. tauto. }
  assert (Hd2 : os_stat w2 d = inr (cur, Dir)).
  { apply (os_stat_weaken (add_event w1 (log_building w1 d)));
      [reflexivity | exact Hg2 | exact Hd1]. }
  assert (H4 : Builder.Popen exec create_cmd d w2 = (Ok p, w3)).
  { unfold Builder.Popen. rewrite Hd2. change (fs w2) with m. rewrite Hexec.
    unfold bind. rewrite emit_spec, set_fs_spec. unfold ret, w3, with_fs, add_event.
    simpl. now rewrite <- app_assoc. }
  split; [apply os_stat_dirloc; exact Hd2 |].
  destruct (Builder.print_stdout decode (stdout p) w3) as [[[]|e] w4] eqn:H5.
  - destruct (returncode p =? 0)%Z eqn:Hrc.
    + destruct (write_file (marker_path d) [] (add_event w4 (log_built d)))
        as [[[]|e] w5] eqn:H7; apply build_environment_outcome; fold d.
      * apply (environment_built _ _ _ d w w1 w2 p w3 w4 w5); auto. now apply Z.eqb_eq.
      * apply (marker_failed _ _ _ d w w1 w2 p w3 w4 e w5); auto. now apply Z.eqb_eq.
    + apply build_environment_outcome. fold d.
      apply (command_failed _ _ _ d w w1 w2 p w3 w4); auto. now apply Z.eqb_neq.
  - apply build_environment_outcome. fold d.
    now apply (output_failed _ _ _ d w w1 w2 p w3 e w4).
Qed.

(** A first build whose command succeeds. *)
Lemma build_fresh_returns self w cur p strs :
  let d := Builder.data_dir self in
  let env := fingerprint :: ".conda-env" :: cur in
  let m := <[env := Dir]>
             (<[".conda-env" :: cur := Dir]>
                (<["requirements.txt" :: cur := File manifest]> (fs w))) in
  os_stat w d = inr (cur, Dir) ->
  fs w !! ("requirements.txt" :: cur) <> Some Dir ->
  fs w !! (".conda-env" :: cur) = None \/ fs w !! (".conda-env" :: cur) = Some Dir ->
  fs w !! env = None ->
  exec create_cmd cur m = Some p ->
  decoded decode (stdout p) strs ->
  returncode p = 0%Z ->
  m ⊆ fs_after p ->
  fs_after p !! (".success" :: env) <> Some Dir ->
  build self w =
    (Ok (built d),
     {| fs := <[".success" :: env := File []]> (fs_after p);
        cwd := cwd w;
        events := events w ++ log_building w d :: EvSpawn create_cmd d
                    :: map EvPrint strs ++ [log_built d] |}).
Proof.
  intros d env m Hd Hreq Hce Henv Hexec Hdec Hrc Hsub Hmk.
  destruct (build_environment_fresh self w cur p Hd Hreq Hce Henv Hexec) as [Hdm ->].
  fold d. rewrite (print_stdout_decoded decode _ strs _ Hdec), Hrc.
  cbv beta iota. change (0 =? 0)%Z with true. cbv iota.
  set (w4 := add_event _ (log_built d)).
  assert (Hde : dirloc w4 (env_dir d) = inr env).
  { change (env_dir d) with (join2 (join2 d ".conda-env") fingerprint).
    rewrite (dirloc_join2 _ _ _ (fingerprint_is_name resource_string)).
    rewrite (dirloc_join2 w4 d ".conda-env" eq_refl).
    assert (Hd4 : dirloc w4 d = inr cur).
    { apply (dirloc_shape_le (with_fs w m)); [reflexivity | | exact Hdm].
      now apply subseteq_shape_le. }
    rewrite Hd4. change (fs w4) with (fs_after p).
    rewrite (lookup_weaken m (fs_after p) (".conda-env" :: cur) Dir); [| | exact Hsub].
    - rewrite (lookup_weaken m (fs_after p) env Dir); [reflexivity | | exact Hsub].
      apply lookup_insert_eq.
    - unfold m. rewrite lookup_insert_ne, lookup_insert_eq; [reflexivity |].
      intros E. apply (f_equal length) in E. simpl in E. lia. }
  change (marker_path d) with (join2 (env_dir d) ".success").
  rewrite (write_file_join2 w4 (env_dir d) ".success" [] eq_refl), Hde.
  change (fs w4) with (fs_after p). fold env.
  assert (E : set_fs (<[".success" :: env := File []]> (fs_after p)) w4 =
              (Ok tt,
               {| fs := <[".success" :: env := File []]> (fs_after p);
                  cwd := cwd w;
                  events := events w ++ log_building w d :: EvSpawn create_cmd d
                              :: map EvPrint strs ++ [log_built d] |})).
  { unfold set_fs, w4, add_event. simpl. now rewrite <- !app_assoc. }
  destruct (fs_after p !! (".success" :: env)) as [[]|]; rewrite ?E; try reflexivity.
  now contradiction Hmk.
Qed.

(** X8. A first build that succeeds.  In a target directory without
    the environment directory, with a creation command that exits with
    status 0, prints text, keeps what was there and leaves no directory in
    the place of the marker, [build_environment] returns the builder with
    the environment path set.  The file system is the one the command
    left plus an empty [.success] in the environment directory, and the
    trace is: the line that the environment is being built, the command
    started in the target directory, its output, and the line that the
    environment was built. *)
Theorem build_environment_builds self w cur p strs :
  let d := Builder.data_dir self in
  let env := fingerprint :: ".conda-env" :: cur in
  let m := <[env := Dir]>
             (<[".conda-env" :: cur := Dir]>
                (<["requirements.txt" :: cur := File manifest]> (fs w))) in
  os_stat w d = inr (cur, Dir) ->
  fs w !! ("requirements.txt" :: cur) <> Some Dir ->
  fs w !! (".conda-env" :: cur) = None \/ fs w !! (".conda-env" :: cur) = Some Dir ->
  fs w !! env = None ->
  exec create_cmd cur m = Some p ->
  decoded decode (stdout p) strs ->
  returncode p = 0%Z ->
  m ⊆ fs_after p ->
  fs_after p !! (".success" :: env) <> Some Dir ->
  build self w =
    (Ok (built d),
     {| fs := <[".success" :: env := File []]> (fs_after p);
        cwd := cwd w;
        events := events w ++ log_building w d :: EvSpawn create_cmd d
                    :: map EvPrint strs ++ [log_built d] |}).
Proof. apply build_fresh_returns. Qed.

(** X9. When a line of the creation command's output does not decode,
    [build_environment] raises [UnicodeDecodeError] at that line.  The
    exit status is never looked at, and the program writes no marker: the
    file system is the one the command left, also when the command
    succeeded. *)
Theorem build_environment_undecodable self w cur p pre bad post strs :
  let d := Builder.data_dir self in
  let env := fingerprint :: ".conda-env" :: cur in
  let m := <[env := Dir]>
             (<[".conda-env" :: cur := Dir]>
                (<["requirements.txt" :: cur := File manifest]> (fs w))) in
  os_stat w d = inr (cur, Dir) ->
  fs w !! ("requirements.txt" :: cur) <> Some Dir ->
  fs w !! (".conda-env" :: cur) = None \/ fs w !! (".conda-env" :: cur) = Some Dir ->
  fs w !! env = None ->
  exec create_cmd cur m = Some p ->
  stdout p = pre ++ bad :: post ->
  decoded decode pre strs ->
  decode (removelast bad) = None ->
  build self w =
    (Raise UnicodeDecodeError,
     {| fs := fs_after p; cwd := cwd w;
        events := events w ++ log_building w d :: EvSpawn create_cmd d
                    :: map EvPrint strs |}).
Proof.
  intros d env m Hd Hreq Hce Henv Hexec Hout Hdec Hbad.
  destruct (build_environment_fresh self w cur p Hd Hreq Hce Henv Hexec) as [_ ->].
  fold d. rewrite Hout, (print_stdout_undecodable decode pre bad post strs _ Hdec Hbad).
  simpl. now rewrite <- !app_assoc.
Qed.

(** What [build_environment] adds to the trace. *)
Lemma build_environment_trace d w r w' :
  outcome d w r w' ->
  exists added,
    events w' = events w ++ added /\
    (spawned added = [] \/ spawned added = [(create_cmd, d)]).
Proof.
  intros H. destruct H as
    [ e w1 H1 | w1 H1 H2 | w1 e w2 H1 H2 H3 | w1 w2 e w3 H1 H2 H3 H4
    | w1 w2 p w3 e w4 H1 H2 H3 H4 H5 | w1 w2 p w3 w4 H1 H2 H3 H4 H5 H6
    | w1 w2 p w3 w4 e w5 H1 H2 H3 H4 H5 H6 H7 | w1 w2 p w3 w4 w5 H1 H2 H3 H4 H5 H6 H7 ];
    apply write_file_frame in H1 as [He1 _].
  - exists []. rewrite app_nil_r. split; [exact He1 | now left].
  - exists [log_reuse w1 d]. simpl. rewrite He1. split; [reflexivity | now left].
  - apply os_makedirs_frame in H3 as (He2 & _). simpl in He2.
    exists [log_building w1 d]. rewrite He2, He1. split; [reflexivity | now left].
  - apply os_makedirs_frame in H3 as (He2 & _). simpl in He2.
    apply Popen_raise in H4 as ->.
    exists [log_building w1 d]. rewrite He2, He1. split; [reflexivity | now left].
  - apply os_makedirs_frame in H3 as (He2 & _). simpl in He2.
    apply Popen_ok in H4 as (dir & _ & _ & ->).
    apply print_stdout_prints in H5 as (strs & -> & _). simpl.
    exists (log_building w1 d :: EvSpawn create_cmd d :: map EvPrint strs).
    rewrite He2, He1, <- !app_assoc. split; [reflexivity |].
    right. simpl. now rewrite spawned_prints.
  - apply os_makedirs_frame in H3 as (He2 & _). simpl in He2.
    apply Popen_ok in H4 as (dir & _ & _ & ->).
    apply print_stdout_prints in H5 as (strs & -> & _). simpl.
    exists (log_building w1 d :: EvSpawn create_cmd d :: map EvPrint strs ++ [log_failed]).
    rewrite He2, He1, <- !app_assoc. split; [reflexivity |].
    right. simpl. now rewrite spawned_app, spawned_prints.
  - apply os_makedirs_frame in H3 as (He2 & _). simpl in He2.
    apply Popen_ok in H4 as (dir & _ & _ & ->).
    apply print_stdout_prints in H5 as (strs & -> & _).
    apply write_file_frame in H7 as [He7 _]. simpl in He7.
    exists (log_building w1 d :: EvSpawn create_cmd d :: map EvPrint strs ++ [log_built d]).
    rewrite He7, He2, He1, <- !app_assoc. split; [reflexivity |].
    right. simpl. now rewrite spawned_app, spawned_prints.
  - apply os_makedirs_frame in H3 as (He2 & _). simpl in He2.
    apply Popen_ok in H4 as (dir & _ & _ & ->).
    apply print_stdout_prints in H5 as (strs & -> & _).
    apply write_file_frame in H7 as [He7 _]. simpl in He7.
    exists (log_building w1 d :: EvSpawn create_cmd d :: map EvPrint strs ++ [log_built d]).
    rewrite He7, He2, He1, <- !app_assoc. split; [reflexivity |].
    right. simpl. now rewrite spawned_app, spawned_prints.
Qed.

(** X10. Whatever happens, [build_environment] starts at most one
    command, and it is always [conda create -y --file requirements.txt
    --prefix .conda-env/<fingerprint> python=3], started in the target
    directory: the prefix is the same relative path for every target
    directory and every current directory. *)
Theorem build_environment_commands self w :
  let d := Builder.data_dir self in
  let w' := snd (build self w) in
  create_cmd = Argv ["conda"; "create"; "-y"; "--file"; "requirements.txt";
                     "--prefix"; ".conda-env/" +:+ fingerprint; "python=3"] /\
  exists added,
    events w' = events w ++ added /\
    (spawned added = [] \/ spawned added = [(create_cmd, d)]).
Proof.
  intros d w'. split; [reflexivity |].
  apply (build_environment_trace d w (fst (build self w))).
  apply build_environment_outcome. apply surjective_pairing.
Qed.

(** The ways [build_environment] fails. *)
Lemma build_environment_raises self w e w' :
  build self w = (Raise e, w') ->
  (exists n, e = OSError n) \/
  e = UnicodeDecodeError \/
  (exists rc, rc <> 0%Z /\ e = CalledProcessError rc create_cmd /\
              List.last (events w') (EvPrint "") = log_failed).
Proof.
  intros H. apply build_environment_outcome in H.
  inversion H as
    [ e0 w1 H1 | | w1 e0 w2 H1 H2 H3 | w1 w2 e0 w3 H1 H2 H3 H4
    | w1 w2 p w3 e0 w4 H1 H2 H3 H4 H5 | w1 w2 p w3 w4 H1 H2 H3 H4 H5 H6
    | w1 w2 p w3 w4 e0 w5 H1 H2 H3 H4 H5 H6 H7 | ]; subst.
  - left. exact (write_file_oserror _ _ _ _ _ H1).
  - left. exact (os_makedirs_oserror _ _ _ _ H3).
  - left. exact (Popen_raises _ _ _ _ _ _ H4).
  - right. left. exact (print_stdout_raises _ _ _ _ _ H5).
  - right. right. exists (returncode p). split; [assumption |]. split; [reflexivity |].
    simpl. apply last_last.
  - left. exact (write_file_oserror _ _ _ _ _ H7).
Qed.

(** X11. The errors of [build_environment].  It never fails the way
    [run_snakefile] does on a builder without environment: the path it
    hands to [os.path.relpath] is never empty, so no [ValueError] and no
    [TypeError] leaves it.  A [CalledProcessError] it raises carries a
    status other than 0 and the creation command, and the command is the
    last thing logged. *)
Theorem build_environment_errors self w e w' :
  build self w = (Raise e, w') ->
  (forall msg, e <> ValueError msg /\ e <> TypeError msg) /\
  (forall rc cmd, e = CalledProcessError rc cmd ->
     rc <> 0%Z /\ cmd = create_cmd /\
     List.last (events w') (EvPrint "") = log_failed).
Proof.
  intros H. apply build_environment_raises in H.
  destruct H as [[n ->] | [-> | (rc & Hrc & -> & Hl)]].
  - split; [intros msg; split; discriminate | discriminate].
  - split; [intros msg; split; discriminate | discriminate].
  - split; [intros msg; split; discriminate |].
    intros rc' cmd [= <- <-]. auto.
Qed.

(** X12. Reuse is decided by the existence of the marker alone.  When
    anything is there under the name [.success], a directory or a file
    with contents as well, [build_environment] logs that it uses the
    existing environment and records its path; it starts no command,
    leaves the marker as it is, and the only location it writes is
    [requirements.txt] in the target directory. *)
Theorem marker_decides_reuse self w env n w1 :
  let d := Builder.data_dir self in
  dirloc w (env_dir d) = inr env ->
  fs w !! (".success" :: env) = Some n ->
  write_file (requirements_path d) manifest w = (Ok tt, w1) ->
  build self w = (Ok (built d), add_event w1 (log_reuse w d)) /\
  fs w1 !! (".success" :: env) = Some n /\
  (forall l, fs w1 !! l <> fs w !! l ->
     exists cur, dirloc w d = inr cur /\ l = "requirements.txt" :: cur).
Proof.
  intros d Henv Hmk H1.
  pose proof (write_file_frame _ _ _ _ _ H1) as [He1 Hg1].
  pose proof (dirloc_grows _ _ _ _ Hg1 Henv) as Henv1.
  change (requirements_path d) with (join2 d "requirements.txt") in H1.
  pose proof H1 as H1'.
  apply (write_file_ok w d "requirements.txt" manifest w1 eq_refl) in H1'
    as (cur & Hcur & _ & Hw1).
  assert (Hmk1 : fs w1 !! (".success" :: env) = Some n).
  { rewrite Hw1. simpl. rewrite lookup_insert_ne; [exact Hmk | congruence]. }
  split; [| split].
  - apply build_environment_outcome. fold d.
    replace (log_reuse w d) with (log_reuse w1 d)
      by (unfold log_reuse, os_path_abspath, os_getcwd; now rewrite Hw1).
    apply reused; [exact H1 |].
    change (marker_path d) with (join2 (env_dir d) ".success").
    now apply (os_path_exists_join2 _ _ _ env n).
  - exact Hmk1.
  - intros l Hl. exists cur. split; [exact Hcur |].
    destruct (decide (l = "requirements.txt" :: cur)) as [-> | Hne]; [reflexivity |].
    contradiction Hl. rewrite Hw1. simpl. now rewrite lookup_insert_ne.
Qed.

End BuildMore.

(** ** Joining the arguments *)

Lemma concat_space_token xs a b ys :
  String.concat " " (xs ++ (a +:+ " " +:+ b) :: ys) = String.concat " " (xs ++ a :: b :: ys).
Proof.
  induction xs as [|x xs IH].
  - simpl app. rewrite concat_cons2. destruct ys as [|y ys].
    + reflexivity.
    + rewrite !concat_cons2. now rewrite !append_assoc.
  - simpl app.
    destruct (xs ++ (a +:+ " " +:+ b) :: ys) as [|u us] eqn:E1;
      [now destruct xs |].
    destruct (xs ++ a :: b :: ys) as [|v vs] eqn:E2; [now destruct xs |].
    rewrite !concat_cons2. now rewrite IH.
Qed.

(** X7. The tokens are not quoted.  Anywhere in the list of arguments,
    one token with a space in it makes [run_snakefile] do exactly what the
    two tokens around the space make it do. *)
Theorem tokens_are_not_quoted exec decode self xs a b ys w :
  Builder.run_snakefile exec decode self (PyList (xs ++ (a +:+ " " +:+ b) :: ys)) w =
  Builder.run_snakefile exec decode self (PyList (xs ++ a :: b :: ys)) w.
Proof.
  unfold Builder.run_snakefile, space_join, iterate.
  now rewrite concat_space_token.
Qed.

(** ** main *)

Section Main.

Variable resource_string : string -> string -> list byte.
Variable exec : command -> loc -> gmap loc node -> option process.
Variable decode : list byte -> option string.

Local Abbreviation build := (Builder.build_environment resource_string exec decode).
Local Abbreviation write_snakefile := (Builder.write_snakefile resource_string).
Local Abbreviation run := (Builder.run_snakefile exec decode).
Local Abbreviation main := (Builder.main resource_string exec decode).
Local Abbreviation outcome := (build_outcome resource_string exec decode).
Local Abbreviation manifest := (manifest resource_string).
Local Abbreviation snakefile := (snakefile resource_string).
Local Abbreviation fingerprint := (fingerprint resource_string).
Local Abbreviation env_dir := (env_dir resource_string).
Local Abbreviation marker_path := (marker_path resource_string).
Local Abbreviation create_cmd := (create_cmd resource_string).
Local Abbreviation run_cmd := (run_cmd resource_string).
Local Abbreviation built := (built resource_string).
Local Abbreviation log_building := (log_building resource_string).
Local Abbreviation log_built := (log_built resource_string).
Local Abbreviation log_failed := (log_failed resource_string).

Lemma main_unfold d extra w :
  main d extra w =
  match Builder.__init__ d w with
  | (Raise e, w1) => (Raise e, w1)
  | (Ok b, w1) =>
      match build b w1 with
      | (Raise e, w2) => (Raise e, w2)
      | (Ok b', w2) =>
          match write_snakefile b' w2 with
          | (Raise e, w3) => (Raise e, w3)
          | (Ok _, w3) => run b' (PyList extra) w3
          end
      end
  end.
Proof.
  unfold Builder.main, bind.
  destruct (Builder.__init__ d w) as [[b|e] w1]; [| reflexivity].
  destruct (build b w1) as [[b'|e] w2]; [| reflexivity].
  destruct (write_snakefile b' w2) as [[s|e] w3]; reflexivity.
Qed.

Lemma init_existing d w :
  os_path_exists w d = true ->
  Builder.__init__ d w = (Ok {| Builder.data_dir := d; Builder.env_path := None |}, w).
Proof. intros H. unfold Builder.__init__. now rewrite H. Qed.

Lemma init_trace d w r w' :
  Builder.__init__ d w = (r, w') ->
  (forall b, r = Ok b -> Builder.data_dir b = d) /\
  exists added, events w' = events w ++ added /\ spawned added = [].
Proof.
  unfold Builder.__init__. destruct (os_path_exists w d); simpl.
  - unfold ret. intros H. inversion H; subst. split; [now intros b [= <-] |].
    exists []. now rewrite app_nil_r.
  - unfold bind, logger_info. rewrite emit_spec.
    destruct (os_makedirs d _) as [[[]|e] w1] eqn:E;
      apply os_makedirs_frame in E as (He & _); simpl in He;
      intros H; inversion H; subst.
    + split; [now intros b [= <-] |]. now exists [EvLog INFO "Creating %s" (ArgStr d)].
    + split; [discriminate |]. now exists [EvLog INFO "Creating %s" (ArgStr d)].
Qed.

Lemma run_snakefile_trace self args w r w' :
  let d := Builder.data_dir self in
  Builder.env_path self = Some (env_dir d) ->
  run self args w = (r, w') ->
  exists added,
    events w' = events w ++ added /\
    (spawned added = [] \/ spawned added = [(run_cmd args, d)]).
Proof.
  intros d Henv. rewrite (run_snakefile_built resource_string exec decode self args w Henv).
  fold d.
  destruct (Builder.Popen exec (run_cmd args) d (add_event w (log_running d)))
    as [[p|e] w2] eqn:E2.
  - apply Popen_ok in E2 as (dir & _ & _ & ->).
    destruct (Builder.print_stdout decode (stdout p) _) as [r3 w3] eqn:E3.
    apply print_stdout_prints in E3 as (strs & -> & Hr). simpl.
    destruct Hr as [-> | ->].
    + destruct (returncode p =? 0)%Z; intros H; inversion H; subst; simpl.
      * exists (log_running d :: EvSpawn (run_cmd args) d :: map EvPrint strs).
        rewrite <- !app_assoc. split; [reflexivity |].
        right. simpl. now rewrite spawned_prints.
      * exists (log_running d :: EvSpawn (run_cmd args) d :: map EvPrint strs
                  ++ [log_run_failed resource_string args]).
        rewrite <- !app_assoc. split; [reflexivity |].
        right. simpl. now rewrite spawned_app, spawned_prints.
    + intros H; inversion H; subst; simpl.
      exists (log_running d :: EvSpawn (run_cmd args) d :: map EvPrint strs).
      rewrite <- !app_assoc. split; [reflexivity |].
      right. simpl. now rewrite spawned_prints.
  - apply Popen_raise in E2 as ->. intros H; inversion H; subst.
    exists [log_running d]. split; [reflexivity | now left].
Qed.

Lemma outcome_built d w b w' : outcome d w (Ok b) w' -> b = built d.
Proof. intros H. now inversion H. Qed.

Lemma write_snakefile_inv self w s w' :
  write_snakefile self w = (Ok s, w') ->
  write_file (join2 (Builder.data_dir self) "Snakefile") snakefile w = (Ok tt, w').
Proof.
  unfold Builder.write_snakefile, bind.
  change (os_path_join (Builder.data_dir self) ["Snakefile"])
    with (join2 (Builder.data_dir self) "Snakefile").
  destruct (write_file _ _ w) as [[[]|e] w1]; [| discriminate].
  unfold ret. intros H. now inversion H.
Qed.

Lemma write_snakefile_events self w r w' :
  write_snakefile self w = (r, w') -> events w' = events w.
Proof.
  unfold Builder.write_snakefile, bind.
  destruct (write_file _ _ w) as [[[]|e] w1] eqn:E;
    apply write_file_frame in E as [He _]; unfold ret; intros H; now inversion H; subst.
Qed.

(** X13. The commands of [main].  Whatever happens, [main] starts at
    most two commands, in this order: the creation command, if at all,
    and then the shell line that activates the environment and runs
    snakemake with the extra arguments, both in the target directory. *)
Theorem main_commands d extra w :
  let w' := snd (main d extra w) in
  exists added,
    events w' = events w ++ added /\
    (spawned added = [] \/
     spawned added = [(create_cmd, d)] \/
     spawned added = [(run_cmd (PyList extra), d)] \/
     spawned added = [(create_cmd, d); (run_cmd (PyList extra), d)]).
Proof.
  intros w'. subst w'. rewrite main_unfold.
  destruct (Builder.__init__ d w) as [r1 w1] eqn:E1.
  apply init_trace in E1 as (Hb & a1 & He1 & Hs1).
  destruct r1 as [b|e]; simpl.
  2:{ exists a1. split; [exact He1 | now left]. }
  specialize (Hb b eq_refl).
  destruct (build b w1) as [r2 w2] eqn:E2.
  apply build_environment_outcome in E2. rewrite Hb in E2.
  pose proof (build_environment_trace _ _ _ _ _ _ _ E2) as (a2 & He2 & Hs2).
  destruct r2 as [b'|e]; simpl.
  2:{ exists (a1 ++ a2). rewrite He2, He1, <- app_assoc. split; [reflexivity |].
      rewrite spawned_app, Hs1. simpl. destruct Hs2 as [-> | ->]; auto. }
  apply outcome_built in E2 as ->.
  destruct (write_snakefile (built d) w2) as [r3 w3] eqn:E3.
  apply write_snakefile_events in E3.
  destruct r3 as [s|e]; simpl.
  2:{ exists (a1 ++ a2). rewrite E3, He2, He1, <- app_assoc. split; [reflexivity |].
      rewrite spawned_app, Hs1. simpl. destruct Hs2 as [-> | ->]; auto. }
  destruct (run (built d) (PyList extra) w3) as [r4 w4] eqn:E4.
  apply (run_snakefile_trace (built d) (PyList extra) w3 r4 w4 eq_refl) in E4
    as (a4 & He4 & Hs4).
  simpl in Hs4. simpl.
  exists (a1 ++ a2 ++ a4). rewrite He4, E3, He2, He1, <- !app_assoc.
  split; [reflexivity |].
  rewrite !spawned_app, Hs1. simpl.
  destruct Hs2 as [-> | ->], Hs4 as [-> | ->]; simpl; auto.
Qed.

(** X14. What [main] hands to the workflow runner.  With a package
    manager that only adds files, every run of [main] either raises before
    the runner is reached, having started at most the creation command, or
    ends with [run_snakefile] called in a world where the target directory
    holds the copy of the manifest, the [.success] marker of the
    environment and the bundled [Snakefile]. *)
Theorem main_prepares_directory d extra w r w' :
  exec_preserves exec ->
  main d extra w = (r, w') ->
  (exists e added,
      r = Raise e /\ events w' = events w ++ added /\
      (spawned added = [] \/ spawned added = [(create_cmd, d)])) \/
  (exists w3,
      run (built d) (PyList extra) w3 = (r, w') /\
      has_copy w3 d "requirements.txt" manifest /\
      os_path_exists w3 (marker_path d) = true /\
      has_copy w3 d "Snakefile" snakefile).
Proof.
  intros Hp. rewrite main_unfold.
  destruct (Builder.__init__ d w) as [r1 w1] eqn:E1.
  apply init_trace in E1 as (Hb & a1 & He1 & Hs1).
  destruct r1 as [b|e].
  2:{ intros H. inversion H; subst. left. exists e, a1. auto. }
  specialize (Hb b eq_refl).
  destruct (build b w1) as [r2 w2] eqn:E2.
  apply build_environment_outcome in E2. rewrite Hb in E2.
  pose proof (build_environment_trace _ _ _ _ _ _ _ E2) as (a2 & He2 & Hs2).
  assert (Hs12 : spawned (a1 ++ a2) = [] \/ spawned (a1 ++ a2) = [(create_cmd, d)]).
  { rewrite spawned_app, Hs1. exact Hs2. }
  destruct r2 as [b'|e].
  2:{ intros H. inversion H; subst. left. exists e, (a1 ++ a2).
      rewrite He2, He1, <- app_assoc. auto. }
  destruct (outcome_ok _ _ _ _ _ _ _ Hp E2) as (-> & Hc2 & Hm2).
  destruct (write_snakefile (built d) w2) as [r3 w3] eqn:E3.
  pose proof (write_snakefile_events _ _ _ _ E3) as He3.
  destruct r3 as [s|e].
  2:{ intros H. inversion H; subst. left. exists e, (a1 ++ a2).
      rewrite He3, He2, He1, <- app_assoc. auto. }
  apply write_snakefile_inv in E3. simpl in E3.
  intros H. right. exists w3. split; [exact H |]. split; [| split].
  - refine (has_copy_other_write w2 d "requirements.txt" manifest d "Snakefile" _ w3
              eq_refl _ E3 Hc2). discriminate.
  - apply (os_path_exists_grows w2); [| exact Hm2].
    apply write_file_frame in E3. tauto.
  - exact (has_copy_written w2 d "Snakefile" snakefile w3 eq_refl E3).
Qed.

(** X15. A first run of [main] in a target directory that exists and
    has no environment yet, with a creation command and a runner that
    both exit with status 0.  [main] returns; the runner was started on a
    file system that holds [requirements.txt] with the manifest, the empty
    [.success] in [.conda-env/<fingerprint>] and [Snakefile] in the target
    directory, and the trace is that of the build followed by that of the
    run. *)
Theorem main_first_run d extra w cur p strs q strs' :
  let env := fingerprint :: ".conda-env" :: cur in
  let m := <[env := Dir]>
             (<[".conda-env" :: cur := Dir]>
                (<["requirements.txt" :: cur := File manifest]> (fs w))) in
  let m' := <["Snakefile" :: cur := File snakefile]>
              (<[".success" :: env := File []]> (fs_after p)) in
  os_stat w d = inr (cur, Dir) ->
  fs w !! ("requirements.txt" :: cur) <> Some Dir ->
  fs w !! (".conda-env" :: cur) = None \/ fs w !! (".conda-env" :: cur) = Some Dir ->
  fs w !! env = None ->
  exec create_cmd cur m = Some p ->
  decoded decode (stdout p) strs ->
  returncode p = 0%Z ->
  m ⊆ fs_after p ->
  fs_after p !! (".success" :: env) <> Some Dir ->
  fs_after p !! ("Snakefile" :: cur) <> Some Dir ->
  exec (run_cmd (PyList extra)) cur m' = Some q ->
  decoded decode (stdout q) strs' ->
  returncode q = 0%Z ->
  main d extra w =
    (Ok tt,
     {| fs := fs_after q; cwd := cwd w;
        events := events w
                    ++ log_building w d :: EvSpawn create_cmd d :: map EvPrint strs
                    ++ log_built d :: log_running d
                    :: EvSpawn (run_cmd (PyList extra)) d :: map EvPrint strs' |}) /\
  m' !! ("requirements.txt" :: cur) = Some (File manifest) /\
  m' !! (".success" :: env) = Some (File []) /\
  m' !! ("Snakefile" :: cur) = Some (File snakefile).
Proof.
  intros env m m' Hd Hreq Hce Henv Hexec Hdec Hrc Hsub Hmk Hsf Hexec' Hdec' Hrc'.
  assert (Hlen : forall (a b c : string) (l : loc), a :: l <> b :: c :: l).
  { intros a b c l H. apply (f_equal length) in H. simpl in H. lia. }
  assert (Hlen3 : forall (a b c e : string) (l : loc), a :: l <> b :: c :: e :: l).
  { intros a b c e l H. apply (f_equal length) in H. simpl in H. lia. }
  split; [| split; [| split]].
  - pose (self := {| Builder.data_dir := d; Builder.env_path := None |}).
    pose (w2 := {| fs := <[".success" :: env := File []]> (fs_after p); cwd := cwd w;
                   events := events w ++ log_building w d :: EvSpawn create_cmd d
                               :: map EvPrint strs ++ [log_built d] |}).
    assert (Hi : Builder.__init__ d w = (Ok self, w)).
    { apply init_existing. unfold os_path_exists. now rewrite Hd. }
    assert (Hb : build self w = (Ok (built d), w2)).
    { exact (build_fresh_returns resource_string exec decode self w cur p strs
               Hd Hreq Hce Henv Hexec Hdec Hrc Hsub Hmk). }
    assert (Hd2 : dirloc w2 d = inr cur).
    { destruct (build_environment_fresh resource_string exec decode self w cur p
                  Hd Hreq Hce Henv Hexec) as [Hdm _].
      apply (dirloc_shape_le (with_fs w m)); [reflexivity | | exact Hdm].
      apply (shape_le_trans _ (fs_after p)); [now apply subseteq_shape_le |].
      now apply shape_le_insert_file. }
    assert (Hl : fs w2 !! ("Snakefile" :: cur) <> Some Dir).
    { unfold w2. simpl. rewrite lookup_insert_ne; [exact Hsf | apply not_eq_sym, Hlen3]. }
    assert (Hf2 : <["Snakefile" :: cur := File snakefile]> (fs w2) = m') by reflexivity.
    assert (Hc2 : cwd w2 = cwd w) by reflexivity.
    assert (He2 : events w2 = events w ++ log_building w d :: EvSpawn create_cmd d
                                :: map EvPrint strs ++ [log_built d]) by reflexivity.
    clearbody w2 self.
    pose (w3 := with_fs w2 (<["Snakefile" :: cur := File snakefile]> (fs w2))).
    assert (E3 : write_snakefile (built d) w2 = (Ok (snakefile_path d), w3)).
    { rewrite write_snakefile_unfold. simpl Builder.data_dir. rewrite Hd2.
      destruct (fs w2 !! ("Snakefile" :: cur)) as [[]|]; try reflexivity.
      now contradiction Hl. }
    assert (Hd3 : os_stat (add_event w3 (log_running d)) d = inr (cur, Dir)).
    { apply dirloc_exists; [intros E; rewrite E in Hd; discriminate Hd |].
      apply (dirloc_shape_le w2); [reflexivity | | exact Hd2].
      now apply shape_le_insert_file. }
    assert (Hx3 : exec (run_cmd (PyList extra)) cur (fs (add_event w3 (log_running d)))
                  = Some q).
    { simpl. rewrite Hf2. exact Hexec'. }
    assert (E4 : run (built d) (PyList extra) w3 =
                 (Ok tt,
                  {| fs := fs_after q; cwd := cwd w;
                     events := events w
                       ++ log_building w d :: EvSpawn create_cmd d :: map EvPrint strs
                       ++ log_built d :: log_running d
                       :: EvSpawn (run_cmd (PyList extra)) d :: map EvPrint strs' |})).
    { rewrite (run_snakefile_built resource_string exec decode (built d) (PyList extra)
                 w3 eq_refl).
      simpl Builder.data_dir.
      rewrite (Popen_run exec _ d (add_event w3 (log_running d)) cur q Hd3 Hx3).
      rewrite (print_stdout_decoded decode _ strs' _ Hdec'), Hrc'. simpl.
      rewrite Hc2, He2, <- !app_assoc. simpl. rewrite <- !app_assoc. reflexivity. }
    clearbody w3.
    rewrite main_unfold, Hi, Hb, E3. exact E4.
  - unfold m'. rewrite lookup_insert_ne by discriminate.
    rewrite lookup_insert_ne by apply not_eq_sym, Hlen3.
    apply (lookup_weaken m); [| exact Hsub].
    unfold m. rewrite lookup_insert_ne by apply not_eq_sym, Hlen.
    rewrite lookup_insert_ne by discriminate. apply lookup_insert_eq.
  - unfold m'. rewrite lookup_insert_ne by apply Hlen3. apply lookup_insert_eq.
  - apply lookup_insert_eq.
Qed.

(** X18. A later run of [main], in a target directory whose environment
    has its marker: nothing is built.  [main] rewrites [requirements.txt]
    and [Snakefile], logs that it uses the existing environment, and the
    only command it starts is the runner. *)
Theorem main_later_run d extra w cur n q strs :
  let env := fingerprint :: ".conda-env" :: cur in
  let m := <["Snakefile" :: cur := File snakefile]>
             (<["requirements.txt" :: cur := File manifest]> (fs w)) in
  os_stat w d = inr (cur, Dir) ->
  fs w !! ("requirements.txt" :: cur) <> Some Dir ->
  fs w !! ("Snakefile" :: cur) <> Some Dir ->
  fs w !! (".conda-env" :: cur) = Some Dir ->
  fs w !! env = Some Dir ->
  fs w !! (".success" :: env) = Some n ->
  exec (run_cmd (PyList extra)) cur m = Some q ->
  decoded decode (stdout q) strs ->
  returncode q = 0%Z ->
  main d extra w =
    (Ok tt,
     {| fs := fs_after q; cwd := cwd w;
        events := events w
                    ++ log_reuse resource_string w d :: log_running d
                    :: EvSpawn (run_cmd (PyList extra)) d :: map EvPrint strs |}).
Proof.
  intros env m Hd Hreq Hsf Hce Henv Hmk Hexec Hdec Hrc.
  assert (Hlen3 : forall (a b c e : string) (l : loc), a :: l <> b :: c :: e :: l).
  { intros a b c e l H. apply (f_equal length) in H. simpl in H. lia. }
  pose proof (os_stat_dirloc _ _ _ Hd) as Hdl.
  pose (self := {| Builder.data_dir := d; Builder.env_path := None |}).
  assert (Hi : Builder.__init__ d w = (Ok self, w)).
  { apply init_existing. unfold os_path_exists. now rewrite Hd. }
  pose (w1 := with_fs w (<["requirements.txt" :: cur := File manifest]> (fs w))).
  assert (H1 : write_file (requirements_path d) manifest w = (Ok tt, w1)).
  { change (requirements_path d) with (join2 d "requirements.txt").
    rewrite (write_file_join2 w d "requirements.txt" manifest eq_refl), Hdl, set_fs_spec.
    destruct (fs w !! ("requirements.txt" :: cur)) as [[]|]; try reflexivity.
    now contradiction Hreq. }
  assert (Hg1 : grows w w1) by (apply write_file_frame in H1; tauto).
  assert (Hde : dirloc w (env_dir d) = inr env).
  { change (env_dir d) with (join2 (join2 d ".conda-env") fingerprint).
    rewrite (dirloc_join2 _ _ _ (fingerprint_is_name resource_string)).
    rewrite (dirloc_join2 w d ".conda-env" eq_refl), Hdl, Hce.
    fold env. now rewrite Henv. }
  assert (Hm : os_path_exists w1 (marker_path d) = true).
  { change (marker_path d) with (join2 (env_dir d) ".success").
    apply (os_path_exists_join2 w1 (env_dir d) ".success" env n eq_refl
             (dirloc_grows _ _ _ _ Hg1 Hde)).
    unfold w1. simpl. rewrite lookup_insert_ne; [exact Hmk | apply Hlen3]. }
  pose (w2 := add_event w1 (log_reuse resource_string w1 d)).
  assert (Hb : build self w = (Ok (built d), w2)).
  { apply build_environment_outcome. now apply reused. }
  assert (Hd2 : dirloc w2 d = inr cur) by exact (dirloc_grows _ _ _ _ Hg1 Hdl).
  assert (Hl : fs w2 !! ("Snakefile" :: cur) <> Some Dir).
  { unfold w2, w1. simpl. rewrite lookup_insert_ne; [exact Hsf | discriminate]. }
  assert (Hf2 : <["Snakefile" :: cur := File snakefile]> (fs w2) = m) by reflexivity.
  assert (Hc2 : cwd w2 = cwd w) by reflexivity.
  assert (He2 : events w2 = events w ++ [log_reuse resource_string w d]) by reflexivity.
  clearbody w2 self.
  pose (w3 := with_fs w2 (<["Snakefile" :: cur := File snakefile]> (fs w2))).
  assert (E3 : write_snakefile (built d) w2 = (Ok (snakefile_path d), w3)).
  { rewrite write_snakefile_unfold. simpl Builder.data_dir. rewrite Hd2.
    destruct (fs w2 !! ("Snakefile" :: cur)) as [[]|]; try reflexivity.
    now contradiction Hl. }
  assert (Hd3 : os_stat (add_event w3 (log_running d)) d = inr (cur, Dir)).
  { apply dirloc_exists; [intros E; rewrite E in Hd; discriminate Hd |].
    apply (dirloc_shape_le w2); [reflexivity | | exact Hd2].
    now apply shape_le_insert_file. }
  assert (Hx3 : exec (run_cmd (PyList extra)) cur (fs (add_event w3 (log_running d)))
                = Some q).
  { simpl. rewrite Hf2. exact Hexec. }
  rewrite main_unfold, Hi, Hb, E3.
  rewrite (run_snakefile_built resource_string exec decode (built d) (PyList extra)
             w3 eq_refl).
  simpl Builder.data_dir.
  rewrite (Popen_run exec _ d (add_event w3 (log_running d)) cur q Hd3 Hx3).
  rewrite (print_stdout_decoded decode _ strs _ Hdec), Hrc. simpl.
  rewrite Hc2, He2, <- !app_assoc. reflexivity.
Qed.

(** X16. When the creation command exits with a status other than 0,
    [main] raises the [CalledProcessError] of [build_environment] and
    stops there: the file system is the one the command left, so that no
    [Snakefile] has been written, and the runner is never started. *)
Theorem main_stops_at_failed_creation d extra w cur p strs :
  let env := fingerprint :: ".conda-env" :: cur in
  let m := <[env := Dir]>
             (<[".conda-env" :: cur := Dir]>
                (<["requirements.txt" :: cur := File manifest]> (fs w))) in
  os_stat w d = inr (cur, Dir) ->
  fs w !! ("requirements.txt" :: cur) <> Some Dir ->
  fs w !! (".conda-env" :: cur) = None \/ fs w !! (".conda-env" :: cur) = Some Dir ->
  fs w !! env = None ->
  exec create_cmd cur m = Some p ->
  decoded decode (stdout p) strs ->
  returncode p <> 0%Z ->
  main d extra w =
    (Raise (CalledProcessError (returncode p) create_cmd),
     {| fs := fs_after p; cwd := cwd w;
        events := events w ++ log_building w d :: EvSpawn create_cmd d
                    :: map EvPrint strs ++ [log_failed] |}).
Proof.
  intros env m Hd Hreq Hce Henv Hexec Hdec Hrc.
  rewrite main_unfold.
  rewrite init_existing by (unfold os_path_exists; now rewrite Hd).
  destruct (build_environment_fresh resource_string exec decode
              {| Builder.data_dir := d; Builder.env_path := None |} w cur p
              Hd Hreq Hce Henv Hexec) as [_ Hb].
  simpl Builder.data_dir in Hb. rewrite Hb.
  rewrite (print_stdout_decoded decode _ strs _ Hdec).
  apply Z.eqb_neq in Hrc. rewrite Hrc. unfold add_event. simpl.
  now rewrite <- !app_assoc.
Qed.

(** X17. A regular file given as the target directory.  The
    constructor accepts it, because the path exists; the failure shows
    later: [build_environment], [write_snakefile] and [main] raise
    [NotADirectoryError] when they open a file under it, and change
    nothing. *)
Theorem target_is_a_file d extra w l data :
  let self := {| Builder.data_dir := d; Builder.env_path := None |} in
  os_stat w d = inr (l, File data) ->
  Builder.__init__ d w = (Ok self, w) /\
  build self w = (Raise (OSError ENOTDIR), w) /\
  write_snakefile self w = (Raise (OSError ENOTDIR), w) /\
  main d extra w = (Raise (OSError ENOTDIR), w).
Proof.
  intros self Hd.
  assert (Hne : d <> "") by (intros E; rewrite E in Hd; discriminate Hd).
  assert (Hdl : dirloc w d = inl ENOTDIR) by (now rewrite (dirloc_os_stat w d Hne), Hd).
  assert (Hi : Builder.__init__ d w = (Ok self, w)).
  { apply init_existing. unfold os_path_exists. now rewrite Hd. }
  assert (Hb : build self w = (Raise (OSError ENOTDIR), w)).
  { rewrite build_environment_unfold. simpl Builder.data_dir.
    change (requirements_path d) with (join2 d "requirements.txt").
    now rewrite (write_file_join2 w d "requirements.txt" _ eq_refl), Hdl. }
  split; [exact Hi |]. split; [exact Hb |]. split.
  - rewrite write_snakefile_unfold. simpl Builder.data_dir. now rewrite Hdl.
  - rewrite main_unfold, Hi. fold self. now rewrite Hb.
Qed.

End Main.

(** ** The further properties on the scenario *)

Lemma run_snakefile_returns_witness :
  let self := built Scenario.bundled "./data" in
  let exec := Tools.says Tools.progress 0 in
  os_stat Scenario.fresh "./data" = inr (["data"; "home"], Dir) /\
  decoded Scenario.text Tools.progress ["Building DAG of jobs..."; "Nothing to be done"] /\
  Builder.run_snakefile exec Scenario.text self (PyList ["-n"]) Scenario.fresh =
    (Ok tt,
     {| fs := fs Scenario.fresh; cwd := ["home"];
        events := events Scenario.fresh
                    ++ [log_running "./data";
                        EvSpawn (run_cmd Scenario.bundled (PyList ["-n"])) "./data";
                        EvPrint "Building DAG of jobs...";
                        EvPrint "Nothing to be done"] |}).
Proof.
  intros self exec.
  assert (Hd : os_stat Scenario.fresh "./data" = inr (["data"; "home"], Dir))
    by (vm_compute; reflexivity).
  assert (Hdec : decoded Scenario.text Tools.progress
                   ["Building DAG of jobs..."; "Nothing to be done"])
    by (repeat constructor).
  split; [exact Hd |]. split; [exact Hdec |].
  exact (run_snakefile_returns Scenario.bundled exec Scenario.text self (PyList ["-n"])
           Scenario.fresh ["data"; "home"]
           {| stdout := Tools.progress; returncode := 0; fs_after := fs Scenario.fresh |}
           _ eq_refl Hd eq_refl Hdec eq_refl).
Defined.

Lemma run_snakefile_fails_witness :
  let self := built Scenario.bundled "./data" in
  let exec := Tools.says Tools.progress 2 in
  fst (Builder.run_snakefile exec Scenario.text self (PyList ["-n"]) Scenario.fresh) =
    Raise (CalledProcessError 2 (run_cmd Scenario.bundled (PyList ["-n"]))).
Proof.
  intros self exec.
  assert (Hd : os_stat Scenario.fresh "./data" = inr (["data"; "home"], Dir))
    by (vm_compute; reflexivity).
  assert (Hdec : decoded Scenario.text Tools.progress
                   ["Building DAG of jobs..."; "Nothing to be done"])
    by (repeat constructor).
  assert (Hrc : (2 <> 0)%Z) by lia.
  rewrite (run_snakefile_fails Scenario.bundled exec Scenario.text self (PyList ["-n"])
             Scenario.fresh ["data"; "home"]
             {| stdout := Tools.progress; returncode := 2; fs_after := fs Scenario.fresh |}
             _ eq_refl Hd eq_refl Hdec Hrc).
  reflexivity.
Defined.

Lemma run_snakefile_undecodable_witness :
  let self := built Scenario.bundled "./data" in
  let exec := Tools.says Tools.garbled 0 in
  Tools.ascii (removelast [xff; x0a]) = None /\
  Builder.run_snakefile exec Tools.ascii self (PyList []) Scenario.fresh =
    (Raise UnicodeDecodeError,
     {| fs := fs Scenario.fresh; cwd := ["home"];
        events := events Scenario.fresh
                    ++ [log_running "./data";
                        EvSpawn (run_cmd Scenario.bundled (PyList [])) "./data";
                        EvPrint "ok"] |}).
Proof.
  intros self exec.
  assert (Hd : os_stat Scenario.fresh "./data" = inr (["data"; "home"], Dir))
    by (vm_compute; reflexivity).
  assert (Hdec : decoded Tools.ascii [list_byte_of_string ("ok" +:+ Scenario.nl)] ["ok"])
    by (repeat constructor).
  split; [reflexivity |].
  exact (run_snakefile_undecodable Scenario.bundled exec Tools.ascii self (PyList [])
           Scenario.fresh ["data"; "home"]
           {| stdout := Tools.garbled; returncode := 0; fs_after := fs Scenario.fresh |}
           [list_byte_of_string ("ok" +:+ Scenario.nl)] [xff; x0a]
           [list_byte_of_string ("more" +:+ Scenario.nl)] ["ok"]
           eq_refl Hd eq_refl eq_refl Hdec eq_refl).
Defined.

Lemma write_snakefile_writes_witness :
  os_stat Scenario.fresh "./data" = inr (["data"; "home"], Dir) /\
  fs Scenario.fresh !! ["Snakefile"; "data"; "home"] = None /\
  fst (Builder.write_snakefile Scenario.bundled Scenario.builder Scenario.fresh)
    = Ok "./data/Snakefile" /\
  has_copy (snd (Builder.write_snakefile Scenario.bundled Scenario.builder Scenario.fresh))
    "./data" "Snakefile" (snakefile Scenario.bundled).
Proof.
  assert (Hd : os_stat Scenario.fresh "./data" = inr (["data"; "home"], Dir))
    by (vm_compute; reflexivity).
  assert (Hn : fs Scenario.fresh !! ["Snakefile"; "data"; "home"] = None)
    by (vm_compute; reflexivity).
  assert (Hno : fs Scenario.fresh !! ["Snakefile"; "data"; "home"] <> Some Dir)
    by (rewrite Hn; discriminate).
  destruct (write_snakefile_writes Scenario.bundled Scenario.builder Scenario.fresh
              ["data"; "home"] Hd Hno) as (Hw & _ & Hc & _).
  split; [exact Hd |]. split; [exact Hn |]. rewrite Hw. split; [reflexivity | exact Hc].
Defined.

Lemma write_snakefile_fails_witness :
  let r := Builder.write_snakefile Scenario.bundled Scenario.builder Scenario.home in
  r = (Raise (OSError ENOENT), Scenario.home) /\
  dirloc Scenario.home "./data" = inl ENOENT.
Proof.
  intros r.
  assert (H : r = (Raise (OSError ENOENT), Scenario.home)) by (vm_compute; reflexivity).
  split; [exact H |].
  destruct (write_snakefile_fails Scenario.bundled Scenario.builder Scenario.home
              (OSError ENOENT) Scenario.home H) as [_ [(n & Hn & Hdl) | (_ & cur & Hdl & _)]].
  - inversion Hn; subst. exact Hdl.
  - vm_compute in Hdl. discriminate Hdl.
Defined.

Lemma build_environment_builds_witness :
  let cur := ["data"; "home"] in
  let env := fingerprint Scenario.bundled :: ".conda-env" :: cur in
  let m := <[env := Dir]>
             (<[".conda-env" :: cur := Dir]>
                (<["requirements.txt" :: cur := File (manifest Scenario.bundled)]>
                   (fs Scenario.fresh))) in
  let p := {| stdout := [list_byte_of_string ("Solving environment: done" +:+ Scenario.nl)];
              returncode := 0;
              fs_after := <["conda-meta" :: env := Dir]> m |} in
  Scenario.conda 0 (create_cmd Scenario.bundled) cur m = Some p /\
  m ⊆ fs_after p /\
  Builder.build_environment Scenario.bundled (Scenario.conda 0) Scenario.text
    Scenario.builder Scenario.fresh =
    (Ok (built Scenario.bundled "./data"),
     {| fs := <[".success" :: env := File []]> (fs_after p);
        cwd := ["home"];
        events := events Scenario.fresh
                    ++ log_building Scenario.bundled Scenario.fresh "./data"
                    :: EvSpawn (create_cmd Scenario.bundled) "./data"
                    :: map EvPrint ["Solving environment: done"]
                    ++ [log_built Scenario.bundled "./data"] |}).
Proof.
  intros cur env m p.
  assert (Hd : os_stat Scenario.fresh "./data" = inr (cur, Dir)) by (vm_compute; reflexivity).
  assert (He : Scenario.conda 0 (create_cmd Scenario.bundled) cur m = Some p)
    by (vm_compute; reflexivity).
  assert (Hsub : m ⊆ fs_after p).
  { apply insert_subseteq. vm_compute. reflexivity. }
  split; [exact He |]. split; [exact Hsub |].
  apply (build_environment_builds Scenario.bundled (Scenario.conda 0) Scenario.text
           Scenario.builder Scenario.fresh cur p ["Solving environment: done"]).
  - exact Hd.
  - vm_compute. discriminate.
  - left. vm_compute. reflexivity.
  - vm_compute. reflexivity.
  - exact He.
  - repeat constructor.
  - reflexivity.
  - exact Hsub.
  - vm_compute. discriminate.
Defined.

Lemma build_environment_undecodable_witness :
  let cur := ["data"; "home"] in
  let env := fingerprint Scenario.bundled :: ".conda-env" :: cur in
  let m := <[env := Dir]>
             (<[".conda-env" :: cur := Dir]>
                (<["requirements.txt" :: cur := File (manifest Scenario.bundled)]>
                   (fs Scenario.fresh))) in
  Builder.build_environment Scenario.bundled (Tools.says Tools.garbled 0) Tools.ascii
    Scenario.builder Scenario.fresh =
    (Raise UnicodeDecodeError,
     {| fs := m; cwd := ["home"];
        events := events Scenario.fresh
                    ++ [log_building Scenario.bundled Scenario.fresh "./data";
                        EvSpawn (create_cmd Scenario.bundled) "./data";
                        EvPrint "ok"] |}) /\
  m !! (".success" :: env) = None.
Proof.
  intros cur env m.
  assert (Hd : os_stat Scenario.fresh "./data" = inr (cur, Dir)) by (vm_compute; reflexivity).
  assert (Hdec : decoded Tools.ascii [list_byte_of_string ("ok" +:+ Scenario.nl)] ["ok"])
    by (repeat constructor).
  split; [| vm_compute; reflexivity].
  apply (build_environment_undecodable Scenario.bundled (Tools.says Tools.garbled 0)
           Tools.ascii Scenario.builder Scenario.fresh cur
           {| stdout := Tools.garbled; returncode := 0; fs_after := m |}
           [list_byte_of_string ("ok" +:+ Scenario.nl)] [xff; x0a]
           [list_byte_of_string ("more" +:+ Scenario.nl)] ["ok"]).
  - exact Hd.
  - vm_compute. discriminate.
  - left. vm_compute. reflexivity.
  - vm_compute. reflexivity.
  - reflexivity.
  - reflexivity.
  - exact Hdec.
  - reflexivity.
Defined.

Lemma build_environment_errors_witness :
  let run := Builder.build_environment Scenario.bundled (Scenario.conda 1) Scenario.text
               Scenario.builder Scenario.fresh in
  run = (Raise (CalledProcessError 1 (create_cmd Scenario.bundled)), snd run) /\
  List.last (events (snd run)) (EvPrint "") = log_failed Scenario.bundled.
Proof.
  intros run.
  assert (H : run = (Raise (CalledProcessError 1 (create_cmd Scenario.bundled)), snd run))
    by (vm_compute; reflexivity).
  split; [exact H |].
  destruct (build_environment_errors Scenario.bundled (Scenario.conda 1) Scenario.text
              Scenario.builder Scenario.fresh _ _ H) as [_ Hc].
  exact (proj2 (proj2 (Hc 1%Z (create_cmd Scenario.bundled) eq_refl))).
Defined.

Lemma marker_decides_reuse_witness :
  let w0 := snd (Builder.build_environment Scenario.bundled (Scenario.conda 0) Scenario.text
                   Scenario.builder Scenario.fresh) in
  let env := fingerprint Scenario.bundled :: [".conda-env"; "data"; "home"] in
  let w := with_fs w0 (<[".success" :: env := Dir]> (fs w0)) in
  dirloc w (env_dir Scenario.bundled "./data") = inr env /\
  fs w !! (".success" :: env) = Some Dir /\
  Builder.build_environment Scenario.bundled (Scenario.conda 1) Scenario.text
    Scenario.builder w =
    (Ok (built Scenario.bundled "./data"), add_event w (log_reuse Scenario.bundled w "./data")).
Proof.
  intros w0 env w.
  assert (H1 : dirloc w (env_dir Scenario.bundled "./data") = inr env)
    by (vm_compute; reflexivity).
  assert (H2 : fs w !! (".success" :: env) = Some Dir) by (vm_compute; reflexivity).
  assert (H3 : write_file (requirements_path "./data") (manifest Scenario.bundled) w
               = (Ok tt, w)).
  { apply (has_copy_again w "./data" "requirements.txt" _ eq_refl).
    exists ["data"; "home"]. split; vm_compute; reflexivity. }
  split; [exact H1 |]. split; [exact H2 |].
  exact (proj1 (marker_decides_reuse Scenario.bundled (Scenario.conda 1) Scenario.text
                  Scenario.builder w env Dir w H1 H2 H3)).
Defined.

Lemma main_prepares_directory_witness :
  let run := Builder.main Scenario.bundled (Scenario.conda 0) Scenario.text
               "./data" ["-n"] Scenario.home in
  exec_preserves (Scenario.conda 0) /\
  fst run = Ok tt /\
  exists w3,
    has_copy w3 "./data" "requirements.txt" (manifest Scenario.bundled) /\
    os_path_exists w3 (marker_path Scenario.bundled "./data") = true /\
    has_copy w3 "./data" "Snakefile" (snakefile Scenario.bundled).
Proof.
  intros run.
  assert (Hr : fst run = Ok tt) by (vm_compute; reflexivity).
  split; [apply conda_preserves |]. split; [exact Hr |].
  destruct (main_prepares_directory Scenario.bundled (Scenario.conda 0) Scenario.text
              "./data" ["-n"] Scenario.home (fst run) (snd run)
              (conda_preserves 0) (surjective_pairing run))
    as [(e & added & He & _) | (w3 & _ & H1 & H2 & H3)].
  - rewrite Hr in He. discriminate He.
  - exists w3. auto.
Defined.

Lemma main_first_run_witness :
  let cur := ["data"; "home"] in
  let env := fingerprint Scenario.bundled :: ".conda-env" :: cur in
  let m := <[env := Dir]>
             (<[".conda-env" :: cur := Dir]>
                (<["requirements.txt" :: cur := File (manifest Scenario.bundled)]>
                   (fs Scenario.fresh))) in
  let p := {| stdout := [list_byte_of_string ("Solving environment: done" +:+ Scenario.nl)];
              returncode := 0;
              fs_after := <["conda-meta" :: env := Dir]> m |} in
  let m' := <["Snakefile" :: cur := File (snakefile Scenario.bundled)]>
              (<[".success" :: env := File []]> (fs_after p)) in
  Scenario.conda 0 (create_cmd Scenario.bundled) cur m = Some p /\
  fst (Builder.main Scenario.bundled (Scenario.conda 0) Scenario.text
         "./data" ["-n"; "-j4"] Scenario.fresh) = Ok tt /\
  fs (snd (Builder.main Scenario.bundled (Scenario.conda 0) Scenario.text
             "./data" ["-n"; "-j4"] Scenario.fresh)) = m'.
Proof.
  intros cur env m p m'.
  assert (Hd : os_stat Scenario.fresh "./data" = inr (cur, Dir)) by (vm_compute; reflexivity).
  assert (He : Scenario.conda 0 (create_cmd Scenario.bundled) cur m = Some p)
    by (vm_compute; reflexivity).
  assert (Hsub : m ⊆ fs_after p).
  { apply insert_subseteq. vm_compute. reflexivity. }
  split; [exact He |].
  destruct (main_first_run Scenario.bundled (Scenario.conda 0) Scenario.text
              "./data" ["-n"; "-j4"] Scenario.fresh cur p ["Solving environment: done"]
              {| stdout := []; returncode := 0; fs_after := m' |} []) as [Hm _].
  - exact Hd.
  - vm_compute. discriminate.
  - left. vm_compute. reflexivity.
  - vm_compute. reflexivity.
  - exact He.
  - repeat constructor.
  - reflexivity.
  - exact Hsub.
  - vm_compute. discriminate.
  - vm_compute. discriminate.
  - reflexivity.
  - constructor.
  - reflexivity.
  - rewrite Hm. split; reflexivity.
Defined.

Lemma main_stops_at_failed_creation_witness :
  let cur := ["data"; "home"] in
  let env := fingerprint Scenario.bundled :: ".conda-env" :: cur in
  let m := <[env := Dir]>
             (<[".conda-env" :: cur := Dir]>
                (<["requirements.txt" :: cur := File (manifest Scenario.bundled)]>
                   (fs Scenario.fresh))) in
  let run := Builder.main Scenario.bundled (Scenario.conda 1) Scenario.text
               "./data" ["-n"] Scenario.fresh in
  fst run = Raise (CalledProcessError 1 (create_cmd Scenario.bundled)) /\
  fs (snd run) = <["conda-meta" :: env := Dir]> m /\
  fs (snd run) !! ("Snakefile" :: cur) = None.
Proof.
  intros cur env m run.
  assert (Hd : os_stat Scenario.fresh "./data" = inr (cur, Dir)) by (vm_compute; reflexivity).
  assert (Hrc : (1 <> 0)%Z) by lia.
  assert (Hm : run = _) by
    (apply (main_stops_at_failed_creation Scenario.bundled (Scenario.conda 1) Scenario.text
              "./data" ["-n"] Scenario.fresh cur
              {| stdout := [list_byte_of_string ("Solving environment: done" +:+ Scenario.nl)];
                 returncode := 1;
                 fs_after := <["conda-meta" :: env := Dir]> m |}
              ["Solving environment: done"]);
     [ exact Hd | vm_compute; discriminate | left; vm_compute; reflexivity
     | vm_compute; reflexivity | vm_compute; reflexivity | repeat constructor | exact Hrc ]).
  rewrite Hm. split; [reflexivity |]. split; [reflexivity |]. vm_compute. reflexivity.
Defined.

Lemma target_is_a_file_witness :
  let w := with_fs Scenario.home (<[["f"; "home"] := File []]> (fs Scenario.home)) in
  os_stat w "f" = inr (["f"; "home"], File []) /\
  Builder.main Scenario.bundled (Scenario.conda 0) Scenario.text "f" [] w
    = (Raise (OSError ENOTDIR), w).
Proof.
  intros w.
  assert (Hd : os_stat w "f" = inr (["f"; "home"], File [])) by (vm_compute; reflexivity).
  split; [exact Hd |].
  exact (proj2 (proj2 (proj2 (target_is_a_file Scenario.bundled (Scenario.conda 0)
                                Scenario.text "f" [] w ["f"; "home"] [] Hd)))).
Defined.

Lemma main_later_run_witness :
  let first := Builder.main Scenario.bundled (Scenario.conda 0) Scenario.text
                 "./data" ["-n"] Scenario.fresh in
  let later := Builder.main Scenario.bundled (Scenario.conda 0) Scenario.text
                 "./data" ["-j4"] (snd first) in
  fst first = Ok tt /\
  spawned (events (snd first)) =
    [(create_cmd Scenario.bundled, "./data");
     (run_cmd Scenario.bundled (PyList ["-n"]), "./data")] /\
  later =
    (Ok tt,
     {| fs := fs (snd first); cwd := ["home"];
        events := events (snd first)
                    ++ [log_reuse Scenario.bundled Scenario.fresh "./data";
                        log_running "./data";
                        EvSpawn (run_cmd Scenario.bundled (PyList ["-j4"])) "./data"] |}).
Proof.
  intros first later.
  set (w := snd first).
  set (cur := ["data"; "home"]).
  set (env := fingerprint Scenario.bundled :: ".conda-env" :: cur).
  assert (Hf : fst first = Ok tt) by (vm_compute; reflexivity).
  assert (Hs : spawned (events w) =
               [(create_cmd Scenario.bundled, "./data");
                (run_cmd Scenario.bundled (PyList ["-n"]), "./data")])
    by (vm_compute; reflexivity).
  assert (Hd : os_stat w "./data" = inr (cur, Dir)) by (vm_compute; reflexivity).
  assert (Hfs : <["Snakefile" :: cur := File (snakefile Scenario.bundled)]>
                  (<["requirements.txt" :: cur := File (manifest Scenario.bundled)]> (fs w))
                = fs w).
  { rewrite (insert_id (fs w) ("requirements.txt" :: cur)) by (vm_compute; reflexivity).
    apply insert_id. vm_compute. reflexivity. }
  split; [exact Hf |]. split; [exact Hs |].
  unfold later. fold w.
  rewrite (main_later_run Scenario.bundled (Scenario.conda 0) Scenario.text
             "./data" ["-j4"] w cur (File [])
             {| stdout := []; returncode := 0; fs_after := fs w |} []).
  - reflexivity.
  - exact Hd.
  - vm_compute. discriminate.
  - vm_compute. discriminate.
  - vm_compute. reflexivity.
  - vm_compute. reflexivity.
  - vm_compute. reflexivity.
  - fold cur. rewrite Hfs. reflexivity.
  - constructor.
  - reflexivity.
Defined.
